(** * Robot workcell simulator: a shallow embedding of [robot_workcell.py]

    The Python classes [Position], [WorkcellDevice], [RobotArm] and
    [Workcell] are embedded as records with their methods as computations
    in a small state-and-exception monad.  Console output has no effect on
    the state and is left out, and so are the calls of [time.sleep] on the
    literals 0.3 and 0.5, which cannot raise; the calls of [time.sleep] on a
    computed value are kept for the errors they raise.  The clock
    ([datetime.now()]) is an input: every call site receives the value it
    read. *)

From Stdlib Require Import ZArith Floats.PrimFloat Floats.FloatOps Floats.SpecFloat Uint63.
From stdpp Require Import gmap strings list pretty.

Open Scope string_scope.

(** ** Python values shared by the classes *)

(** A plate identifier is a Python string; an attribute that holds one may
    also be [None]. *)
Definition PlateId : Type := string.

(** The f-string rendering [{self.plate_id}] of such an attribute. *)
Definition fmt_plate (p : option PlateId) : string :=
  match p with
  | Some s => s
  | None => "None"
  end.

(** The verb that ends the message of the three "has no plate to ..."
    raise sites. *)
Inductive action := to_unload | to_process | to_pick.

Definition action_str (a : action) : string :=
  match a with
  | to_unload => "unload"
  | to_process => "process"
  | to_pick => "pick"
  end.

(** The exceptions the program can raise.  Every explicit [raise] builds a
    plain [Exception] from an f-string; a constructor stands for one message
    format and carries the interpolated fields.  [KeyError] is what the
    subscript [self.devices[name]] raises for a missing key.  The others
    are raised by the interpreter: the two forms of [ZeroDivisionError] by
    [/] for a zero divisor, [OverflowError] and [ValueError] by [math.sqrt],
    by the conversion of an int to a float and by [time.sleep]. *)
Inductive exn :=
| AlreadyHasPlate (device : string) (held : option PlateId)
    (* load_plate (l.37), place_plate (l.126) *)
| NoPlateTo (a : action) (device : string)
    (* unload_plate (l.49), process (l.62), pick_plate (l.105) *)
| AlreadyHolding (robot : string) (held : option PlateId)
    (* pick_plate (l.102) *)
| NotHolding (robot : string)
    (* place_plate (l.123) *)
| KeyError (key : string)
| ZeroDivisionError
    (* int / int with a zero divisor *)
| FloatZeroDivisionError
    (* float / number with a zero divisor *)
| OverflowError (msg : string)
| ValueError (msg : string).

(** The messages of the errors that the interpreter raises in the conversion
    of an int to a float (also inside [math.sqrt]) and in [time.sleep]
    (CPython 3.11). *)
Definition int_too_large : string := "int too large to convert to float".
Definition timestamp_too_large : string := "timestamp too large to convert to C _PyTime_t".
Definition negative_sleep : string := "sleep length must be non-negative".
Definition nan_sleep : string := "Invalid value NaN (not a number)".

(** [str(e)]: the message of the exception.  For a [KeyError] it is the
    [repr] of the key, given here for keys that need no escaping. *)
Definition str (e : exn) : string :=
  match e with
  | AlreadyHasPlate d p => "❌ " ++ d ++ " already has plate " ++ fmt_plate p ++ "!"
  | NoPlateTo a d => "❌ " ++ d ++ " has no plate to " ++ action_str a ++ "!"
  | AlreadyHolding r p => "❌ " ++ r ++ " already holding plate " ++ fmt_plate p ++ "!"
  | NotHolding r => "❌ " ++ r ++ " not holding a plate!"
  | KeyError k => "'" ++ k ++ "'"
  | ZeroDivisionError => "division by zero"
  | FloatZeroDivisionError => "float division by zero"
  | OverflowError msg => msg
  | ValueError msg => msg
  end.

(** The error names of the specification (section 7), as a reading of the
    raise sites: each explicit [raise] guards one documented precondition.
    The program never validates a device name, so the lookup failure
    [KeyError] is none of them, and neither are the errors of the
    interpreter. *)
Inductive ErrorKind :=
| GripperOccupiedError
| GripperEmptyError
| EmptyDeviceError
| AlreadyLoadedError
| UnknownDeviceError.

Definition error_kind (e : exn) : option ErrorKind :=
  match e with
  | AlreadyHasPlate _ _ => Some AlreadyLoadedError
  | NoPlateTo _ _ => Some EmptyDeviceError
  | AlreadyHolding _ _ => Some GripperOccupiedError
  | NotHolding _ => Some GripperEmptyError
  | KeyError _ => None
  | ZeroDivisionError => None
  | FloatZeroDivisionError => None
  | OverflowError _ => None
  | ValueError _ => None
  end.

(** ** State and exceptions *)

Inductive result (A : Type) :=
| Return (a : A)
| Raise (e : exn).
Arguments Return {A} a.
Arguments Raise {A} e.

(** A method running on a state of type [S]: it ends by returning or by
    raising, and in both cases leaves the state as mutated so far. *)
Definition M (S A : Type) : Type := S -> result A * S.

Definition ret {S A} (a : A) : M S A := fun s => (Return a, s).

Definition raise {S A} (e : exn) : M S A := fun s => (Raise e, s).

Definition bind {S A B} (m : M S A) (k : A -> M S B) : M S B :=
  fun s =>
    match m s with
    | (Return a, s') => k a s'
    | (Raise e, s') => (Raise e, s')
    end.

Definition get {S} : M S S := fun s => (Return s, s).

Definition modify {S} (f : S -> S) : M S unit := fun s => (Return tt, f s).

(** [try: m except Exception as e: h e].  Every exception of the model is
    an instance of [Exception] ([KeyError] is a subclass), so the handler
    takes them all. *)
Definition try_except {S A} (m : M S A) (h : exn -> M S A) : M S A :=
  fun s =>
    match m s with
    | (Return a, s') => (Return a, s')
    | (Raise e, s') => h e s'
    end.

(** Run a method of the first (second) component of a pair of objects. *)
Definition on_fst {S T A} (m : M S A) : M (S * T) A :=
  fun st => let '(r, s') := m (fst st) in (r, (s', snd st)).

Definition on_snd {S T A} (m : M T A) : M (S * T) A :=
  fun st => let '(r, t') := m (snd st) in (r, (fst st, t')).

Declare Scope method_scope.
Delimit Scope method_scope with method.
Notation "x <- m ;; k" := (bind m (fun x => k))
  (at level 100, m at next level, right associativity) : method_scope.
Notation "m ;; k" := (bind m (fun _ => k))
  (at level 100, right associativity) : method_scope.
Open Scope method_scope.

(** ** datetime *)

(** The naive local time that [datetime.now()] returns. *)
Record datetime := {
  year : Z; month : Z; day : Z;
  hour : Z; minute : Z; second : Z;
}.

(** A two-digit, zero-padded field of [strftime]. *)
Definition two_digits (n : Z) : string :=
  pretty (n / 10)%Z ++ pretty (n mod 10)%Z.

(** [t.strftime('%H:%M:%S')] *)
Definition strftime_HMS (t : datetime) : string :=
  two_digits (hour t) ++ ":" ++ two_digits (minute t) ++ ":" ++ two_digits (second t).

(** ** class Position *)

Module Position.

Record t := {
  x : Z;
  y : Z;
  z : Z;
  name : string;
}.

End Position.

(** ** Python numbers *)

(** [success_rate] is a float on one branch of the conditional expression
    and the int [0] on the other. *)
Inductive pynum :=
| PyInt (n : Z)
| PyFloat (f : float).

(** [float(n)], exact for [0 <= n <= 2^53], which no list length exceeds. *)
Definition float_of_int (n : Z) : float := PrimFloat.of_uint63 (Uint63.of_Z n).

(** [a / b] on ints: the quotient rounded to the nearest binary64, which for
    operands up to [2^53] is the IEEE quotient of their floats. *)
Definition truediv {S} (a b : Z) : M S float :=
  if (b =? 0)%Z then raise ZeroDivisionError
  else ret (PrimFloat.div (float_of_int a) (float_of_int b)).

(** [n / d] rounded to the nearest integer, ties to even ([0 < d]). *)
Definition round_half_even (n d : Z) : Z :=
  let q := (n / d)%Z in
  let r := (n mod d)%Z in
  if (2 * r <? d)%Z then q
  else if (d <? 2 * r)%Z then (q + 1)%Z
  else if Z.even q then q else (q + 1)%Z.

(** A number of tenths [t >= 0] written with one decimal. *)
Definition fixed1 (t : Z) : string :=
  pretty (t / 10)%Z ++ "." ++ pretty (t mod 10)%Z.

Definition sign_str (negative : bool) : string :=
  if negative then "-" else "".

(** [f"{v:.1f}"]: the exact binary value, correctly rounded to one decimal. *)
Definition format_1f (v : pynum) : string :=
  match v with
  | PyInt n => sign_str (n <? 0)%Z ++ fixed1 (Z.abs n * 10)
  | PyFloat f =>
      match Prim2SF f with
      | S754_zero s => sign_str s ++ "0.0"
      | S754_infinity s => sign_str s ++ "inf"
      | S754_nan => "nan"
      | S754_finite s m e =>
          sign_str s ++
          fixed1 (if (0 <=? e)%Z then Z.pos m * 10 * 2 ^ e
                  else round_half_even (Z.pos m * 10) (2 ^ (- e)))%Z
      end
  end.

(** The binary64 nearest to an int of either sign, an infinity when that is
    out of range. *)
Definition float_of_Z (n : Z) : float :=
  SF2Prim (binary_normalize prec emax n 0 false).

(** The conversion of an int to a float where the interpreter makes it, in
    [math.sqrt(n)] and in [x / n]: it raises when the nearest binary64 is
    out of range. *)
Definition to_float {S} (n : Z) : M S float :=
  if PrimFloat.is_infinity (float_of_Z n)
  then raise (OverflowError int_too_large)
  else ret (float_of_Z n).

(** [self.distance_to(other)] on int coordinates: the squares and their sum
    are exact, [math.sqrt] converts the sum, which raises when it is out of
    the range of floats, and takes the IEEE root. *)
Definition distance_to {S} (self other : Position.t) : M S float :=
  sum <- to_float ((Position.x self - Position.x other) ^ 2 +
                   (Position.y self - Position.y other) ^ 2 +
                   (Position.z self - Position.z other) ^ 2) ;;
  ret (PrimFloat.sqrt sum).

(** [min(t, 1)] for a float [t]: the int 1 when [1 < t], else [t]. *)
Definition min_1 (t : float) : pynum :=
  if PrimFloat.ltb 1 t then PyInt 1 else PyFloat t.

(** [time.sleep(secs)] as far as its argument can make it raise.  The
    argument is converted to a whole number of nanoseconds that must fit 64
    bits, and must then not be negative; a NaN is refused first.  The
    program passes a float only after [min(t, 1)], so the float case is met
    by floats up to 1 and by NaN.  The sleep itself is taken to end: the
    operating system refuses a deadline (the reading of its monotonic clock
    plus the argument) beyond [2^63] ns, which depends on that reading and
    is left out; no argument up to [2^62] ns meets it on a system that has
    been up for less than 146 years. *)
Definition time_sleep {S} (secs : pynum) : M S unit :=
  match secs with
  | PyInt n =>
      if ((n <? -9223372036) || (9223372036 <? n))%Z
      then raise (OverflowError timestamp_too_large)
      else if (n <? 0)%Z then raise (ValueError negative_sleep)
      else ret tt
  | PyFloat t =>
      if PrimFloat.is_nan t then raise (ValueError nan_sleep)
      else
        let ns := PrimFloat.mul t 1000000000 in
        if negb (PrimFloat.leb (-9223372036854775808) ns &&
                 PrimFloat.ltb ns 9223372036854775808)
        then raise (OverflowError timestamp_too_large)
        else if PrimFloat.ltb ns 0 then raise (ValueError negative_sleep)
        else ret tt
  end.

(** ** class WorkcellDevice *)

(** The values the [status] attribute takes: 'idle', 'loaded', 'processing'
    and 'complete'. *)
Inductive Status := idle | loaded | processing | complete.

Module WorkcellDevice.

Record t := {
  name : string;
  position : Position.t;
  status : Status;
  has_plate : bool;
  plate_id : option PlateId;
}.

(** [WorkcellDevice(name, position)] *)
Definition init (name : string) (position : Position.t) : t :=
  {| name := name; position := position; status := idle;
     has_plate := false; plate_id := None |}.

Definition set_status (v : Status) (self : t) : t :=
  {| name := name self; position := position self; status := v;
     has_plate := has_plate self; plate_id := plate_id self |}.

Definition set_has_plate (v : bool) (self : t) : t :=
  {| name := name self; position := position self; status := status self;
     has_plate := v; plate_id := plate_id self |}.

Definition set_plate_id (v : option PlateId) (self : t) : t :=
  {| name := name self; position := position self; status := status self;
     has_plate := has_plate self; plate_id := v |}.

(** The argument is the value the caller hands over; [place_plate] reads
    it from an attribute that may be [None]. *)
Definition load_plate (plate_id' : option PlateId) : M t bool :=
  self <- get ;;
  if has_plate self then raise (AlreadyHasPlate (name self) (plate_id self))
  else
    modify (set_has_plate true) ;;
    modify (set_plate_id plate_id') ;;
    modify (set_status loaded) ;;
    ret true.

Definition unload_plate : M t (option PlateId) :=
  self <- get ;;
  if negb (has_plate self) then raise (NoPlateTo to_unload (name self))
  else
    let plate_id' := plate_id self in
    modify (set_has_plate false) ;;
    modify (set_plate_id None) ;;
    modify (set_status idle) ;;
    ret plate_id'.

Definition process (duration : Z) : M t bool :=
  self <- get ;;
  if negb (has_plate self) then raise (NoPlateTo to_process (name self))
  else
    modify (set_status processing) ;;
    time_sleep (PyInt duration) ;;
    modify (set_status complete) ;;
    ret true.

End WorkcellDevice.

(** ** class RobotArm *)

Module RobotArm.

Record t := {
  name : string;
  current_position : Position.t;
  has_plate : bool;
  plate_id : option PlateId;
  speed : Z;
  moves_count : Z;
}.

Definition home : Position.t :=
  {| Position.x := 0; Position.y := 0; Position.z := 0; Position.name := "Home" |}.

(** [RobotArm(name)] *)
Definition init (name : string) : t :=
  {| name := name; current_position := home; has_plate := false;
     plate_id := None; speed := 100; moves_count := 0 |}.

Definition set_current_position (v : Position.t) (self : t) : t :=
  {| name := name self; current_position := v; has_plate := has_plate self;
     plate_id := plate_id self; speed := speed self;
     moves_count := moves_count self |}.

Definition set_has_plate (v : bool) (self : t) : t :=
  {| name := name self; current_position := current_position self;
     has_plate := v; plate_id := plate_id self; speed := speed self;
     moves_count := moves_count self |}.

Definition set_plate_id (v : option PlateId) (self : t) : t :=
  {| name := name self; current_position := current_position self;
     has_plate := has_plate self; plate_id := v; speed := speed self;
     moves_count := moves_count self |}.

Definition set_moves_count (v : Z) (self : t) : t :=
  {| name := name self; current_position := current_position self;
     has_plate := has_plate self; plate_id := plate_id self;
     speed := speed self; moves_count := v |}.

(** The distance, the travel time and the pacing delay come first: each of
    them can raise, and then nothing has been assigned. *)
Definition move_to (target_position : Position.t) : M t bool :=
  self <- get ;;
  distance <- distance_to (current_position self) target_position ;;
  speed' <- to_float (speed self) ;;
  travel_time <-
    (if PrimFloat.is_zero speed' then raise FloatZeroDivisionError
     else ret (PrimFloat.div distance speed')) ;;
  time_sleep (min_1 travel_time) ;;
  modify (set_current_position target_position) ;;
  self' <- get ;;
  modify (set_moves_count (moves_count self' + 1)) ;;
  ret true.

(** [self.pick_plate(device, plate_id)]: the state is the robot and the
    device object it is handed. *)
Definition pick_plate (plate_id' : PlateId) : M (t * WorkcellDevice.t) bool :=
  st <- get ;;
  let self := fst st in
  let device := snd st in
  if has_plate self then raise (AlreadyHolding (name self) (plate_id self))
  else if negb (WorkcellDevice.has_plate device)
  then raise (NoPlateTo to_pick (WorkcellDevice.name device))
  else
    on_fst (move_to (WorkcellDevice.position device)) ;;
    on_snd WorkcellDevice.unload_plate ;;
    on_fst (modify (set_has_plate true)) ;;
    on_fst (modify (set_plate_id (Some plate_id'))) ;;
    ret true.

(** [self.place_plate(device)] *)
Definition place_plate : M (t * WorkcellDevice.t) bool :=
  st <- get ;;
  let self := fst st in
  let device := snd st in
  if negb (has_plate self) then raise (NotHolding (name self))
  else if WorkcellDevice.has_plate device
  then raise (AlreadyHasPlate (WorkcellDevice.name device)
                              (WorkcellDevice.plate_id device))
  else
    on_fst (move_to (WorkcellDevice.position device)) ;;
    st' <- get ;;
    let plate_id' := plate_id (fst st') in
    on_snd (WorkcellDevice.load_plate plate_id') ;;
    on_fst (modify (set_has_plate false)) ;;
    on_fst (modify (set_plate_id None)) ;;
    ret true.

Definition return_home : M t unit :=
  move_to home ;;
  ret tt.

End RobotArm.

(** ** The protocol log *)

(** The values of an entry's ['status'] key. *)
Inductive TransferStatus := success | failed.

Module LogEntry.

(** One dictionary of [protocol_log]; the ['error'] key is present in a
    failed entry only. *)
Record t := {
  timestamp : string;
  plate_id : PlateId;
  from : string;
  to : string;
  status : TransferStatus;
  error : option string;
}.

(** [l['status'] == 'success'] *)
Definition is_success (l : t) : bool :=
  match status l with
  | success => true
  | failed => false
  end.

End LogEntry.

(** ** class Workcell *)

Module Workcell.

(** [devices] is the dictionary from names to device objects.  A device
    object is referred to by the key it is stored under, so the map is
    also the store of the objects: a method call on [devices[k]] rewrites
    the binding of [k], and two references with the same key are the same
    object. *)
Record t := {
  name : string;
  robot : RobotArm.t;
  devices : gmap string WorkcellDevice.t;
  protocol_log : list LogEntry.t;
  start_time : option datetime;
}.

(** [Workcell(name)] *)
Definition init (name : string) : t :=
  {| name := name; robot := RobotArm.init "RobotArm"; devices := ∅;
     protocol_log := []; start_time := None |}.

Definition set_robot (v : RobotArm.t) (self : t) : t :=
  {| name := name self; robot := v; devices := devices self;
     protocol_log := protocol_log self; start_time := start_time self |}.

Definition set_devices (v : gmap string WorkcellDevice.t) (self : t) : t :=
  {| name := name self; robot := robot self; devices := v;
     protocol_log := protocol_log self; start_time := start_time self |}.

Definition set_protocol_log (v : list LogEntry.t) (self : t) : t :=
  {| name := name self; robot := robot self; devices := devices self;
     protocol_log := v; start_time := start_time self |}.

Definition set_start_time (v : option datetime) (self : t) : t :=
  {| name := name self; robot := robot self; devices := devices self;
     protocol_log := protocol_log self; start_time := v |}.

Definition add_device (device : WorkcellDevice.t) : M t unit :=
  self <- get ;;
  modify (set_devices (<[WorkcellDevice.name device := device]> (devices self))).

(** [self.devices[key]] *)
Definition getitem (key : string) : M t WorkcellDevice.t :=
  self <- get ;;
  match devices self !! key with
  | Some device => ret device
  | None => raise (KeyError key)
  end.

(** A method of the robot called with the device object of [key]: it runs
    on the robot and that object, and both are written back. *)
Definition call_robot {A} (key : string)
    (m : M (RobotArm.t * WorkcellDevice.t) A) : M t A :=
  fun self =>
    match devices self !! key with
    | Some device =>
        let '(r, (robot', device')) := m (robot self, device) in
        (r, set_devices (<[key := device']> (devices self)) (set_robot robot' self))
    | None => (Raise (KeyError key), self)
    end.

(** [self.devices[key].m(...)] *)
Definition call_device {A} (key : string) (m : M WorkcellDevice.t A) : M t A :=
  fun self =>
    match devices self !! key with
    | Some device =>
        let '(r, device') := m device in
        (r, set_devices (<[key := device']> (devices self)) self)
    | None => (Raise (KeyError key), self)
    end.

(** [self.robot.m(...)] *)
Definition call_self_robot {A} (m : M RobotArm.t A) : M t A :=
  fun self =>
    let '(r, robot') := m (robot self) in (r, set_robot robot' self).

(** [self.protocol_log.append(entry)] *)
Definition append (entry : LogEntry.t) : M t unit :=
  self <- get ;;
  modify (set_protocol_log (protocol_log self ++ [entry])).

(** [now] is the value of [datetime.now()] read when the entry is built. *)
Definition transfer_plate (now : datetime) (plate_id : PlateId)
    (from_device_name to_device_name : string) : M t bool :=
  from_device <- getitem from_device_name ;;
  to_device <- getitem to_device_name ;;
  try_except
    (call_robot from_device_name (RobotArm.pick_plate plate_id) ;;
     call_robot to_device_name RobotArm.place_plate ;;
     append {| LogEntry.timestamp := strftime_HMS now;
               LogEntry.plate_id := plate_id;
               LogEntry.from := from_device_name;
               LogEntry.to := to_device_name;
               LogEntry.status := success;
               LogEntry.error := None |} ;;
     ret true)
    (fun e =>
       append {| LogEntry.timestamp := strftime_HMS now;
                 LogEntry.plate_id := plate_id;
                 LogEntry.from := from_device_name;
                 LogEntry.to := to_device_name;
                 LogEntry.status := failed;
                 LogEntry.error := Some (str e) |} ;;
       ret false).

(** The figures printed when the protocol completes. *)
Record Report := {
  total_transfers : Z;
  successful_transfers : Z;
  failed_transfers : Z;
  success_rate : pynum;
  robot_movements : Z;
  est_distance : Z;
}.

Definition report : M t Report :=
  self <- get ;;
  let total_transfers := Z.of_nat (length (protocol_log self)) in
  let successful_transfers :=
    Z.of_nat (length (List.filter LogEntry.is_success (protocol_log self))) in
  let failed_transfers := (total_transfers - successful_transfers)%Z in
  success_rate <-
    (if (0 <? total_transfers)%Z
     then q <- truediv successful_transfers total_transfers ;;
          ret (PyFloat (PrimFloat.mul q (float_of_int 100)))
     else ret (PyInt 0)) ;;
  ret {| total_transfers := total_transfers;
         successful_transfers := successful_transfers;
         failed_transfers := failed_transfers;
         success_rate := success_rate;
         robot_movements := RobotArm.moves_count (robot self);
         est_distance := (RobotArm.moves_count (robot self) * 400)%Z |}.

(** The rows that [show_protocol_log] prints. *)
Definition show_protocol_log : M t (list LogEntry.t) :=
  self <- get ;;
  ret (protocol_log self).

(** What the runner prints last: the report and the log, or the error and
    the partial log. *)
Inductive outcome :=
| ProtocolComplete (r : Report) (shown : list LogEntry.t)
| ProtocolFailed (e : exn) (shown : list LogEntry.t).

Definition plate_id : PlateId := "CELL_CULTURE_PLATE_001".

(** [clock 0] is the reading stored in [start_time]; [clock 1] to
    [clock 5] are the readings of the five transfers. *)
Definition run_cell_screening_protocol (clock : nat -> datetime) : M t outcome :=
  modify (set_start_time (Some (clock 0%nat))) ;;
  try_except
    (transfer_plate (clock 1%nat) plate_id "Storage" "LiquidHandler" ;;
     call_device "LiquidHandler" (WorkcellDevice.process 3) ;;
     transfer_plate (clock 2%nat) plate_id "LiquidHandler" "Centrifuge" ;;
     call_device "Centrifuge" (WorkcellDevice.process 2) ;;
     transfer_plate (clock 3%nat) plate_id "Centrifuge" "ThermalCycler" ;;
     call_device "ThermalCycler" (WorkcellDevice.process 4) ;;
     transfer_plate (clock 4%nat) plate_id "ThermalCycler" "PlateReader" ;;
     call_device "PlateReader" (WorkcellDevice.process 2) ;;
     transfer_plate (clock 5%nat) plate_id "PlateReader" "Storage" ;;
     call_self_robot RobotArm.return_home ;;
     r <- report ;;
     shown <- show_protocol_log ;;
     ret (ProtocolComplete r shown))
    (fun e =>
       shown <- show_protocol_log ;;
       ret (ProtocolFailed e shown)).

End Workcell.

(** ** The workcell that [main] sets up *)

Definition mk_position (x y z : Z) (name : string) : Position.t :=
  {| Position.x := x; Position.y := y; Position.z := z; Position.name := name |}.

(** [storage], after [main] has put the plate in it by assigning the two
    attributes directly (its [status] stays ['idle']). *)
Definition storage : WorkcellDevice.t :=
  WorkcellDevice.set_plate_id (Some "CELL_CULTURE_PLATE_001")
    (WorkcellDevice.set_has_plate true
       (WorkcellDevice.init "Storage" (mk_position 100 200 50 "Storage"))).

Definition liquid_handler : WorkcellDevice.t :=
  WorkcellDevice.init "LiquidHandler" (mk_position 400 200 100 "LiquidHandler").

Definition thermal_cycler : WorkcellDevice.t :=
  WorkcellDevice.init "ThermalCycler" (mk_position 700 200 80 "ThermalCycler").

Definition plate_reader : WorkcellDevice.t :=
  WorkcellDevice.init "PlateReader" (mk_position 1000 200 90 "PlateReader").

Definition centrifuge : WorkcellDevice.t :=
  WorkcellDevice.init "Centrifuge" (mk_position 550 400 75 "Centrifuge").

Definition main_workcell : Workcell.t :=
  snd ((Workcell.add_device storage ;;
        Workcell.add_device liquid_handler ;;
        Workcell.add_device thermal_cycler ;;
        Workcell.add_device plate_reader ;;
        Workcell.add_device centrifuge)
         (Workcell.init "Cell Line Screening Workcell")).

(** A clock for the examples: 09:00:00, 09:00:01, ... *)
Definition example_clock (n : nat) : datetime :=
  {| year := 2025; month := 1; day := 1; hour := 9; minute := 0; second := Z.of_nat n |}.

(** ** Predicates of the specification *)

(** The device invariant of the data model: a plate is held exactly in the
    states Loaded, Processing and Complete. *)
Definition device_inv (d : WorkcellDevice.t) : Prop :=
  WorkcellDevice.has_plate d = true <->
  (WorkcellDevice.status d = loaded \/ WorkcellDevice.status d = processing \/
   WorkcellDevice.status d = complete).

(** The plates a device holds: the content of its single slot when
    [has_plate] is set. *)
Definition held_plates (d : WorkcellDevice.t) : list (option PlateId) :=
  if WorkcellDevice.has_plate d then [WorkcellDevice.plate_id d] else [].

(** The plate ids in custody in a workcell: the one in the gripper, if any,
    and the ones in the devices, with multiplicity. *)
Definition robot_held (r : RobotArm.t) : list (option PlateId) :=
  if RobotArm.has_plate r then [RobotArm.plate_id r] else [].

Definition held_in_devices (m : gmap string WorkcellDevice.t) : list (option PlateId) :=
  map_to_list m ≫= (fun kd => held_plates (snd kd)).

Definition held_ids (w : Workcell.t) : list (option PlateId) :=
  (robot_held (Workcell.robot w) ++ held_in_devices (Workcell.devices w))%list.

(** ** Errors of the interpreter inside a call *)

(** The error, if any, that [time.sleep(duration)] raises in [process]. *)
Definition sleep_error (duration : Z) : option exn :=
  match fst (time_sleep (PyInt duration) tt) with
  | Raise e => Some e
  | Return _ => None
  end.

(** The error, if any, that [move_to(target)] raises for the robot [r]. *)
Definition move_error (target : Position.t) (r : RobotArm.t) : option exn :=
  match fst (RobotArm.move_to target r) with
  | Raise e => Some e
  | Return _ => None
  end.

(** Whether the robot [r] can visit the targets one after the other. *)
Fixpoint route_clear (r : RobotArm.t) (targets : list Position.t) : bool :=
  match targets with
  | [] => true
  | target :: targets' =>
      match move_error target r with
      | None => route_clear (RobotArm.set_current_position target r) targets'
      | Some _ => false
      end
  end.

(** The eleven targets of the robot in a run of the protocol in which
    every transfer succeeds, given the five devices. *)
Definition protocol_route (dS dL dC dT dP : WorkcellDevice.t) : list Position.t :=
  [ WorkcellDevice.position dS; WorkcellDevice.position dL;
    WorkcellDevice.position dL; WorkcellDevice.position dC;
    WorkcellDevice.position dC; WorkcellDevice.position dT;
    WorkcellDevice.position dT; WorkcellDevice.position dP;
    WorkcellDevice.position dP; WorkcellDevice.position dS;
    RobotArm.home ].

(** ** States after a call that returned *)

(** The device after [unload_plate] and after [load_plate p] returned. *)
Definition device_unloaded (d : WorkcellDevice.t) : WorkcellDevice.t :=
  WorkcellDevice.set_status idle
    (WorkcellDevice.set_plate_id None (WorkcellDevice.set_has_plate false d)).

Definition device_loaded (p : option PlateId) (d : WorkcellDevice.t) : WorkcellDevice.t :=
  WorkcellDevice.set_status loaded
    (WorkcellDevice.set_plate_id p (WorkcellDevice.set_has_plate true d)).

(** The robot after [move_to target] returned. *)
Definition robot_moved (target : Position.t) (r : RobotArm.t) : RobotArm.t :=
  RobotArm.set_moves_count (RobotArm.moves_count r + 1)
    (RobotArm.set_current_position target r).

(** The robot after [pick_plate(d, p)] and after [place_plate(d)] returned. *)
Definition robot_picked (p : PlateId) (d : WorkcellDevice.t) (r : RobotArm.t) : RobotArm.t :=
  RobotArm.set_plate_id (Some p)
    (RobotArm.set_has_plate true (robot_moved (WorkcellDevice.position d) r)).

Definition robot_placed (d : WorkcellDevice.t) (r : RobotArm.t) : RobotArm.t :=
  RobotArm.set_plate_id None
    (RobotArm.set_has_plate false (robot_moved (WorkcellDevice.position d) r)).

(** The workcell after the robot picked [p] from the device [ds] of key
    [src]. *)
Definition workcell_picked (p : PlateId) (src : string) (ds : WorkcellDevice.t)
    (w : Workcell.t) : Workcell.t :=
  Workcell.set_devices (<[src := device_unloaded ds]> (Workcell.devices w))
    (Workcell.set_robot (robot_picked p ds (Workcell.robot w)) w).

(** The workcell after the robot placed its plate in the device [dd] of key
    [dst]. *)
Definition workcell_placed (dst : string) (dd : WorkcellDevice.t)
    (w : Workcell.t) : Workcell.t :=
  Workcell.set_devices
    (<[dst := device_loaded (RobotArm.plate_id (Workcell.robot w)) dd]> (Workcell.devices w))
    (Workcell.set_robot (robot_placed dd (Workcell.robot w)) w).

(** The two robot calls that open the [try] block of [transfer_plate]. *)
Definition pick_then_place (plate_id : PlateId) (from_device_name to_device_name : string)
    : M Workcell.t bool :=
  Workcell.call_robot from_device_name (RobotArm.pick_plate plate_id) ;;
  Workcell.call_robot to_device_name RobotArm.place_plate.

(** The log entry that a call of [transfer_plate] appends. *)
Definition entry_of (now : datetime) (plate_id : PlateId)
    (from_device_name to_device_name : string) (outcome : result bool) : LogEntry.t :=
  {| LogEntry.timestamp := strftime_HMS now;
     LogEntry.plate_id := plate_id;
     LogEntry.from := from_device_name;
     LogEntry.to := to_device_name;
     LogEntry.status := match outcome with Return _ => success | Raise _ => failed end;
     LogEntry.error := match outcome with Return _ => None | Raise e => Some (str e) end |}.

(** A call of [transfer_plate]: the clock reading and the three arguments. *)
Record TransferCall := {
  call_now : datetime;
  call_plate : PlateId;
  call_from : string;
  call_to : string;
}.

(** A caller that makes the given calls one after the other and collects
    what they return. *)
Fixpoint transfer_all (calls : list TransferCall) : M Workcell.t (list bool) :=
  match calls with
  | [] => ret []
  | c :: calls' =>
      b <- Workcell.transfer_plate (call_now c) (call_plate c) (call_from c) (call_to c) ;;
      bs <- transfer_all calls' ;;
      ret (b :: bs)
  end.

(** What a log entry and a call have in common. *)
Definition entry_key (l : LogEntry.t) : string * PlateId * string * string :=
  (LogEntry.timestamp l, LogEntry.plate_id l, LogEntry.from l, LogEntry.to l).

Definition call_key (c : TransferCall) : string * PlateId * string * string :=
  (strftime_HMS (call_now c), call_plate c, call_from c, call_to c).

(** ** The protocol as a list of steps *)

(** The statements of the [try] block of [run_cell_screening_protocol] up to
    the report, one constructor per kind of statement. *)
Inductive step :=
| Transfer (now : datetime) (plate_id : PlateId) (from_device_name to_device_name : string)
| Process (device_name : string) (duration : Z)
| ReturnHome.

Definition run_step (s : step) : M Workcell.t unit :=
  match s with
  | Transfer now plate_id from_device_name to_device_name =>
      Workcell.transfer_plate now plate_id from_device_name to_device_name ;; ret tt
  | Process device_name duration =>
      Workcell.call_device device_name (WorkcellDevice.process duration) ;; ret tt
  | ReturnHome => Workcell.call_self_robot RobotArm.return_home
  end.

Fixpoint run_steps (l : list step) : M Workcell.t unit :=
  match l with
  | [] => ret tt
  | s :: l' => run_step s ;; run_steps l'
  end.

Definition cell_screening_steps (clock : nat -> datetime) : list step :=
  [ Transfer (clock 1%nat) Workcell.plate_id "Storage" "LiquidHandler";
    Process "LiquidHandler" 3;
    Transfer (clock 2%nat) Workcell.plate_id "LiquidHandler" "Centrifuge";
    Process "Centrifuge" 2;
    Transfer (clock 3%nat) Workcell.plate_id "Centrifuge" "ThermalCycler";
    Process "ThermalCycler" 4;
    Transfer (clock 4%nat) Workcell.plate_id "ThermalCycler" "PlateReader";
    Process "PlateReader" 2;
    Transfer (clock 5%nat) Workcell.plate_id "PlateReader" "Storage";
    ReturnHome ].

(** The end of the [try] block, and the [except] block, of the runner. *)
Definition protocol_report : M Workcell.t Workcell.outcome :=
  r <- Workcell.report ;;
  shown <- Workcell.show_protocol_log ;;
  ret (Workcell.ProtocolComplete r shown).

Definition protocol_handler (e : exn) : M Workcell.t Workcell.outcome :=
  shown <- Workcell.show_protocol_log ;;
  ret (Workcell.ProtocolFailed e shown).

(** ** Workcells of the end-to-end scenarios *)

(** A device of the given name that was loaded with the given plate. *)
Definition loaded_device (name : string) (p : PlateId) : WorkcellDevice.t :=
  snd (WorkcellDevice.load_plate (Some p)
         (WorkcellDevice.init name (mk_position 0 0 0 name))).

(** Storage holds "P1", LiquidHandler holds "P0", the robot holds nothing. *)
Definition occupied_workcell : Workcell.t :=
  snd ((Workcell.add_device (loaded_device "Storage" "P1") ;;
        Workcell.add_device (loaded_device "LiquidHandler" "P0"))
         (Workcell.init "Scenario")).

(** A robot whose [speed] attribute has been set to 0, and a position
    whose distance from the home position is out of the range of floats. *)
Definition stalled_robot : RobotArm.t :=
  {| RobotArm.name := "RobotArm"; RobotArm.current_position := RobotArm.home;
     RobotArm.has_plate := false; RobotArm.plate_id := None;
     RobotArm.speed := 0; RobotArm.moves_count := 0 |}.

Definition far_position : Position.t := mk_position (2 ^ 512) 0 0 "Far".

(** The workcell of [main] with no plate in Storage. *)
Definition empty_workcell : Workcell.t :=
  snd ((Workcell.add_device (WorkcellDevice.init "Storage" (mk_position 100 200 50 "Storage")) ;;
        Workcell.add_device liquid_handler ;;
        Workcell.add_device thermal_cycler ;;
        Workcell.add_device plate_reader ;;
        Workcell.add_device centrifuge)
         (Workcell.init "Cell Line Screening Workcell")).

(** The workcell of [main] after two transfers that succeed and a third that
    fails because Storage is empty by then. *)
Definition three_transfers_workcell : Workcell.t :=
  snd (transfer_all
         [ {| call_now := example_clock 1; call_plate := Workcell.plate_id;
              call_from := "Storage"; call_to := "LiquidHandler" |};
           {| call_now := example_clock 2; call_plate := Workcell.plate_id;
              call_from := "LiquidHandler"; call_to := "Centrifuge" |};
           {| call_now := example_clock 3; call_plate := Workcell.plate_id;
              call_from := "Storage"; call_to := "LiquidHandler" |} ]
         main_workcell).

(** ** The cases of a transfer *)

(** The workcell [w1] with the entry of a transfer's outcome appended. *)
Definition logged (now : datetime) (p : PlateId) (src dst : string)
    (r : result bool) (w1 : Workcell.t) : Workcell.t :=
  Workcell.set_protocol_log
    (Workcell.protocol_log w1 ++ [entry_of now p src dst r]) w1.

(** The eight ways a call [transfer_plate(p, src, dst)] can go in a
    workcell [w], each with what it returns or raises and the workcell it
    leaves.  The robot moves twice, to the source and then to the
    destination, and either move can raise. *)
Inductive transfer_case (now : datetime) (p : PlateId) (src dst : string)
    (w : Workcell.t) : result bool -> Workcell.t -> Prop :=
| transfer_unknown_source :
    Workcell.devices w !! src = None ->
    transfer_case now p src dst w (Raise (KeyError src)) w
| transfer_unknown_destination ds :
    Workcell.devices w !! src = Some ds ->
    Workcell.devices w !! dst = None ->
    transfer_case now p src dst w (Raise (KeyError dst)) w
| transfer_gripper_occupied ds dd :
    Workcell.devices w !! src = Some ds ->
    Workcell.devices w !! dst = Some dd ->
    RobotArm.has_plate (Workcell.robot w) = true ->
    transfer_case now p src dst w (Return false)
      (logged now p src dst
         (Raise (AlreadyHolding (RobotArm.name (Workcell.robot w))
                   (RobotArm.plate_id (Workcell.robot w)))) w)
| transfer_source_empty ds dd :
    Workcell.devices w !! src = Some ds ->
    Workcell.devices w !! dst = Some dd ->
    RobotArm.has_plate (Workcell.robot w) = false ->
    WorkcellDevice.has_plate ds = false ->
    transfer_case now p src dst w (Return false)
      (logged now p src dst (Raise (NoPlateTo to_pick (WorkcellDevice.name ds))) w)
| transfer_source_unreachable ds dd e :
    Workcell.devices w !! src = Some ds ->
    Workcell.devices w !! dst = Some dd ->
    RobotArm.has_plate (Workcell.robot w) = false ->
    WorkcellDevice.has_plate ds = true ->
    move_error (WorkcellDevice.position ds) (Workcell.robot w) = Some e ->
    transfer_case now p src dst w (Return false)
      (logged now p src dst (Raise e) w)
| transfer_destination_occupied ds dd :
    Workcell.devices w !! src = Some ds ->
    Workcell.devices w !! dst = Some dd ->
    RobotArm.has_plate (Workcell.robot w) = false ->
    WorkcellDevice.has_plate ds = true ->
    move_error (WorkcellDevice.position ds) (Workcell.robot w) = None ->
    src <> dst ->
    WorkcellDevice.has_plate dd = true ->
    transfer_case now p src dst w (Return false)
      (logged now p src dst
         (Raise (AlreadyHasPlate (WorkcellDevice.name dd) (WorkcellDevice.plate_id dd)))
         (workcell_picked p src ds w))
| transfer_destination_unreachable ds dd e :
    Workcell.devices w !! src = Some ds ->
    Workcell.devices w !! dst = Some dd ->
    RobotArm.has_plate (Workcell.robot w) = false ->
    WorkcellDevice.has_plate ds = true ->
    move_error (WorkcellDevice.position ds) (Workcell.robot w) = None ->
    src = dst \/ WorkcellDevice.has_plate dd = false ->
    move_error (WorkcellDevice.position dd) (robot_picked p ds (Workcell.robot w)) = Some e ->
    transfer_case now p src dst w (Return false)
      (logged now p src dst (Raise e) (workcell_picked p src ds w))
| transfer_done ds dd :
    Workcell.devices w !! src = Some ds ->
    Workcell.devices w !! dst = Some dd ->
    RobotArm.has_plate (Workcell.robot w) = false ->
    WorkcellDevice.has_plate ds = true ->
    move_error (WorkcellDevice.position ds) (Workcell.robot w) = None ->
    src = dst \/ WorkcellDevice.has_plate dd = false ->
    move_error (WorkcellDevice.position dd) (robot_picked p ds (Workcell.robot w)) = None ->
    transfer_case now p src dst w (Return true)
      (logged now p src dst (Return true)
         (workcell_placed dst (if decide (src = dst) then device_unloaded ds else dd)
            (workcell_picked p src ds w))).

(** The errors that a move can raise: those of the interpreter in
    [math.sqrt], in [/] and in [time.sleep]. *)
Definition is_move_error (e : exn) : Prop :=
  e = OverflowError int_too_large \/ e = FloatZeroDivisionError \/
  e = ValueError nan_sleep \/ e = OverflowError timestamp_too_large \/
  e = ValueError negative_sleep.

(** ** What the operations keep *)

(** What is fixed when a workcell is set up: its name, the name and the
    speed of the robot, and the name and the position of the device under
    every key. *)
Definition device_setup (d : WorkcellDevice.t) : string * Position.t :=
  (WorkcellDevice.name d, WorkcellDevice.position d).

Definition setup (w : Workcell.t)
    : string * string * Z * gmap string (string * Position.t) :=
  (Workcell.name w, RobotArm.name (Workcell.robot w),
   RobotArm.speed (Workcell.robot w), device_setup <$> Workcell.devices w).

(** Every device of the workcell satisfies the device invariant. *)
Definition devices_inv (w : Workcell.t) : Prop :=
  map_Forall (fun _ d => device_inv d) (Workcell.devices w).

(** The flag and the id of a holder agree: it has a plate exactly when its
    id is not [None]. *)
Definition device_consistent (d : WorkcellDevice.t) : Prop :=
  WorkcellDevice.has_plate d = true <-> is_Some (WorkcellDevice.plate_id d).

Definition robot_consistent (r : RobotArm.t) : Prop :=
  RobotArm.has_plate r = true <-> is_Some (RobotArm.plate_id r).

Definition consistent (w : Workcell.t) : Prop :=
  robot_consistent (Workcell.robot w) /\
  map_Forall (fun _ d => device_consistent d) (Workcell.devices w).

(** The most moves a list of steps can make: two per transfer, one for the
    return home. *)
Definition step_moves (s : step) : Z :=
  match s with
  | Transfer _ _ _ _ => 2
  | Process _ _ => 0
  | ReturnHome => 1
  end.

Definition max_moves (l : list step) : Z :=
  foldr (fun s n => (step_moves s + n)%Z) 0%Z l.

(** The transfers among a list of steps, as calls. *)
Definition step_calls (s : step) : list TransferCall :=
  match s with
  | Transfer now p src dst =>
      [ {| call_now := now; call_plate := p; call_from := src; call_to := dst |} ]
  | _ => []
  end.

(** The device names a step looks up. *)
Definition step_names (s : step) : list string :=
  match s with
  | Transfer _ _ src dst => [src; dst]
  | Process key _ => [key]
  | ReturnHome => []
  end.

(** The log that an outcome of the runner shows, and whether the outcome is
    the completion of the protocol. *)
Definition shown_log (o : Workcell.outcome) : list LogEntry.t :=
  match o with
  | Workcell.ProtocolComplete _ shown => shown
  | Workcell.ProtocolFailed _ shown => shown
  end.

Definition is_complete (o : Workcell.outcome) : bool :=
  match o with
  | Workcell.ProtocolComplete _ _ => true
  | Workcell.ProtocolFailed _ _ => false
  end.

(** What a run of the steps [l] from [w] has done to the log, the robot's
    move counter and the start time, with [entries] the entries it
    appended: they are, in order, those of the transfers of [l], all of them
    when the run returned. *)
Definition step_account (l : list step) (w : Workcell.t) (entries : list LogEntry.t) : Prop :=
  Workcell.protocol_log (snd (run_steps l w)) = (Workcell.protocol_log w ++ entries)%list /\
  map entry_key entries `prefix_of` map call_key (l ≫= step_calls) /\
  (forall u, fst (run_steps l w) = Return u ->
             map entry_key entries = map call_key (l ≫= step_calls)) /\
  (RobotArm.moves_count (Workcell.robot w) <=
   RobotArm.moves_count (Workcell.robot (snd (run_steps l w))) <=
   RobotArm.moves_count (Workcell.robot w) + max_moves l)%Z /\
  Workcell.start_time (snd (run_steps l w)) = Workcell.start_time w.

(** The device after [process] returned. *)
Definition device_processed (d : WorkcellDevice.t) : WorkcellDevice.t :=
  WorkcellDevice.set_status complete (WorkcellDevice.set_status processing d).

(** * Theorems *)

(** ** Equations of the device methods *)

Lemma load_plate_eq (p : option PlateId) (d : WorkcellDevice.t) :
  WorkcellDevice.load_plate p d =
  if WorkcellDevice.has_plate d
  then (Raise (AlreadyHasPlate (WorkcellDevice.name d) (WorkcellDevice.plate_id d)), d)
  else (Return true,
        WorkcellDevice.set_status loaded
          (WorkcellDevice.set_plate_id p (WorkcellDevice.set_has_plate true d))).
Proof.
  unfold WorkcellDevice.load_plate, bind, get; cbn.
  destruct (WorkcellDevice.has_plate d); reflexivity.
Qed.

Lemma unload_plate_eq (d : WorkcellDevice.t) :
  WorkcellDevice.unload_plate d =
  if WorkcellDevice.has_plate d
  then (Return (WorkcellDevice.plate_id d),
        WorkcellDevice.set_status idle
          (WorkcellDevice.set_plate_id None (WorkcellDevice.set_has_plate false d)))
  else (Raise (NoPlateTo to_unload (WorkcellDevice.name d)), d).
Proof.
  unfold WorkcellDevice.unload_plate, bind, get; cbn.
  destruct (WorkcellDevice.has_plate d); reflexivity.
Qed.

Lemma time_sleep_eq {S} (duration : Z) (s : S) :
  time_sleep (PyInt duration) s =
  match sleep_error duration with
  | None => (Return tt, s)
  | Some e => (Raise e, s)
  end.
Proof.
  unfold sleep_error, time_sleep.
  destruct ((duration <? -9223372036) || (9223372036 <? duration))%Z; [reflexivity|].
  destruct (duration <? 0)%Z; reflexivity.
Qed.


Lemma process_eq (duration : Z) (d : WorkcellDevice.t) :
  WorkcellDevice.process duration d =
  if WorkcellDevice.has_plate d
  then match sleep_error duration with
       | None =>
           (Return true,
            WorkcellDevice.set_status complete (WorkcellDevice.set_status processing d))
       | Some e => (Raise e, WorkcellDevice.set_status processing d)
       end
  else (Raise (NoPlateTo to_process (WorkcellDevice.name d)), d).
Proof.
  unfold WorkcellDevice.process, bind at 1, get.
  destruct (WorkcellDevice.has_plate d); [|reflexivity].
  cbn [negb]. unfold bind at 1, modify at 1. unfold bind at 1.
  rewrite time_sleep_eq. now destruct (sleep_error duration).
Qed.

Lemma held_plates_at_most_one (d : WorkcellDevice.t) : length (held_plates d) <= 1.
Proof. unfold held_plates. destruct (WorkcellDevice.has_plate d); simpl; lia. Qed.

(** ** The device state machine *)

(** C2: from a device state that satisfies the invariant, [load_plate],
    [unload_plate] and [process] end in a state that satisfies it again,
    whether they return or raise; so does the intermediate 'processing'
    state of [process]; and a device never holds more than one plate. *)
Theorem device_invariant_preserved (d : WorkcellDevice.t) :
  device_inv d ->
  (forall p r d', WorkcellDevice.load_plate p d = (r, d') ->
     device_inv d' /\ length (held_plates d') <= 1) /\
  (forall r d', WorkcellDevice.unload_plate d = (r, d') ->
     device_inv d' /\ length (held_plates d') <= 1) /\
  (forall duration r d', WorkcellDevice.process duration d = (r, d') ->
     device_inv d' /\ length (held_plates d') <= 1) /\
  (WorkcellDevice.has_plate d = true ->
     device_inv (WorkcellDevice.set_status processing d) /\
     length (held_plates (WorkcellDevice.set_status processing d)) <= 1).
Proof.
  intros Hinv.
  assert (Hload : forall p r d', WorkcellDevice.load_plate p d = (r, d') -> device_inv d').
  { intros p r d'. rewrite load_plate_eq.
    destruct (WorkcellDevice.has_plate d) eqn:E; intros [= <- <-]; [exact Hinv|].
    unfold device_inv; simpl. tauto. }
  assert (Hunload : forall r d', WorkcellDevice.unload_plate d = (r, d') -> device_inv d').
  { intros r d'. rewrite unload_plate_eq.
    destruct (WorkcellDevice.has_plate d) eqn:E; intros [= <- <-]; [|exact Hinv].
    unfold device_inv; simpl. split; [discriminate|]. intros [H|[H|H]]; discriminate. }
  assert (Hprocess : forall duration r d',
             WorkcellDevice.process duration d = (r, d') -> device_inv d').
  { intros duration r d'. rewrite process_eq.
    destruct (WorkcellDevice.has_plate d) eqn:E; [|intros [= <- <-]; exact Hinv].
    destruct (sleep_error duration); intros [= <- <-];
      unfold device_inv; simpl; tauto. }
  pose proof held_plates_at_most_one as Hone.
  split; [eauto|]. split; [eauto|]. split; [eauto|].
  intros Hd. split; [|apply Hone].
  unfold device_inv; simpl. tauto.
Qed.

Lemma device_invariant_preserved_witness :
  device_inv liquid_handler /\
  (forall r d', WorkcellDevice.unload_plate liquid_handler = (r, d') ->
     device_inv d' /\ length (held_plates d') <= 1).
Proof.
  assert (H : device_inv liquid_handler).
  { unfold device_inv; simpl. split; [discriminate|].
    intros [H|[H|H]]; discriminate. }
  split; [exact H|].
  exact (proj1 (proj2 (device_invariant_preserved liquid_handler H))).
Defined.

(** C8: [load_plate] on a device that has a plate raises the
    already-loaded error, which carries the held plate id, and
    [unload_plate] and [process] on a device that has none raise the
    empty-device error; in each case the device is left as it was. *)
Theorem device_precondition_errors (d : WorkcellDevice.t) :
  (WorkcellDevice.has_plate d = true ->
   forall p, exists e,
     WorkcellDevice.load_plate p d = (Raise e, d) /\
     e = AlreadyHasPlate (WorkcellDevice.name d) (WorkcellDevice.plate_id d) /\
     error_kind e = Some AlreadyLoadedError) /\
  (WorkcellDevice.has_plate d = false ->
   (exists e,
      WorkcellDevice.unload_plate d = (Raise e, d) /\
      error_kind e = Some EmptyDeviceError) /\
   (forall duration, exists e,
      WorkcellDevice.process duration d = (Raise e, d) /\
      error_kind e = Some EmptyDeviceError)).
Proof.
  split.
  - intros H p. eexists. rewrite load_plate_eq, H. repeat split.
  - intros H. split; [|intros duration]; eexists.
    + rewrite unload_plate_eq, H. split; reflexivity.
    + rewrite process_eq, H. split; reflexivity.
Qed.

Lemma device_precondition_errors_witness :
  (exists e,
     WorkcellDevice.load_plate (Some "P2") storage = (Raise e, storage) /\
     e = AlreadyHasPlate "Storage" (Some "CELL_CULTURE_PLATE_001") /\
     error_kind e = Some AlreadyLoadedError) /\
  (exists e,
     WorkcellDevice.unload_plate liquid_handler = (Raise e, liquid_handler) /\
     error_kind e = Some EmptyDeviceError).
Proof.
  split.
  - exact (proj1 (device_precondition_errors storage) eq_refl (Some "P2")).
  - exact (proj1 (proj2 (device_precondition_errors liquid_handler) eq_refl)).
Defined.

(** ** Equations of the robot methods *)

(** [move_to] raises before it assigns anything. *)
Lemma move_to_eq (target : Position.t) (r : RobotArm.t) :
  RobotArm.move_to target r =
  match move_error target r with
  | None =>
      (Return true,
       RobotArm.set_moves_count (RobotArm.moves_count r + 1)
         (RobotArm.set_current_position target r))
  | Some e => (Raise e, r)
  end.
Proof.
  unfold move_error, RobotArm.move_to, distance_to, to_float, time_sleep, min_1.
  unfold bind, get, modify, raise, ret.
  repeat match goal with
         | |- context [if ?b then _ else _] => destruct b
         end; reflexivity.
Qed.

(** The error of a move depends on the speed and on the two positions only. *)
Lemma move_error_ext (target : Position.t) (r r' : RobotArm.t) :
  RobotArm.speed r = RobotArm.speed r' ->
  RobotArm.current_position r = RobotArm.current_position r' ->
  move_error target r = move_error target r'.
Proof.
  intros Hs Hp.
  unfold move_error, RobotArm.move_to, distance_to, to_float, time_sleep, min_1.
  unfold bind, get, modify, raise, ret. rewrite Hs, Hp.
  repeat match goal with
         | |- context [if ?b then _ else _] => destruct b
         end; reflexivity.
Qed.

Lemma pick_plate_eq (p : PlateId) (r : RobotArm.t) (d : WorkcellDevice.t) :
  RobotArm.pick_plate p (r, d) =
  if RobotArm.has_plate r
  then (Raise (AlreadyHolding (RobotArm.name r) (RobotArm.plate_id r)), (r, d))
  else if WorkcellDevice.has_plate d
  then match move_error (WorkcellDevice.position d) r with
       | None =>
           (Return true,
            (RobotArm.set_plate_id (Some p)
               (RobotArm.set_has_plate true
                  (RobotArm.set_moves_count (RobotArm.moves_count r + 1)
                     (RobotArm.set_current_position (WorkcellDevice.position d) r))),
             WorkcellDevice.set_status idle
               (WorkcellDevice.set_plate_id None (WorkcellDevice.set_has_plate false d))))
       | Some e => (Raise e, (r, d))
       end
  else (Raise (NoPlateTo to_pick (WorkcellDevice.name d)), (r, d)).
Proof.
  unfold RobotArm.pick_plate, bind at 1, get; cbn [fst snd].
  destruct (RobotArm.has_plate r); [reflexivity|].
  destruct (WorkcellDevice.has_plate d) eqn:E; [|reflexivity].
  cbn [negb]. unfold bind at 1, on_fst at 1; cbn [fst snd].
  rewrite move_to_eq. destruct (move_error _ r); [reflexivity|].
  unfold bind, on_snd, on_fst; cbn. rewrite E. reflexivity.
Qed.

Lemma place_plate_eq (r : RobotArm.t) (d : WorkcellDevice.t) :
  RobotArm.place_plate (r, d) =
  if RobotArm.has_plate r
  then if WorkcellDevice.has_plate d
       then (Raise (AlreadyHasPlate (WorkcellDevice.name d) (WorkcellDevice.plate_id d)),
             (r, d))
       else match move_error (WorkcellDevice.position d) r with
            | None =>
                (Return true,
                 (RobotArm.set_plate_id None
                    (RobotArm.set_has_plate false
                       (RobotArm.set_moves_count (RobotArm.moves_count r + 1)
                          (RobotArm.set_current_position (WorkcellDevice.position d) r))),
                  WorkcellDevice.set_status loaded
                    (WorkcellDevice.set_plate_id (RobotArm.plate_id r)
                       (WorkcellDevice.set_has_plate true d))))
            | Some e => (Raise e, (r, d))
            end
  else (Raise (NotHolding (RobotArm.name r)), (r, d)).
Proof.
  unfold RobotArm.place_plate, bind at 1, get; cbn [fst snd].
  destruct (RobotArm.has_plate r); [|reflexivity].
  destruct (WorkcellDevice.has_plate d) eqn:E; [reflexivity|].
  cbn [negb]. unfold bind at 1, on_fst at 1; cbn [fst snd].
  rewrite move_to_eq. destruct (move_error _ r); [reflexivity|].
  unfold bind, on_snd, on_fst; cbn. rewrite E. reflexivity.
Qed.

(** ** Picking a plate *)

(** C4, as the specification states it, fails: the robot keeps the id its
    caller passed, not the id that [unload_plate] returned. *)
Lemma pick_plate_unloaded_id_counterexample :
  exists r' d' unloaded,
    RobotArm.pick_plate "P2" (RobotArm.init "RobotArm", storage) = (Return true, (r', d')) /\
    WorkcellDevice.unload_plate storage = (Return unloaded, d') /\
    unloaded = Some "CELL_CULTURE_PLATE_001" /\
    RobotArm.plate_id r' = Some "P2" /\
    RobotArm.plate_id r' <> unloaded.
Proof.
  exists (fst (snd (RobotArm.pick_plate "P2" (RobotArm.init "RobotArm", storage)))),
    (snd (snd (RobotArm.pick_plate "P2" (RobotArm.init "RobotArm", storage)))),
    (Some "CELL_CULTURE_PLATE_001").
  repeat (split; [vm_compute; reflexivity|]). vm_compute. discriminate.
Qed.

(** C4 (amended): a call of [pick_plate] that returns has first moved the
    robot to the device's position, then run the device's [unload_plate],
    and then set the robot's plate to the id the caller passed; the id that
    [unload_plate] returned is dropped, and the robot holds it exactly when
    the caller passed the id the device held. *)
Theorem pick_plate_effect (p : PlateId) (r r' : RobotArm.t) (d d' : WorkcellDevice.t)
    (b : bool) :
  RobotArm.pick_plate p (r, d) = (Return b, (r', d')) ->
  exists r1 unloaded,
    RobotArm.move_to (WorkcellDevice.position d) r = (Return true, r1) /\
    RobotArm.current_position r1 = WorkcellDevice.position d /\
    WorkcellDevice.unload_plate d = (Return unloaded, d') /\
    unloaded = WorkcellDevice.plate_id d /\
    r' = RobotArm.set_plate_id (Some p) (RobotArm.set_has_plate true r1) /\
    RobotArm.has_plate r' = true /\
    RobotArm.plate_id r' = Some p /\
    (RobotArm.plate_id r' = unloaded <-> WorkcellDevice.plate_id d = Some p) /\
    RobotArm.pick_plate p (r, d) =
      (on_fst (RobotArm.move_to (WorkcellDevice.position d)) ;;
       on_snd WorkcellDevice.unload_plate ;;
       on_fst (modify (RobotArm.set_has_plate true)) ;;
       on_fst (modify (RobotArm.set_plate_id (Some p))) ;;
       ret true) (r, d).
Proof.
  intros H. rewrite H. revert H. rewrite pick_plate_eq.
  destruct (RobotArm.has_plate r); [discriminate|].
  destruct (WorkcellDevice.has_plate d) eqn:E; [|discriminate].
  destruct (move_error (WorkcellDevice.position d) r) eqn:Em; [discriminate|].
  intros [= <- <- <-].
  do 2 eexists. rewrite move_to_eq, Em, unload_plate_eq, E.
  repeat (split; [reflexivity|]). simpl. split; [split; congruence|].
  unfold bind at 1, on_fst at 1; cbn [fst snd]. rewrite move_to_eq, Em.
  unfold bind, on_fst, on_snd; cbn. rewrite E. reflexivity.
Qed.

Lemma pick_plate_effect_witness :
  exists r1 unloaded,
    RobotArm.move_to (WorkcellDevice.position storage) (RobotArm.init "RobotArm") =
      (Return true, r1) /\
    RobotArm.current_position r1 = WorkcellDevice.position storage /\
    WorkcellDevice.unload_plate storage =
      (Return unloaded, snd (snd (RobotArm.pick_plate "P2" (RobotArm.init "RobotArm", storage)))) /\
    unloaded = WorkcellDevice.plate_id storage /\
    fst (snd (RobotArm.pick_plate "P2" (RobotArm.init "RobotArm", storage))) =
      RobotArm.set_plate_id (Some "P2") (RobotArm.set_has_plate true r1) /\
    RobotArm.has_plate
      (fst (snd (RobotArm.pick_plate "P2" (RobotArm.init "RobotArm", storage)))) = true /\
    RobotArm.plate_id
      (fst (snd (RobotArm.pick_plate "P2" (RobotArm.init "RobotArm", storage)))) = Some "P2" /\
    (RobotArm.plate_id
       (fst (snd (RobotArm.pick_plate "P2" (RobotArm.init "RobotArm", storage)))) = unloaded <->
     WorkcellDevice.plate_id storage = Some "P2") /\
    RobotArm.pick_plate "P2" (RobotArm.init "RobotArm", storage) =
      (on_fst (RobotArm.move_to (WorkcellDevice.position storage)) ;;
       on_snd WorkcellDevice.unload_plate ;;
       on_fst (modify (RobotArm.set_has_plate true)) ;;
       on_fst (modify (RobotArm.set_plate_id (Some "P2"))) ;;
       ret true) (RobotArm.init "RobotArm", storage).
Proof.
  exact (pick_plate_effect "P2" (RobotArm.init "RobotArm") _ storage _ true eq_refl).
Defined.

(** ** Equations of the workcell methods *)

Lemma set_robot_devices_id (w : Workcell.t) :
  Workcell.set_devices (Workcell.devices w) (Workcell.set_robot (Workcell.robot w) w) = w.
Proof. destruct w; reflexivity. Qed.

Lemma call_robot_raise_unchanged {A} (key : string)
    (m : M (RobotArm.t * WorkcellDevice.t) A) (w : Workcell.t) (d : WorkcellDevice.t)
    (e : exn) :
  Workcell.devices w !! key = Some d ->
  m (Workcell.robot w, d) = (Raise e, (Workcell.robot w, d)) ->
  Workcell.call_robot key m w = (Raise e, w).
Proof.
  intros Hd Hm. unfold Workcell.call_robot. rewrite Hd, Hm.
  rewrite insert_id by exact Hd. now rewrite set_robot_devices_id.
Qed.

Lemma call_device_raise_unchanged {A} (key : string) (m : M WorkcellDevice.t A)
    (w : Workcell.t) (d : WorkcellDevice.t) (e : exn) :
  Workcell.devices w !! key = Some d ->
  m d = (Raise e, d) ->
  Workcell.call_device key m w = (Raise e, w).
Proof.
  intros Hd Hm. unfold Workcell.call_device. rewrite Hd, Hm.
  rewrite insert_id by exact Hd. destruct w; reflexivity.
Qed.

(** With both names registered, [transfer_plate] runs the two robot calls
    and appends the entry of their outcome. *)
Lemma transfer_plate_registered (now : datetime) (p : PlateId) (src dst : string)
    (w : Workcell.t) :
  is_Some (Workcell.devices w !! src) ->
  is_Some (Workcell.devices w !! dst) ->
  Workcell.transfer_plate now p src dst w =
  let (r, w1) := pick_then_place p src dst w in
  (Return (match r with Return _ => true | Raise _ => false end),
   Workcell.set_protocol_log
     (Workcell.protocol_log w1 ++ [entry_of now p src dst r]) w1).
Proof.
  intros [ds Hs] [dd Hd].
  unfold Workcell.transfer_plate, Workcell.getitem, bind at 1 2, get; cbn.
  rewrite Hs; cbn. unfold bind at 1; cbn. rewrite Hd; cbn.
  unfold try_except, pick_then_place.
  unfold bind at 1.
  destruct (bind _ _ w) as [[b|e] w1] eqn:E.
  - unfold bind in E |- *.
    destruct (Workcell.call_robot src _ w) as [[b1|e1] w2]; [|discriminate].
    rewrite E. reflexivity.
  - unfold bind in E |- *.
    destruct (Workcell.call_robot src _ w) as [[b1|e1] w2].
    + rewrite E. reflexivity.
    + injection E as <- <-. reflexivity.
Qed.

(** With a name that is not registered, the subscript raises before the
    [try] block is entered. *)
Lemma transfer_plate_unregistered (now : datetime) (p : PlateId) (src dst : string)
    (w : Workcell.t) :
  Workcell.devices w !! src = None \/ Workcell.devices w !! dst = None ->
  Workcell.transfer_plate now p src dst w =
  (Raise (KeyError (match Workcell.devices w !! src with
                    | None => src
                    | Some _ => dst
                    end)), w).
Proof.
  intros H.
  unfold Workcell.transfer_plate, Workcell.getitem, bind at 1 2, get; cbn.
  destruct (Workcell.devices w !! src) as [ds|] eqn:Hs; cbn; [|reflexivity].
  destruct H as [H|H]; [discriminate|].
  unfold bind at 1; cbn. rewrite H. reflexivity.
Qed.

Lemma call_robot_pick_eq (p : PlateId) (src : string) (w : Workcell.t)
    (ds : WorkcellDevice.t) :
  Workcell.devices w !! src = Some ds ->
  Workcell.call_robot src (RobotArm.pick_plate p) w =
  if RobotArm.has_plate (Workcell.robot w)
  then (Raise (AlreadyHolding (RobotArm.name (Workcell.robot w))
                 (RobotArm.plate_id (Workcell.robot w))), w)
  else if WorkcellDevice.has_plate ds
  then match move_error (WorkcellDevice.position ds) (Workcell.robot w) with
       | None => (Return true, workcell_picked p src ds w)
       | Some e => (Raise e, w)
       end
  else (Raise (NoPlateTo to_pick (WorkcellDevice.name ds)), w).
Proof.
  intros Hs.
  destruct (RobotArm.has_plate (Workcell.robot w)) eqn:Hr;
    [|destruct (WorkcellDevice.has_plate ds) eqn:Hp;
      [destruct (move_error (WorkcellDevice.position ds) (Workcell.robot w)) eqn:Hm|]].
  - apply call_robot_raise_unchanged with ds; [exact Hs|].
    now rewrite pick_plate_eq, Hr.
  - apply call_robot_raise_unchanged with ds; [exact Hs|].
    now rewrite pick_plate_eq, Hr, Hp, Hm.
  - unfold Workcell.call_robot. now rewrite Hs, pick_plate_eq, Hr, Hp, Hm.
  - apply call_robot_raise_unchanged with ds; [exact Hs|].
    now rewrite pick_plate_eq, Hr, Hp.
Qed.

Lemma call_robot_place_eq (dst : string) (w : Workcell.t) (dd : WorkcellDevice.t) :
  Workcell.devices w !! dst = Some dd ->
  Workcell.call_robot dst RobotArm.place_plate w =
  if RobotArm.has_plate (Workcell.robot w)
  then if WorkcellDevice.has_plate dd
       then (Raise (AlreadyHasPlate (WorkcellDevice.name dd) (WorkcellDevice.plate_id dd)), w)
       else match move_error (WorkcellDevice.position dd) (Workcell.robot w) with
            | None => (Return true, workcell_placed dst dd w)
            | Some e => (Raise e, w)
            end
  else (Raise (NotHolding (RobotArm.name (Workcell.robot w))), w).
Proof.
  intros Hd.
  destruct (RobotArm.has_plate (Workcell.robot w)) eqn:Hr;
    [destruct (WorkcellDevice.has_plate dd) eqn:Hp;
      [|destruct (move_error (WorkcellDevice.position dd) (Workcell.robot w)) eqn:Hm]|].
  - apply call_robot_raise_unchanged with dd; [exact Hd|].
    now rewrite place_plate_eq, Hr, Hp.
  - apply call_robot_raise_unchanged with dd; [exact Hd|].
    now rewrite place_plate_eq, Hr, Hp, Hm.
  - unfold Workcell.call_robot. now rewrite Hd, place_plate_eq, Hr, Hp, Hm.
  - apply call_robot_raise_unchanged with dd; [exact Hd|].
    now rewrite place_plate_eq, Hr.
Qed.

(** The device that the key [dst] refers to once the device of [src] has
    been unloaded: the same object when the two keys are equal. *)
Lemma lookup_after_pick (p : PlateId) (src dst : string) (ds dd : WorkcellDevice.t)
    (w : Workcell.t) :
  Workcell.devices w !! dst = Some dd ->
  Workcell.devices (workcell_picked p src ds w) !! dst =
  Some (if decide (src = dst) then device_unloaded ds else dd).
Proof.
  intros Hd. cbn. rewrite lookup_insert. now destruct (decide (src = dst)).
Qed.

(** The outcome of the two robot calls, by cases on the three state tests
    they make and on the errors of their two moves. *)
Lemma pick_then_place_eq (p : PlateId) (src dst : string) (w : Workcell.t)
    (ds dd : WorkcellDevice.t) :
  Workcell.devices w !! src = Some ds ->
  Workcell.devices w !! dst = Some dd ->
  pick_then_place p src dst w =
  if RobotArm.has_plate (Workcell.robot w)
  then (Raise (AlreadyHolding (RobotArm.name (Workcell.robot w))
                 (RobotArm.plate_id (Workcell.robot w))), w)
  else if WorkcellDevice.has_plate ds
  then match move_error (WorkcellDevice.position ds) (Workcell.robot w) with
       | Some e => (Raise e, w)
       | None =>
           let dd1 := if decide (src = dst) then device_unloaded ds else dd in
           if WorkcellDevice.has_plate dd1
           then (Raise (AlreadyHasPlate (WorkcellDevice.name dd1)
                          (WorkcellDevice.plate_id dd1)),
                 workcell_picked p src ds w)
           else match move_error (WorkcellDevice.position dd1)
                        (robot_picked p ds (Workcell.robot w)) with
                | Some e => (Raise e, workcell_picked p src ds w)
                | None =>
                    (Return true, workcell_placed dst dd1 (workcell_picked p src ds w))
                end
       end
  else (Raise (NoPlateTo to_pick (WorkcellDevice.name ds)), w).
Proof.
  intros Hs Hd. unfold pick_then_place, bind.
  rewrite (call_robot_pick_eq p src w ds Hs).
  destruct (RobotArm.has_plate (Workcell.robot w)); [reflexivity|].
  destruct (WorkcellDevice.has_plate ds); [|reflexivity].
  destruct (move_error (WorkcellDevice.position ds) (Workcell.robot w)); [reflexivity|].
  rewrite (call_robot_place_eq dst _ _ (lookup_after_pick p src dst ds dd w Hd)).
  reflexivity.
Qed.

Lemma pick_then_place_frame (p : PlateId) (src dst : string) (w : Workcell.t) :
  is_Some (Workcell.devices w !! src) ->
  is_Some (Workcell.devices w !! dst) ->
  Workcell.protocol_log (snd (pick_then_place p src dst w)) = Workcell.protocol_log w /\
  forall k, is_Some (Workcell.devices w !! k) ->
            is_Some (Workcell.devices (snd (pick_then_place p src dst w)) !! k).
Proof.
  intros [ds Hs] [dd Hd]. rewrite (pick_then_place_eq p src dst w ds dd Hs Hd).
  destruct (RobotArm.has_plate (Workcell.robot w)); [now split|].
  destruct (WorkcellDevice.has_plate ds); [|now split].
  destruct (move_error (WorkcellDevice.position ds) (Workcell.robot w)); [now split|].
  cbn zeta.
  destruct (WorkcellDevice.has_plate (if decide (src = dst) then _ else _));
    [|destruct (move_error _ (robot_picked p ds (Workcell.robot w)))];
    (split; [reflexivity|]); intros k Hk; cbn;
    rewrite ?lookup_insert_is_Some;
    destruct (decide (src = k)), (decide (dst = k)); tauto.
Qed.

Lemma transfer_plate_frame (now : datetime) (p : PlateId) (src dst : string)
    (w : Workcell.t) (k : string) :
  is_Some (Workcell.devices w !! k) ->
  is_Some (Workcell.devices (snd (Workcell.transfer_plate now p src dst w)) !! k).
Proof.
  intros Hk.
  destruct (Workcell.devices w !! src) as [ds|] eqn:Hs.
  - destruct (Workcell.devices w !! dst) as [dd|] eqn:Hd.
    + rewrite transfer_plate_registered by (rewrite ?Hs, ?Hd; eauto).
      destruct (pick_then_place_frame p src dst w) as [_ H];
        [rewrite Hs; eauto | rewrite Hd; eauto |].
      specialize (H k Hk).
      destruct (pick_then_place p src dst w) as [r w1]. exact H.
    + rewrite transfer_plate_unregistered by (now right). exact Hk.
  - rewrite transfer_plate_unregistered by (now left). exact Hk.
Qed.

(** ** Custody of the plate across a transfer *)

(** Rebinding the key of a device changes the held ids by that device's
    share only. *)
Lemma held_in_devices_insert (m : gmap string WorkcellDevice.t) (k : string)
    (d d0 : WorkcellDevice.t) :
  m !! k = Some d0 ->
  (held_in_devices (<[k := d]> m) ++ held_plates d0 ≡ₚ
   held_plates d ++ held_in_devices m)%list.
Proof.
  intros Hk. unfold held_in_devices.
  rewrite <- (insert_delete_eq m k d).
  rewrite (map_to_list_insert (delete k m) k d) by apply lookup_delete_eq.
  rewrite <- (insert_delete_id m k d0 Hk) at 2.
  rewrite (map_to_list_insert (delete k m) k d0) by apply lookup_delete_eq.
  cbn. rewrite <- !app_assoc. apply Permutation_app_head.
  apply Permutation_app_comm.
Qed.

(** C1, as the specification states it, fails twice over: the destination
    receives the id passed by the caller, which need not be the one the
    source held, so that the id of the source is lost and a new one appears;
    and with the same device as source and destination the call returns
    [True] and the source holds a plate afterwards. *)
Lemma transfer_plate_custody_counterexample :
  (exists w' ds dd',
     Workcell.transfer_plate (example_clock 1) "P2" "Storage" "LiquidHandler" main_workcell =
       (Return true, w') /\
     Workcell.devices main_workcell !! "Storage" = Some ds /\
     Workcell.devices w' !! "LiquidHandler" = Some dd' /\
     WorkcellDevice.plate_id ds = Some "CELL_CULTURE_PLATE_001" /\
     WorkcellDevice.plate_id dd' = Some "P2" /\
     WorkcellDevice.plate_id dd' <> WorkcellDevice.plate_id ds /\
     held_ids main_workcell = [Some "CELL_CULTURE_PLATE_001"] /\
     held_ids w' = [Some "P2"]) /\
  (exists w' ds',
     Workcell.transfer_plate (example_clock 1) "CELL_CULTURE_PLATE_001" "Storage" "Storage"
       main_workcell = (Return true, w') /\
     Workcell.devices w' !! "Storage" = Some ds' /\
     WorkcellDevice.has_plate ds' = true).
Proof.
  split.
  - exists (snd (Workcell.transfer_plate (example_clock 1) "P2" "Storage" "LiquidHandler"
                   main_workcell)), storage,
      (device_loaded (Some "P2") liquid_handler).
    repeat (split; [vm_compute; try reflexivity; discriminate|]).
    vm_compute. reflexivity.
  - exists (snd (Workcell.transfer_plate (example_clock 1) "CELL_CULTURE_PLATE_001"
                   "Storage" "Storage" main_workcell)),
      (device_loaded (Some "CELL_CULTURE_PLATE_001") (device_unloaded storage)).
    repeat (split; [vm_compute; reflexivity|]). vm_compute. reflexivity.
Qed.

(** C1 (amended): after a call of [transfer_plate] that returned [True], the
    source device held a plate before the call, the destination device holds
    the plate id that the caller passed (which is the plate of the source
    when the caller passed that id), the source device, when it is not the
    destination, holds no plate, the robot holds no plate, and every other
    device is as it was. *)
Theorem transfer_plate_custody (now : datetime) (p : PlateId) (src dst : string)
    (w w' : Workcell.t) :
  Workcell.transfer_plate now p src dst w = (Return true, w') ->
  exists ds dd',
    Workcell.devices w !! src = Some ds /\
    WorkcellDevice.has_plate ds = true /\
    Workcell.devices w' !! dst = Some dd' /\
    WorkcellDevice.has_plate dd' = true /\
    WorkcellDevice.plate_id dd' = Some p /\
    (WorkcellDevice.plate_id ds = Some p ->
     WorkcellDevice.plate_id dd' = WorkcellDevice.plate_id ds) /\
    (src <> dst ->
     exists ds', Workcell.devices w' !! src = Some ds' /\
                 WorkcellDevice.has_plate ds' = false /\
                 WorkcellDevice.plate_id ds' = None) /\
    RobotArm.has_plate (Workcell.robot w') = false /\
    RobotArm.plate_id (Workcell.robot w') = None /\
    (forall k, k <> src -> k <> dst ->
               Workcell.devices w' !! k = Workcell.devices w !! k) /\
    (WorkcellDevice.plate_id ds = Some p -> held_ids w' ≡ₚ held_ids w).
Proof.
  intros H.
  destruct (Workcell.devices w !! src) as [ds|] eqn:Hs;
    [|rewrite transfer_plate_unregistered in H by (now left); discriminate].
  destruct (Workcell.devices w !! dst) as [dd|] eqn:Hd;
    [|rewrite transfer_plate_unregistered in H by (now right); discriminate].
  rewrite transfer_plate_registered in H by (rewrite ?Hs, ?Hd; eauto).
  rewrite (pick_then_place_eq p src dst w ds dd Hs Hd) in H.
  destruct (RobotArm.has_plate (Workcell.robot w)) eqn:Hr; [discriminate|].
  destruct (WorkcellDevice.has_plate ds) eqn:Hp; [|discriminate].
  destruct (move_error (WorkcellDevice.position ds) (Workcell.robot w)); [discriminate|].
  cbn zeta in H.
  destruct (WorkcellDevice.has_plate (if decide (src = dst) then _ else _)) eqn:Hq;
    [discriminate|].
  destruct (move_error _ (robot_picked p ds (Workcell.robot w))); [discriminate|].
  injection H as <-.
  exists ds, (device_loaded (Some p) (if decide (src = dst) then device_unloaded ds else dd)).
  split; [reflexivity|]. split; [exact Hp|].
  split; [cbn; now rewrite lookup_insert_eq|].
  split; [reflexivity|]. split; [reflexivity|].
  split; [intros ->; reflexivity|].
  split.
  { intros Hne. exists (device_unloaded ds). cbn.
    rewrite lookup_insert_ne by congruence. rewrite lookup_insert_eq. now repeat split. }
  split; [reflexivity|]. split; [reflexivity|].
  split; [intros k Hks Hkd; cbn; now rewrite !lookup_insert_ne by congruence|].
  intros Hid. unfold held_ids; cbn. unfold robot_held; cbn. rewrite Hr; cbn.
  pose proof (held_in_devices_insert (Workcell.devices w) src
                (device_unloaded ds) ds Hs) as H1.
  pose proof (held_in_devices_insert
                (<[src := device_unloaded ds]> (Workcell.devices w)) dst
                (device_loaded (Some p)
                   (if decide (src = dst) then device_unloaded ds else dd))
                (if decide (src = dst) then device_unloaded ds else dd)) as H2.
  rewrite lookup_insert in H2. specialize (H2 ltac:(now destruct (decide (src = dst)))).
  assert (E1 : held_plates (if decide (src = dst) then device_unloaded ds else dd) = [])
    by (unfold held_plates; now rewrite Hq).
  assert (E2 : held_plates ds = [Some p])
    by (unfold held_plates; now rewrite Hp, Hid).
  rewrite E1, app_nil_r in H2. rewrite E2 in H1.
  change (held_plates (device_unloaded ds)) with (@nil (option PlateId)) in H1.
  change (held_plates (device_loaded (Some p) ?d)) with [Some p] in H2.
  rewrite H2, <- H1. apply Permutation_cons_append.
Qed.

Lemma transfer_plate_custody_witness :
  exists ds dd',
    Workcell.devices main_workcell !! "Storage" = Some ds /\
    WorkcellDevice.has_plate ds = true /\
    Workcell.devices
      (snd (Workcell.transfer_plate (example_clock 1) "CELL_CULTURE_PLATE_001"
              "Storage" "LiquidHandler" main_workcell)) !! "LiquidHandler" = Some dd' /\
    WorkcellDevice.has_plate dd' = true /\
    WorkcellDevice.plate_id dd' = Some "CELL_CULTURE_PLATE_001" /\
    (WorkcellDevice.plate_id ds = Some "CELL_CULTURE_PLATE_001" ->
     WorkcellDevice.plate_id dd' = WorkcellDevice.plate_id ds) /\
    ("Storage" <> "LiquidHandler" ->
     exists ds',
       Workcell.devices
         (snd (Workcell.transfer_plate (example_clock 1) "CELL_CULTURE_PLATE_001"
                 "Storage" "LiquidHandler" main_workcell)) !! "Storage" = Some ds' /\
       WorkcellDevice.has_plate ds' = false /\
       WorkcellDevice.plate_id ds' = None) /\
    RobotArm.has_plate
      (Workcell.robot
         (snd (Workcell.transfer_plate (example_clock 1) "CELL_CULTURE_PLATE_001"
                 "Storage" "LiquidHandler" main_workcell))) = false /\
    RobotArm.plate_id
      (Workcell.robot
         (snd (Workcell.transfer_plate (example_clock 1) "CELL_CULTURE_PLATE_001"
                 "Storage" "LiquidHandler" main_workcell))) = None /\
    (forall k, k <> "Storage" -> k <> "LiquidHandler" ->
       Workcell.devices
         (snd (Workcell.transfer_plate (example_clock 1) "CELL_CULTURE_PLATE_001"
                 "Storage" "LiquidHandler" main_workcell)) !! k =
       Workcell.devices main_workcell !! k) /\
    (WorkcellDevice.plate_id ds = Some "CELL_CULTURE_PLATE_001" ->
     held_ids
       (snd (Workcell.transfer_plate (example_clock 1) "CELL_CULTURE_PLATE_001"
               "Storage" "LiquidHandler" main_workcell)) ≡ₚ held_ids main_workcell).
Proof.
  apply (transfer_plate_custody (example_clock 1) "CELL_CULTURE_PLATE_001"
           "Storage" "LiquidHandler" main_workcell).
  vm_compute. reflexivity.
Defined.

(** ** The error boundary of a transfer *)

Lemma transfer_all_log (calls : list TransferCall) :
  forall w : Workcell.t,
    Forall (fun c => is_Some (Workcell.devices w !! call_from c) /\
                     is_Some (Workcell.devices w !! call_to c)) calls ->
    exists bs entries w',
      transfer_all calls w = (Return bs, w') /\
      Workcell.protocol_log w' = (Workcell.protocol_log w ++ entries)%list /\
      map entry_key entries = map call_key calls /\
      map LogEntry.is_success entries = bs.
Proof.
  induction calls as [|c calls IH]; intros w Hreg.
  - exists [], [], w. cbn. now rewrite app_nil_r.
  - apply Forall_cons in Hreg as [[Hs Hd] Hreg].
    cbn [transfer_all]. unfold bind at 1.
    rewrite transfer_plate_registered by assumption.
    destruct (pick_then_place_frame (call_plate c) (call_from c) (call_to c) w Hs Hd)
      as [Hlog Hdom].
    destruct (pick_then_place (call_plate c) (call_from c) (call_to c) w) as [r w1].
    cbn [snd] in Hlog, Hdom.
    set (w2 := Workcell.set_protocol_log _ w1).
    destruct (IH w2) as (bs & entries & w' & Hrun & Hlog' & Hkeys & Hbs).
    { eapply Forall_impl; [exact Hreg|]. intros c' [H1 H2]. split; cbn; auto. }
    exists ((match r with Return _ => true | Raise _ => false end) :: bs),
      (entry_of (call_now c) (call_plate c) (call_from c) (call_to c) r :: entries), w'.
    unfold bind. rewrite Hrun. split; [reflexivity|].
    split; [rewrite Hlog'; subst w2; cbn; rewrite Hlog; now rewrite <- app_assoc|].
    split; [cbn; now rewrite Hkeys|].
    cbn. rewrite Hbs. now destruct r.
Qed.

(** C3: with both names registered, [transfer_plate] always returns and
    never raises.  When a robot call raised, it returns [False] and the log
    has grown by exactly one failed entry that carries the message of the
    error; when both returned, it returns [True] and the log has grown by
    exactly one success entry.  A sequence of calls leaves one entry per
    call at the end of the log, in the order of the calls. *)
Theorem transfer_plate_error_boundary :
  (forall (now : datetime) (p : PlateId) (src dst : string) (w : Workcell.t),
     is_Some (Workcell.devices w !! src) ->
     is_Some (Workcell.devices w !! dst) ->
     exists b r w1 entry,
       pick_then_place p src dst w = (r, w1) /\
       Workcell.transfer_plate now p src dst w =
         (Return b, Workcell.set_protocol_log (Workcell.protocol_log w ++ [entry]) w1) /\
       entry_key entry = (strftime_HMS now, p, src, dst) /\
       match r with
       | Return _ =>
           b = true /\ LogEntry.status entry = success /\ LogEntry.error entry = None
       | Raise e =>
           b = false /\ LogEntry.status entry = failed /\
           LogEntry.error entry = Some (str e)
       end) /\
  (forall (calls : list TransferCall) (w : Workcell.t),
     Forall (fun c => is_Some (Workcell.devices w !! call_from c) /\
                      is_Some (Workcell.devices w !! call_to c)) calls ->
     exists bs entries w',
       transfer_all calls w = (Return bs, w') /\
       Workcell.protocol_log w' = (Workcell.protocol_log w ++ entries)%list /\
       map entry_key entries = map call_key calls /\
       map LogEntry.is_success entries = bs).
Proof.
  split; [|intros calls w; apply transfer_all_log].
  intros now p src dst w Hs Hd.
  rewrite transfer_plate_registered by assumption.
  destruct (pick_then_place_frame p src dst w Hs Hd) as [Hlog _].
  destruct (pick_then_place p src dst w) as [r w1]. cbn [snd] in Hlog.
  exists (match r with Return _ => true | Raise _ => false end), r, w1,
    (entry_of now p src dst r).
  rewrite Hlog. split; [reflexivity|]. split; [reflexivity|]. split; [reflexivity|].
  destruct r; repeat split.
Qed.

Lemma transfer_plate_error_boundary_witness :
  (exists b r w1 entry,
     pick_then_place "P1" "Storage" "LiquidHandler" occupied_workcell = (r, w1) /\
     Workcell.transfer_plate (example_clock 1) "P1" "Storage" "LiquidHandler"
       occupied_workcell =
       (Return b,
        Workcell.set_protocol_log (Workcell.protocol_log occupied_workcell ++ [entry]) w1) /\
     entry_key entry = (strftime_HMS (example_clock 1), "P1", "Storage", "LiquidHandler") /\
     match r with
     | Return _ =>
         b = true /\ LogEntry.status entry = success /\ LogEntry.error entry = None
     | Raise e =>
         b = false /\ LogEntry.status entry = failed /\
         LogEntry.error entry = Some (str e)
     end) /\
  (exists bs entries w',
     transfer_all
       [ {| call_now := example_clock 1; call_plate := "P1";
            call_from := "Storage"; call_to := "LiquidHandler" |};
         {| call_now := example_clock 2; call_plate := "P0";
            call_from := "LiquidHandler"; call_to := "Storage" |} ]
       occupied_workcell = (Return bs, w') /\
     Workcell.protocol_log w' = (Workcell.protocol_log occupied_workcell ++ entries)%list /\
     map entry_key entries =
       [ ("09:00:01", "P1", "Storage", "LiquidHandler");
         ("09:00:02", "P0", "LiquidHandler", "Storage") ] /\
     map LogEntry.is_success entries = bs).
Proof.
  split.
  - apply (proj1 transfer_plate_error_boundary); vm_compute; eauto.
  - apply (proj2 transfer_plate_error_boundary
             [ {| call_now := example_clock 1; call_plate := "P1";
                  call_from := "Storage"; call_to := "LiquidHandler" |};
               {| call_now := example_clock 2; call_plate := "P0";
                  call_from := "LiquidHandler"; call_to := "Storage" |} ]
             occupied_workcell).
    repeat constructor; vm_compute; eauto.
Defined.

(** ** Transfer into an occupied device *)

(** C5, as the specification states it, fails: after the failed transfer
    Storage does not hold "P1" any more. *)
Lemma transfer_to_occupied_counterexample :
  exists ds ds' w',
    Workcell.devices occupied_workcell !! "Storage" = Some ds /\
    WorkcellDevice.has_plate ds = true /\
    WorkcellDevice.plate_id ds = Some "P1" /\
    RobotArm.has_plate (Workcell.robot occupied_workcell) = false /\
    Workcell.transfer_plate (example_clock 1) "P1" "Storage" "LiquidHandler"
      occupied_workcell = (Return false, w') /\
    Workcell.devices w' !! "Storage" = Some ds' /\
    WorkcellDevice.has_plate ds' = false /\
    WorkcellDevice.plate_id ds' <> Some "P1".
Proof.
  exists (loaded_device "Storage" "P1"), (device_unloaded (loaded_device "Storage" "P1")),
    (snd (Workcell.transfer_plate (example_clock 1) "P1" "Storage" "LiquidHandler"
            occupied_workcell)).
  repeat (split; [vm_compute; reflexivity|]). vm_compute. discriminate.
Qed.

(** C5 (amended): when Storage holds "P1", the robot holds nothing, its
    move to Storage raises nothing and LiquidHandler already holds a plate,
    the transfer returns [False] and appends one failed entry with the
    message of the already-loaded error; afterwards Storage holds no plate,
    "P1" is in the gripper, and LiquidHandler is as it was: nothing is
    rolled back. *)
Theorem transfer_to_occupied (now : datetime) (w : Workcell.t)
    (ds dl : WorkcellDevice.t) :
  Workcell.devices w !! "Storage" = Some ds ->
  WorkcellDevice.has_plate ds = true ->
  WorkcellDevice.plate_id ds = Some "P1" ->
  RobotArm.has_plate (Workcell.robot w) = false ->
  move_error (WorkcellDevice.position ds) (Workcell.robot w) = None ->
  Workcell.devices w !! "LiquidHandler" = Some dl ->
  WorkcellDevice.has_plate dl = true ->
  exists e w',
    Workcell.transfer_plate now "P1" "Storage" "LiquidHandler" w = (Return false, w') /\
    e = AlreadyHasPlate (WorkcellDevice.name dl) (WorkcellDevice.plate_id dl) /\
    error_kind e = Some AlreadyLoadedError /\
    Workcell.protocol_log w' =
      (Workcell.protocol_log w ++
       [ {| LogEntry.timestamp := strftime_HMS now;
            LogEntry.plate_id := "P1";
            LogEntry.from := "Storage";
            LogEntry.to := "LiquidHandler";
            LogEntry.status := failed;
            LogEntry.error := Some (str e) |} ])%list /\
    Workcell.devices w' !! "Storage" = Some (device_unloaded ds) /\
    WorkcellDevice.has_plate (device_unloaded ds) = false /\
    WorkcellDevice.plate_id (device_unloaded ds) = None /\
    RobotArm.has_plate (Workcell.robot w') = true /\
    RobotArm.plate_id (Workcell.robot w') = Some "P1" /\
    Workcell.devices w' !! "LiquidHandler" = Some dl.
Proof.
  intros Hs Hp Hid Hr Hm Hl Hq.
  rewrite transfer_plate_registered by (rewrite ?Hs, ?Hl; eauto).
  rewrite (pick_then_place_eq "P1" "Storage" "LiquidHandler" w ds dl Hs Hl).
  rewrite Hr, Hp, Hm. cbn zeta.
  destruct (decide ("Storage" = "LiquidHandler")) as [Heq|_]; [discriminate Heq|].
  rewrite Hq.
  do 2 eexists. split; [reflexivity|]. split; [reflexivity|].
  split; [reflexivity|]. split; [reflexivity|].
  split; [cbn; now rewrite lookup_insert_eq|].
  split; [reflexivity|]. split; [reflexivity|].
  split; [reflexivity|]. split; [reflexivity|].
  cbn. rewrite lookup_insert_ne by discriminate. exact Hl.
Qed.

Lemma transfer_to_occupied_witness :
  exists e w',
    Workcell.transfer_plate (example_clock 1) "P1" "Storage" "LiquidHandler"
      occupied_workcell = (Return false, w') /\
    e = AlreadyHasPlate "LiquidHandler" (Some "P0") /\
    error_kind e = Some AlreadyLoadedError /\
    Workcell.protocol_log w' =
      (Workcell.protocol_log occupied_workcell ++
       [ {| LogEntry.timestamp := "09:00:01";
            LogEntry.plate_id := "P1";
            LogEntry.from := "Storage";
            LogEntry.to := "LiquidHandler";
            LogEntry.status := failed;
            LogEntry.error := Some (str e) |} ])%list /\
    Workcell.devices w' !! "Storage" =
      Some (device_unloaded (loaded_device "Storage" "P1")) /\
    WorkcellDevice.has_plate (device_unloaded (loaded_device "Storage" "P1")) = false /\
    WorkcellDevice.plate_id (device_unloaded (loaded_device "Storage" "P1")) = None /\
    RobotArm.has_plate (Workcell.robot w') = true /\
    RobotArm.plate_id (Workcell.robot w') = Some "P1" /\
    Workcell.devices w' !! "LiquidHandler" = Some (loaded_device "LiquidHandler" "P0").
Proof.
  apply (transfer_to_occupied (example_clock 1) occupied_workcell
           (loaded_device "Storage" "P1") (loaded_device "LiquidHandler" "P0"));
    vm_compute; reflexivity.
Defined.

(** ** Unregistered device names *)

(** C6, as the specification states it, fails: the error raised for an
    unregistered name is the dictionary's [KeyError], which is not the
    unknown-device error of the specification. *)
Lemma transfer_plate_unknown_device_counterexample :
  Workcell.devices main_workcell !! "Nowhere" = None /\
  Workcell.transfer_plate (example_clock 1) "CELL_CULTURE_PLATE_001" "Nowhere"
    "LiquidHandler" main_workcell = (Raise (KeyError "Nowhere"), main_workcell) /\
  error_kind (KeyError "Nowhere") <> Some UnknownDeviceError.
Proof.
  split; [vm_compute; reflexivity|]. split; [vm_compute; reflexivity|]. discriminate.
Qed.

(** C6 (amended): with an unregistered source or destination name,
    [transfer_plate] raises the dictionary's [KeyError] for that name (for
    the source name when both are unregistered), which is none of the errors
    named by the specification. *)
Theorem transfer_plate_unknown_device (now : datetime) (p : PlateId) (src dst : string)
    (w : Workcell.t) :
  Workcell.devices w !! src = None \/ Workcell.devices w !! dst = None ->
  exists key,
    fst (Workcell.transfer_plate now p src dst w) = Raise (KeyError key) /\
    Workcell.devices w !! key = None /\
    (key = src \/ key = dst) /\
    (Workcell.devices w !! src = None -> key = src) /\
    error_kind (KeyError key) = None.
Proof.
  intros H. rewrite transfer_plate_unregistered by exact H.
  destruct (Workcell.devices w !! src) as [ds|] eqn:Hs.
  - destruct H as [H|H]; [discriminate|].
    exists dst. repeat split; auto. discriminate.
  - exists src. repeat split; auto.
Qed.

Lemma transfer_plate_unknown_device_witness :
  exists key,
    fst (Workcell.transfer_plate (example_clock 1) "CELL_CULTURE_PLATE_001" "Storage"
           "Nowhere" main_workcell) = Raise (KeyError key) /\
    Workcell.devices main_workcell !! key = None /\
    (key = "Storage" \/ key = "Nowhere") /\
    (Workcell.devices main_workcell !! "Storage" = None -> key = "Storage") /\
    error_kind (KeyError key) = None.
Proof.
  apply (transfer_plate_unknown_device (example_clock 1) "CELL_CULTURE_PLATE_001"
           "Storage" "Nowhere" main_workcell).
  right. vm_compute. reflexivity.
Defined.

(** C10: with an unregistered source or destination name, the [KeyError] of
    the lookup leaves [transfer_plate] as a raised exception, and the
    workcell, its protocol log included, is exactly as before the call: no
    entry is appended. *)
Theorem transfer_plate_lookup_failure_propagates (now : datetime) (p : PlateId)
    (src dst : string) (w : Workcell.t) :
  Workcell.devices w !! src = None \/ Workcell.devices w !! dst = None ->
  exists key,
    Workcell.transfer_plate now p src dst w = (Raise (KeyError key), w) /\
    (key = src \/ key = dst) /\
    Workcell.devices w !! key = None /\
    Workcell.protocol_log (snd (Workcell.transfer_plate now p src dst w)) =
      Workcell.protocol_log w.
Proof.
  intros H. rewrite transfer_plate_unregistered by exact H.
  destruct (Workcell.devices w !! src) as [ds|] eqn:Hs.
  - destruct H as [H|H]; [discriminate|]. exists dst. repeat split; auto.
  - exists src. repeat split; auto.
Qed.

Lemma transfer_plate_lookup_failure_propagates_witness :
  exists key,
    Workcell.transfer_plate (example_clock 1) "CELL_CULTURE_PLATE_001" "Nowhere"
      "Storage" main_workcell = (Raise (KeyError key), main_workcell) /\
    (key = "Nowhere" \/ key = "Storage") /\
    Workcell.devices main_workcell !! key = None /\
    Workcell.protocol_log
      (snd (Workcell.transfer_plate (example_clock 1) "CELL_CULTURE_PLATE_001" "Nowhere"
              "Storage" main_workcell)) =
      Workcell.protocol_log main_workcell.
Proof.
  apply (transfer_plate_lookup_failure_propagates (example_clock 1)
           "CELL_CULTURE_PLATE_001" "Nowhere" "Storage" main_workcell).
  left. vm_compute. reflexivity.
Defined.

(** ** The protocol runner *)

Lemma bind_unit_step {S A} (m : M S bool) (k : M S A) (s : S) :
  ((m ;; ret tt) ;; k) s = (m ;; k) s.
Proof. unfold bind, ret. now destruct (m s) as [[b|e] s']. Qed.

Lemma bind_assoc_at {S A B C} (m : M S A) (k1 : M S B) (k2 : M S C) (s : S) :
  ((m ;; k1) ;; k2) s = (m ;; (k1 ;; k2)) s.
Proof. unfold bind. now destruct (m s) as [[a|e] s']. Qed.

Lemma bind_cong_at {S A B} (m : M S A) (k k' : M S B) (s : S) :
  (forall s', k s' = k' s') -> (m ;; k) s = (m ;; k') s.
Proof. intros H. unfold bind. destruct (m s) as [[a|e] s']; [apply H|reflexivity]. Qed.

(** Running a list of steps and then [k] is running them one by one in
    front of [k]. *)
Lemma run_steps_then {A} (l : list step) (k : M Workcell.t A) (w : Workcell.t) :
  (run_steps l ;; k) w = fold_right (fun s acc => run_step s ;; acc) k l w.
Proof.
  revert w. induction l as [|s l IH]; intros w; [reflexivity|].
  cbn [run_steps fold_right]. rewrite bind_assoc_at. apply bind_cong_at, IH.
Qed.

Lemma run_steps_raise (pre post : list step) (s : step) (w w1 w2 : Workcell.t) (e : exn) :
  run_steps pre w = (Return tt, w1) ->
  run_step s w1 = (Raise e, w2) ->
  run_steps (pre ++ s :: post) w = (Raise e, w2).
Proof.
  revert w. induction pre as [|s0 pre IH]; intros w Hpre Hs; cbn in *.
  - injection Hpre as ->. unfold bind. now rewrite Hs.
  - unfold bind in *. destruct (run_step s0 w) as [[[]|e0] w0]; [|discriminate].
    now apply IH.
Qed.

(** The runner is its list of steps, run inside the one [try] block. *)
Lemma run_protocol_as_steps (clock : nat -> datetime) (w : Workcell.t) :
  Workcell.run_cell_screening_protocol clock w =
  try_except (run_steps (cell_screening_steps clock) ;; protocol_report) protocol_handler
    (Workcell.set_start_time (Some (clock 0%nat)) w).
Proof.
  unfold Workcell.run_cell_screening_protocol.
  unfold bind at 1, modify. unfold try_except.
  set (w0 := Workcell.set_start_time _ w). clearbody w0.
  match goal with
  | |- (let (_, _) := ?a in _) = (let (_, _) := ?b in _) => assert (Hbody : b = a)
  end.
  { rewrite run_steps_then. cbn [fold_right cell_screening_steps run_step]. revert w0.
    do 9 (intros ?; rewrite bind_unit_step; apply bind_cong_at).
    reflexivity. }
  rewrite Hbody. reflexivity.
Qed.

(** C7: when one of the [process] calls of the protocol raises, in the
    workcell [w1] that the steps before it have left, the runner returns
    with that error and shows the log of [w1], and the workcell it leaves is
    [w1]: no later step has run and no entry has been appended.  The error
    was not handled at the step, and the runner itself does not raise. *)
Theorem process_failure_aborts_protocol (clock : nat -> datetime) (w w1 : Workcell.t)
    (pre post : list step) (device_name : string) (duration : Z)
    (d : WorkcellDevice.t) (e : exn) :
  cell_screening_steps clock = (pre ++ Process device_name duration :: post)%list ->
  run_steps pre (Workcell.set_start_time (Some (clock 0%nat)) w) = (Return tt, w1) ->
  Workcell.devices w1 !! device_name = Some d ->
  fst (WorkcellDevice.process duration d) = Raise e ->
  run_step (Process device_name duration) w1 = (Raise e, w1) /\
  Workcell.run_cell_screening_protocol clock w =
    (Return (Workcell.ProtocolFailed e (Workcell.protocol_log w1)), w1).
Proof.
  intros Hsteps Hpre Hd He.
  assert (Hdur : sleep_error duration = None).
  { assert (Hin : In (Process device_name duration) (cell_screening_steps clock))
      by (rewrite Hsteps; apply in_elt).
    cbn in Hin.
    repeat (destruct Hin as [Hin|Hin];
            [try discriminate Hin; injection Hin as <- <-; reflexivity|]).
    destruct Hin. }
  assert (Hstep : run_step (Process device_name duration) w1 = (Raise e, w1)).
  { cbn [run_step]. unfold bind.
    rewrite (call_device_raise_unchanged device_name _ w1 d e Hd); [reflexivity|].
    rewrite process_eq in He |- *. rewrite Hdur in He.
    destruct (WorkcellDevice.has_plate d); [discriminate|].
    cbn in He. now injection He as <-. }
  split; [exact Hstep|].
  rewrite run_protocol_as_steps, Hsteps. unfold try_except, bind at 1.
  now rewrite (run_steps_raise pre post _ _ w1 w1 e Hpre Hstep).
Qed.

Lemma process_failure_aborts_protocol_witness :
  run_step (Process "LiquidHandler" 3)
    (snd (run_steps [Transfer (example_clock 1) Workcell.plate_id "Storage" "LiquidHandler"]
            (Workcell.set_start_time (Some (example_clock 0)) empty_workcell))) =
    (Raise (NoPlateTo to_process "LiquidHandler"),
     snd (run_steps [Transfer (example_clock 1) Workcell.plate_id "Storage" "LiquidHandler"]
            (Workcell.set_start_time (Some (example_clock 0)) empty_workcell))) /\
  Workcell.run_cell_screening_protocol example_clock empty_workcell =
    (Return
       (Workcell.ProtocolFailed (NoPlateTo to_process "LiquidHandler")
          (Workcell.protocol_log
             (snd (run_steps
                     [Transfer (example_clock 1) Workcell.plate_id "Storage" "LiquidHandler"]
                     (Workcell.set_start_time (Some (example_clock 0)) empty_workcell))))),
     snd (run_steps [Transfer (example_clock 1) Workcell.plate_id "Storage" "LiquidHandler"]
            (Workcell.set_start_time (Some (example_clock 0)) empty_workcell))).
Proof.
  apply (process_failure_aborts_protocol example_clock empty_workcell _
           [Transfer (example_clock 1) Workcell.plate_id "Storage" "LiquidHandler"]
           (skipn 2 (cell_screening_steps example_clock))
           "LiquidHandler" 3 liquid_handler).
  - reflexivity.
  - vm_compute. reflexivity.
  - vm_compute. reflexivity.
  - reflexivity.
Defined.

(** ** The figures of the report *)

Lemma filter_length_le {A} (f : A -> bool) (l : list A) :
  length (List.filter f l) <= length l.
Proof. induction l as [|a l IH]; simpl; [lia|]. destruct (f a); simpl; lia. Qed.

Lemma filter_length_split {A} (f : A -> bool) (l : list A) :
  length (List.filter f l) + length (List.filter (fun a => negb (f a)) l) = length l.
Proof. induction l as [|a l IH]; simpl; [lia|]. destruct (f a); simpl; lia. Qed.

(** C9: the report never raises (no division by zero).  Its failure count
    is the total minus the success count, which is the number of entries
    that are not a success; its success rate is the int [0] for an empty
    log, printed as 0.0, and otherwise the float quotient of successes by
    total, times 100; for three entries of which two are successes it is
    printed as 66.7. *)
Theorem report_metrics (w : Workcell.t) :
  exists r,
    Workcell.report w = (Return r, w) /\
    Workcell.total_transfers r = Z.of_nat (length (Workcell.protocol_log w)) /\
    Workcell.successful_transfers r =
      Z.of_nat (length (List.filter LogEntry.is_success (Workcell.protocol_log w))) /\
    Workcell.failed_transfers r =
      (Workcell.total_transfers r - Workcell.successful_transfers r)%Z /\
    Workcell.failed_transfers r =
      Z.of_nat (length (List.filter (fun l => negb (LogEntry.is_success l))
                          (Workcell.protocol_log w))) /\
    (Workcell.protocol_log w = [] ->
     Workcell.success_rate r = PyInt 0 /\ format_1f (Workcell.success_rate r) = "0.0") /\
    (Workcell.protocol_log w <> [] ->
     Workcell.success_rate r =
       PyFloat (PrimFloat.mul
                  (PrimFloat.div (float_of_int (Workcell.successful_transfers r))
                                 (float_of_int (Workcell.total_transfers r)))
                  (float_of_int 100))) /\
    (length (Workcell.protocol_log w) = 3 ->
     length (List.filter LogEntry.is_success (Workcell.protocol_log w)) = 2 ->
     format_1f (Workcell.success_rate r) = "66.7").
Proof.
  unfold Workcell.report, bind at 1, get.
  set (log := Workcell.protocol_log w).
  set (total := Z.of_nat (length log)).
  set (successful := Z.of_nat (length (List.filter LogEntry.is_success log))).
  assert (Hsplit : (total - successful)%Z =
                   Z.of_nat (length (List.filter (fun l => negb (LogEntry.is_success l)) log))).
  { pose proof (filter_length_split LogEntry.is_success log). subst total successful. lia. }
  destruct (0 <? total)%Z eqn:Hpos.
  - assert (Hnz : (total =? 0)%Z = false) by (apply Z.eqb_neq; apply Z.ltb_lt in Hpos; lia).
    unfold bind, truediv. rewrite Hnz. cbn.
    eexists. split; [reflexivity|]. cbn.
    split; [reflexivity|]. split; [reflexivity|]. split; [reflexivity|].
    split; [exact Hsplit|].
    split; [intros Hnil; subst total; rewrite Hnil in Hpos; discriminate|].
    split; [reflexivity|].
    intros H3 H2. subst total successful. rewrite H3, H2. vm_compute. reflexivity.
  - unfold bind. cbn.
    eexists. split; [reflexivity|]. cbn.
    split; [reflexivity|]. split; [reflexivity|]. split; [reflexivity|].
    split; [exact Hsplit|].
    split; [intros _; split; reflexivity|].
    split.
    + intros Hne. destruct log as [|l0 log']; [congruence|].
      subst total. apply Z.ltb_ge in Hpos. simpl length in Hpos. lia.
    + intros H3. subst total. rewrite H3 in Hpos. discriminate.
Qed.

Lemma report_metrics_witness :
  map LogEntry.status (Workcell.protocol_log three_transfers_workcell) =
    [success; success; failed] /\
  exists r,
    Workcell.report three_transfers_workcell = (Return r, three_transfers_workcell) /\
    Workcell.failed_transfers r = 1%Z /\
    format_1f (Workcell.success_rate r) = "66.7".
Proof.
  split; [vm_compute; reflexivity|].
  destruct (report_metrics three_transfers_workcell)
    as (r & Hr & Htotal & Hsucc & Hfailed & _ & _ & _ & Hshown).
  exists r. split; [exact Hr|]. split.
  - rewrite Hfailed, Htotal, Hsucc. vm_compute. reflexivity.
  - apply Hshown; vm_compute; reflexivity.
Defined.

(** * Further properties of the code *)

(** ** The cases of [transfer_plate] *)

Lemma move_error_is_move_error (target : Position.t) (r : RobotArm.t) (e : exn) :
  move_error target r = Some e -> is_move_error e.
Proof.
  unfold move_error, RobotArm.move_to, distance_to, to_float, time_sleep, min_1.
  unfold bind, get, modify, raise, ret, is_move_error.
  repeat match goal with
         | |- context [if ?b then _ else _] => destruct b
         end; cbn; intros [= <-]; tauto.
Qed.

Lemma is_move_error_kind (e : exn) : is_move_error e -> error_kind e = None.
Proof. intros [->|[->|[->|[->| ->]]]]; reflexivity. Qed.

Lemma transfer_plate_case_sound (now : datetime) (p : PlateId) (src dst : string)
    (w : Workcell.t) :
  transfer_case now p src dst w
    (fst (Workcell.transfer_plate now p src dst w))
    (snd (Workcell.transfer_plate now p src dst w)).
Proof.
  destruct (Workcell.devices w !! src) as [ds|] eqn:Hs.
  2:{ rewrite transfer_plate_unregistered by (now left). rewrite Hs. now constructor. }
  destruct (Workcell.devices w !! dst) as [dd|] eqn:Hd.
  2:{ rewrite transfer_plate_unregistered by (now right). rewrite Hs.
      now apply transfer_unknown_destination with ds. }
  rewrite transfer_plate_registered by (rewrite ?Hs, ?Hd; eauto).
  rewrite (pick_then_place_eq p src dst w ds dd Hs Hd).
  destruct (RobotArm.has_plate (Workcell.robot w)) eqn:Hr.
  { now apply transfer_gripper_occupied with ds dd. }
  destruct (WorkcellDevice.has_plate ds) eqn:Hp.
  2:{ now apply transfer_source_empty with dd. }
  destruct (move_error (WorkcellDevice.position ds) (Workcell.robot w)) as [e1|] eqn:Hm1.
  { now apply transfer_source_unreachable with ds dd. }
  cbn zeta. destruct (decide (src = dst)) as [Heq|Hne].
  - assert (dd = ds) as -> by congruence.
    change (WorkcellDevice.has_plate (device_unloaded ds)) with false. cbn iota.
    change (WorkcellDevice.position (device_unloaded ds)) with (WorkcellDevice.position ds).
    destruct (move_error (WorkcellDevice.position ds) (robot_picked p ds (Workcell.robot w)))
      as [e2|] eqn:Hm2.
    + now apply transfer_destination_unreachable with ds; auto.
    + pose proof (transfer_done now p src dst w ds ds Hs Hd Hr Hp Hm1 (or_introl Heq) Hm2)
        as H.
      destruct (decide (src = dst)); [exact H|contradiction].
  - destruct (WorkcellDevice.has_plate dd) eqn:Hq.
    + now apply transfer_destination_occupied.
    + destruct (move_error (WorkcellDevice.position dd)
                  (robot_picked p ds (Workcell.robot w))) as [e2|] eqn:Hm2.
      * now apply transfer_destination_unreachable with dd; auto.
      * pose proof (transfer_done now p src dst w ds dd Hs Hd Hr Hp Hm1 (or_intror Hq) Hm2)
          as H.
        destruct (decide (src = dst)); [contradiction|exact H].
Qed.

Lemma transfer_plate_case_complete (now : datetime) (p : PlateId) (src dst : string)
    (w w' : Workcell.t) (r : result bool) :
  transfer_case now p src dst w r w' ->
  Workcell.transfer_plate now p src dst w = (r, w').
Proof.
  assert (Hpos : forall ds dd,
             Workcell.devices w !! src = Some ds -> Workcell.devices w !! dst = Some dd ->
             WorkcellDevice.position
               (if decide (src = dst) then device_unloaded ds else dd) =
             WorkcellDevice.position dd).
  { intros ds dd Hs Hd. destruct (decide (src = dst)); [|reflexivity].
    assert (dd = ds) as -> by congruence. reflexivity. }
  assert (Hfree : forall ds dd,
             src = dst \/ WorkcellDevice.has_plate dd = false ->
             WorkcellDevice.has_plate
               (if decide (src = dst) then device_unloaded ds else dd) = false).
  { intros ds dd Hq. destruct (decide (src = dst)); [reflexivity|].
    destruct Hq; [contradiction|assumption]. }
  intros [Hs|ds Hs Hd|ds dd Hs Hd Hr|ds dd Hs Hd Hr Hp|ds dd e Hs Hd Hr Hp Hm1
          |ds dd Hs Hd Hr Hp Hm1 Hne Hq|ds dd e Hs Hd Hr Hp Hm1 Hq Hm2
          |ds dd Hs Hd Hr Hp Hm1 Hq Hm2].
  - rewrite transfer_plate_unregistered by (now left). now rewrite Hs.
  - rewrite transfer_plate_unregistered by (now right). now rewrite Hs.
  - rewrite transfer_plate_registered by (rewrite ?Hs, ?Hd; eauto).
    now rewrite (pick_then_place_eq p src dst w ds dd Hs Hd), Hr.
  - rewrite transfer_plate_registered by (rewrite ?Hs, ?Hd; eauto).
    now rewrite (pick_then_place_eq p src dst w ds dd Hs Hd), Hr, Hp.
  - rewrite transfer_plate_registered by (rewrite ?Hs, ?Hd; eauto).
    now rewrite (pick_then_place_eq p src dst w ds dd Hs Hd), Hr, Hp, Hm1.
  - rewrite transfer_plate_registered by (rewrite ?Hs, ?Hd; eauto).
    rewrite (pick_then_place_eq p src dst w ds dd Hs Hd), Hr, Hp, Hm1. cbn zeta.
    destruct (decide (src = dst)); [contradiction|]. now rewrite Hq.
  - rewrite transfer_plate_registered by (rewrite ?Hs, ?Hd; eauto).
    rewrite (pick_then_place_eq p src dst w ds dd Hs Hd), Hr, Hp, Hm1. cbn zeta.
    now rewrite (Hfree ds dd Hq), (Hpos ds dd Hs Hd), Hm2.
  - rewrite transfer_plate_registered by (rewrite ?Hs, ?Hd; eauto).
    rewrite (pick_then_place_eq p src dst w ds dd Hs Hd), Hr, Hp, Hm1. cbn zeta.
    now rewrite (Hfree ds dd Hq), (Hpos ds dd Hs Hd), Hm2.
Qed.

(** X1: a call of [transfer_plate] goes in exactly one of eight ways,
    decided by the two lookups, three flags and the errors of the two
    moves: unknown source, unknown destination, gripper occupied, source
    empty, move to the source raised, destination occupied, move to the
    destination raised, or done; the result and the workcell left are
    those of the case. *)
Theorem transfer_plate_cases (now : datetime) (p : PlateId) (src dst : string)
    (w w' : Workcell.t) (r : result bool) :
  Workcell.transfer_plate now p src dst w = (r, w') <->
  transfer_case now p src dst w r w'.
Proof.
  split.
  - intros H. pose proof (transfer_plate_case_sound now p src dst w) as Hc.
    now rewrite H in Hc.
  - apply transfer_plate_case_complete.
Qed.

(** X2: [transfer_plate] returns [True] exactly when both names are
    registered, the gripper is free, the source device has a plate, the
    destination device, unless it is the source itself, has none, and
    neither the move to the source nor the move from there to the
    destination raises. *)
Theorem transfer_plate_true_iff (now : datetime) (p : PlateId) (src dst : string)
    (w : Workcell.t) :
  fst (Workcell.transfer_plate now p src dst w) = Return true <->
  exists ds dd,
    Workcell.devices w !! src = Some ds /\
    Workcell.devices w !! dst = Some dd /\
    RobotArm.has_plate (Workcell.robot w) = false /\
    WorkcellDevice.has_plate ds = true /\
    (src = dst \/ WorkcellDevice.has_plate dd = false) /\
    move_error (WorkcellDevice.position ds) (Workcell.robot w) = None /\
    move_error (WorkcellDevice.position dd) (robot_picked p ds (Workcell.robot w)) = None.
Proof.
  split.
  - intros H. pose proof (transfer_plate_case_sound now p src dst w) as Hc.
    rewrite H in Hc. inversion Hc; subst. eauto 10.
  - intros (ds & dd & Hs & Hd & Hr & Hp & Hq & Hm1 & Hm2).
    now rewrite (transfer_plate_case_complete _ _ _ _ _ _ _
                   (transfer_done now p src dst w ds dd Hs Hd Hr Hp Hm1 Hq Hm2)).
Qed.

(** X3: the error that a failed transfer logs is that of an occupied
    gripper, of an empty source, of an occupied destination, or an error
    of the interpreter raised by one of the two moves; the first three
    come in this order of precedence, a failed pick leaves robot and
    devices untouched, and the not-holding error of [place_plate] never
    occurs inside a transfer. *)
Theorem transfer_plate_failure_modes (now : datetime) (p : PlateId) (src dst : string)
    (w w' : Workcell.t) :
  Workcell.transfer_plate now p src dst w = (Return false, w') ->
  exists e w1,
    pick_then_place p src dst w = (Raise e, w1) /\
    w' = logged now p src dst (Raise e) w1 /\
    (error_kind e = Some GripperOccupiedError \/
     error_kind e = Some EmptyDeviceError \/
     error_kind e = Some AlreadyLoadedError \/
     is_move_error e /\ error_kind e = None) /\
    error_kind e <> Some GripperEmptyError /\
    (RobotArm.has_plate (Workcell.robot w) = true ->
     error_kind e = Some GripperOccupiedError /\ w1 = w) /\
    (error_kind e = Some EmptyDeviceError -> w1 = w) /\
    (error_kind e = Some AlreadyLoadedError ->
     exists ds, Workcell.devices w !! src = Some ds /\ w1 = workcell_picked p src ds w) /\
    (is_move_error e ->
     exists ds dd,
       Workcell.devices w !! src = Some ds /\ Workcell.devices w !! dst = Some dd /\
       (move_error (WorkcellDevice.position ds) (Workcell.robot w) = Some e /\ w1 = w \/
        move_error (WorkcellDevice.position dd) (robot_picked p ds (Workcell.robot w)) =
          Some e /\ w1 = workcell_picked p src ds w)).
Proof.
  intros H.
  destruct (Workcell.devices w !! src) as [ds|] eqn:Hs;
    [|rewrite transfer_plate_unregistered in H by (now left); discriminate].
  destruct (Workcell.devices w !! dst) as [dd|] eqn:Hd;
    [|rewrite transfer_plate_unregistered in H by (now right); discriminate].
  assert (Hpos : WorkcellDevice.position
                   (if decide (src = dst) then device_unloaded ds else dd) =
                 WorkcellDevice.position dd).
  { destruct (decide (src = dst)); [|reflexivity].
    assert (dd = ds) as -> by congruence. reflexivity. }
  assert (Hnot : forall e, is_move_error e -> error_kind e <> None -> False).
  { intros e He Hk. now apply Hk, is_move_error_kind. }
  rewrite transfer_plate_registered in H by (rewrite ?Hs, ?Hd; eauto).
  revert H. rewrite (pick_then_place_eq p src dst w ds dd Hs Hd).
  destruct (RobotArm.has_plate (Workcell.robot w)) eqn:Hr;
    [|destruct (WorkcellDevice.has_plate ds) eqn:Hp;
      [destruct (move_error (WorkcellDevice.position ds) (Workcell.robot w))
         as [e1|] eqn:Hm1|]].
  - intros [= <-]. do 2 eexists. split; [reflexivity|]. split; [reflexivity|].
    split; [now left|]. split; [discriminate|]. split; [now split|].
    split; [reflexivity|]. split; [discriminate|].
    intros He. exfalso. apply (Hnot _ He). discriminate.
  - intros [= <-]. pose proof (move_error_is_move_error _ _ _ Hm1) as He1.
    pose proof (is_move_error_kind _ He1) as Hk1.
    do 2 eexists. split; [reflexivity|]. split; [reflexivity|].
    split; [now right; right; right|]. split; [congruence|]. split; [discriminate|].
    split; [reflexivity|]. split; [congruence|].
    intros _. exists ds, dd. split; [reflexivity|]. split; [reflexivity|]. now left.
  - cbn zeta. rewrite Hpos.
    destruct (WorkcellDevice.has_plate (if decide (src = dst) then _ else _)) eqn:Hq;
      [|destruct (move_error (WorkcellDevice.position dd)
                    (robot_picked p ds (Workcell.robot w))) as [e2|] eqn:Hm2].
    + intros [= <-]. do 2 eexists. split; [reflexivity|]. split; [reflexivity|].
      split; [now right; right; left|]. split; [discriminate|]. split; [discriminate|].
      split; [discriminate|]. split; [intros _; now exists ds|].
      intros He. exfalso. apply (Hnot _ He). discriminate.
    + intros [= <-]. pose proof (move_error_is_move_error _ _ _ Hm2) as He2.
      pose proof (is_move_error_kind _ He2) as Hk2.
      do 2 eexists. split; [reflexivity|]. split; [reflexivity|].
      split; [now right; right; right|]. split; [congruence|]. split; [discriminate|].
      split; [congruence|]. split; [congruence|].
      intros _. exists ds, dd. split; [reflexivity|]. split; [reflexivity|]. now right.
    + discriminate.
  - intros [= <-]. do 2 eexists. split; [reflexivity|]. split; [reflexivity|].
    split; [now right; left|]. split; [discriminate|]. split; [discriminate|].
    split; [reflexivity|]. split; [discriminate|].
    intros He. exfalso. apply (Hnot _ He). discriminate.
Qed.

Lemma transfer_plate_failure_modes_witness :
  exists e w1,
    pick_then_place "P1" "Storage" "LiquidHandler" occupied_workcell = (Raise e, w1) /\
    error_kind e = Some AlreadyLoadedError /\
    RobotArm.plate_id (Workcell.robot w1) = Some "P1".
Proof.
  destruct (transfer_plate_failure_modes (example_clock 1) "P1" "Storage" "LiquidHandler"
              occupied_workcell _ eq_refl) as (e & w1 & Hpp & _).
  exists e, w1. split; [exact Hpp|].
  vm_compute in Hpp. injection Hpp as <- <-. split; reflexivity.
Defined.

(** ** The steps of the protocol, one by one *)

Lemma process_step_eq (key : string) (duration : Z) (w : Workcell.t) :
  Workcell.call_device key (WorkcellDevice.process duration) w =
  match Workcell.devices w !! key with
  | None => (Raise (KeyError key), w)
  | Some d =>
      if WorkcellDevice.has_plate d
      then match sleep_error duration with
           | None =>
               (Return true,
                Workcell.set_devices
                  (<[key := WorkcellDevice.set_status complete
                              (WorkcellDevice.set_status processing d)]>
                     (Workcell.devices w)) w)
           | Some e =>
               (Raise e,
                Workcell.set_devices
                  (<[key := WorkcellDevice.set_status processing d]>
                     (Workcell.devices w)) w)
           end
      else (Raise (NoPlateTo to_process (WorkcellDevice.name d)), w)
  end.
Proof.
  destruct (Workcell.devices w !! key) as [d|] eqn:Hd.
  - destruct (WorkcellDevice.has_plate d) eqn:Hp.
    + unfold Workcell.call_device. rewrite Hd, process_eq, Hp.
      now destruct (sleep_error duration).
    + apply call_device_raise_unchanged with d; [exact Hd|]. now rewrite process_eq, Hp.
  - unfold Workcell.call_device. now rewrite Hd.
Qed.

Lemma return_home_eq (w : Workcell.t) :
  Workcell.call_self_robot RobotArm.return_home w =
  match move_error RobotArm.home (Workcell.robot w) with
  | None =>
      (Return tt, Workcell.set_robot (robot_moved RobotArm.home (Workcell.robot w)) w)
  | Some e => (Raise e, w)
  end.
Proof.
  unfold Workcell.call_self_robot, RobotArm.return_home, bind.
  rewrite move_to_eq.
  destruct (move_error RobotArm.home (Workcell.robot w)); [|reflexivity].
  now destruct w.
Qed.

Lemma report_returns (w : Workcell.t) : exists r, Workcell.report w = (Return r, w).
Proof.
  unfold Workcell.report, bind at 1, get.
  destruct (0 <? Z.of_nat (length (Workcell.protocol_log w)))%Z eqn:Hpos.
  - unfold bind, truediv.
    replace (Z.of_nat (length (Workcell.protocol_log w)) =? 0)%Z with false
      by (symmetry; apply Z.eqb_neq; apply Z.ltb_lt in Hpos; lia).
    cbn. eauto.
  - unfold bind. cbn. eauto.
Qed.

(** The runner never raises: it returns the outcome of its steps, and the
    workcell it leaves is the one its steps left. *)
Lemma protocol_outcome (clock : nat -> datetime) (w : Workcell.t) :
  exists o,
    Workcell.run_cell_screening_protocol clock w =
      (Return o,
       snd (run_steps (cell_screening_steps clock)
              (Workcell.set_start_time (Some (clock 0%nat)) w))) /\
    match fst (run_steps (cell_screening_steps clock)
                 (Workcell.set_start_time (Some (clock 0%nat)) w)) with
    | Return _ =>
        exists r,
          Workcell.report
            (snd (run_steps (cell_screening_steps clock)
                    (Workcell.set_start_time (Some (clock 0%nat)) w))) =
            (Return r,
             snd (run_steps (cell_screening_steps clock)
                    (Workcell.set_start_time (Some (clock 0%nat)) w))) /\
          o = Workcell.ProtocolComplete r
                (Workcell.protocol_log
                   (snd (run_steps (cell_screening_steps clock)
                           (Workcell.set_start_time (Some (clock 0%nat)) w))))
    | Raise e =>
        o = Workcell.ProtocolFailed e
              (Workcell.protocol_log
                 (snd (run_steps (cell_screening_steps clock)
                         (Workcell.set_start_time (Some (clock 0%nat)) w))))
    end.
Proof.
  rewrite run_protocol_as_steps. unfold try_except, bind at 1.
  destruct (run_steps _ _) as [[[]|e] w1]; cbn [fst snd].
  - destruct (report_returns w1) as [r Hr].
    unfold protocol_report, bind at 1. rewrite Hr. cbn. eauto.
  - cbn. eauto.
Qed.

(** ** Relations kept by every step *)

(** A relation between the workcell before and after that is kept by the
    seven elementary transitions (a log entry, the start time, a pick, a
    place, a processing that ends, one that is interrupted, the move home)
    is kept by [transfer_plate], by any list of steps and by the protocol
    runner. *)
Section Kept.

Variable R : Workcell.t -> Workcell.t -> Prop.

Hypothesis R_refl : forall w, R w w.
Hypothesis R_trans : forall a b c, R a b -> R b c -> R a c.
Hypothesis R_log : forall w l, R w (Workcell.set_protocol_log l w).
Hypothesis R_start : forall w t, R w (Workcell.set_start_time t w).
Hypothesis R_pick : forall p src ds w,
  Workcell.devices w !! src = Some ds ->
  RobotArm.has_plate (Workcell.robot w) = false ->
  WorkcellDevice.has_plate ds = true ->
  R w (workcell_picked p src ds w).
Hypothesis R_place : forall dst dd w,
  Workcell.devices w !! dst = Some dd ->
  RobotArm.has_plate (Workcell.robot w) = true ->
  WorkcellDevice.has_plate dd = false ->
  R w (workcell_placed dst dd w).
Hypothesis R_process : forall key d w,
  Workcell.devices w !! key = Some d ->
  WorkcellDevice.has_plate d = true ->
  R w (Workcell.set_devices
         (<[key := WorkcellDevice.set_status complete
                     (WorkcellDevice.set_status processing d)]> (Workcell.devices w)) w).
Hypothesis R_interrupt : forall key d w,
  Workcell.devices w !! key = Some d ->
  WorkcellDevice.has_plate d = true ->
  R w (Workcell.set_devices
         (<[key := WorkcellDevice.set_status processing d]> (Workcell.devices w)) w).
Hypothesis R_home : forall w,
  R w (Workcell.set_robot (robot_moved RobotArm.home (Workcell.robot w)) w).

Lemma kept_by_transfer (now : datetime) (p : PlateId) (src dst : string) (w : Workcell.t) :
  R w (snd (Workcell.transfer_plate now p src dst w)).
Proof.
  destruct (transfer_plate_case_sound now p src dst w)
    as [Hs|ds Hs Hd|ds dd Hs Hd Hr|ds dd Hs Hd Hr Hp|ds dd e Hs Hd Hr Hp Hm1
        |ds dd Hs Hd Hr Hp Hm1 Hne Hq|ds dd e Hs Hd Hr Hp Hm1 Hq Hm2
        |ds dd Hs Hd Hr Hp Hm1 Hq Hm2]; unfold logged.
  - apply R_refl.
  - apply R_refl.
  - apply R_log.
  - apply R_log.
  - apply R_log.
  - eapply R_trans; [|apply R_log]. now apply R_pick.
  - eapply R_trans; [|apply R_log]. now apply R_pick.
  - eapply R_trans; [|apply R_log].
    eapply R_trans; [apply (R_pick p src ds w); assumption|].
    apply R_place.
    + now apply lookup_after_pick.
    + reflexivity.
    + destruct (decide (src = dst)); [reflexivity|].
      destruct Hq; [contradiction|assumption].
Qed.

Lemma kept_by_step (s : step) (w : Workcell.t) : R w (snd (run_step s w)).
Proof.
  destruct s as [now p src dst|key duration|]; cbn [run_step].
  - unfold bind. pose proof (kept_by_transfer now p src dst w) as H.
    now destruct (Workcell.transfer_plate now p src dst w) as [[b|e] w'].
  - unfold bind. rewrite process_step_eq.
    destruct (Workcell.devices w !! key) as [d|] eqn:Hd; [|apply R_refl].
    destruct (WorkcellDevice.has_plate d) eqn:Hp; [|apply R_refl].
    destruct (sleep_error duration); cbn; [now apply R_interrupt|now apply R_process].
  - rewrite return_home_eq.
    destruct (move_error RobotArm.home (Workcell.robot w)); [apply R_refl|apply R_home].
Qed.

Lemma kept_by_steps (l : list step) : forall w, R w (snd (run_steps l w)).
Proof.
  induction l as [|s l IH]; intros w; [apply R_refl|].
  cbn [run_steps]. unfold bind. pose proof (kept_by_step s w) as Hs.
  destruct (run_step s w) as [[[]|e] w1]; [|exact Hs].
  eapply R_trans; [exact Hs|apply IH].
Qed.

Lemma kept_by_protocol (clock : nat -> datetime) (w : Workcell.t) :
  R w (snd (Workcell.run_cell_screening_protocol clock w)).
Proof.
  destruct (protocol_outcome clock w) as (o & -> & _). cbn [snd].
  eapply R_trans; [apply R_start|apply kept_by_steps].
Qed.

End Kept.

(** ** What no operation changes *)

Lemma setup_insert (w : Workcell.t) (key : string) (d d' : WorkcellDevice.t) :
  Workcell.devices w !! key = Some d ->
  device_setup d' = device_setup d ->
  device_setup <$> <[key := d']> (Workcell.devices w) = device_setup <$> Workcell.devices w.
Proof.
  intros Hd Heq. rewrite fmap_insert. apply insert_id.
  now rewrite lookup_fmap, Hd, Heq.
Qed.

(** X4: a transfer, any list of protocol steps and a run of the protocol
    leave the setup as it is: the names of workcell and robot, the speed of
    the robot, the set of registered device names, and the name and position
    of every device. *)
Theorem setup_kept (w : Workcell.t) :
  (forall now p src dst, setup (snd (Workcell.transfer_plate now p src dst w)) = setup w) /\
  (forall l, setup (snd (run_steps l w)) = setup w) /\
  (forall clock,
     setup (snd (Workcell.run_cell_screening_protocol clock w)) = setup w /\
     dom (Workcell.devices (snd (Workcell.run_cell_screening_protocol clock w))) =
       dom (Workcell.devices w)).
Proof.
  assert (Hlog : forall w l, setup (Workcell.set_protocol_log l w) = setup w)
    by reflexivity.
  assert (Hstart : forall w t, setup (Workcell.set_start_time t w) = setup w)
    by reflexivity.
  assert (Hpick : forall p src ds w,
             Workcell.devices w !! src = Some ds ->
             RobotArm.has_plate (Workcell.robot w) = false ->
             WorkcellDevice.has_plate ds = true ->
             setup (workcell_picked p src ds w) = setup w).
  { intros p src ds w0 Hs _ _. unfold setup; cbn.
    now rewrite (setup_insert w0 src ds (device_unloaded ds) Hs). }
  assert (Hplace : forall dst dd w,
             Workcell.devices w !! dst = Some dd ->
             RobotArm.has_plate (Workcell.robot w) = true ->
             WorkcellDevice.has_plate dd = false ->
             setup (workcell_placed dst dd w) = setup w).
  { intros dst dd w0 Hd _ _. unfold setup; cbn.
    now rewrite (setup_insert w0 dst dd (device_loaded _ dd) Hd). }
  assert (Hprocess : forall key d w,
             Workcell.devices w !! key = Some d ->
             WorkcellDevice.has_plate d = true ->
             setup (Workcell.set_devices
                      (<[key := WorkcellDevice.set_status complete
                                  (WorkcellDevice.set_status processing d)]>
                         (Workcell.devices w)) w) = setup w).
  { intros key d w0 Hd _. unfold setup; cbn.
    now rewrite (setup_insert w0 key d _ Hd). }
  assert (Hinterrupt : forall key d w,
             Workcell.devices w !! key = Some d ->
             WorkcellDevice.has_plate d = true ->
             setup (Workcell.set_devices
                      (<[key := WorkcellDevice.set_status processing d]>
                         (Workcell.devices w)) w) = setup w).
  { intros key d w0 Hd _. unfold setup; cbn.
    now rewrite (setup_insert w0 key d _ Hd). }
  assert (Hhome : forall w,
             setup (Workcell.set_robot (robot_moved RobotArm.home (Workcell.robot w)) w) =
             setup w) by reflexivity.
  assert (Htrans : forall a b c : Workcell.t,
             setup b = setup a -> setup c = setup b -> setup c = setup a) by congruence.
  split; [|split].
  - intros now p src dst.
    apply (kept_by_transfer (fun a b => setup b = setup a)); auto.
  - intros l. apply (kept_by_steps (fun a b => setup b = setup a)); auto.
  - intros clock.
    assert (H : setup (snd (Workcell.run_cell_screening_protocol clock w)) = setup w)
      by (apply (kept_by_protocol (fun a b => setup b = setup a)); auto).
    split; [exact H|].
    apply (f_equal snd) in H. cbn in H.
    apply (f_equal dom) in H. now rewrite !dom_fmap_L in H.
Qed.

(** ** Invariants of the workcell *)

(** X5: when every device of a workcell satisfies the device invariant, so
    does every device after a transfer, after any list of protocol steps and
    after a run of the protocol, whatever their outcome. *)
Theorem devices_inv_kept (w : Workcell.t) :
  devices_inv w ->
  (forall now p src dst, devices_inv (snd (Workcell.transfer_plate now p src dst w))) /\
  (forall l, devices_inv (snd (run_steps l w))) /\
  (forall clock, devices_inv (snd (Workcell.run_cell_screening_protocol clock w))).
Proof.
  intros Hw.
  assert (Hun : forall d, device_inv (device_unloaded d)).
  { intros d. unfold device_inv; cbn. split; [discriminate|].
    intros [H|[H|H]]; discriminate. }
  assert (Hlo : forall p d, device_inv (device_loaded p d)).
  { intros p d. unfold device_inv; cbn. tauto. }
  assert (Hpick : forall p src ds w,
             Workcell.devices w !! src = Some ds ->
             RobotArm.has_plate (Workcell.robot w) = false ->
             WorkcellDevice.has_plate ds = true ->
             devices_inv w -> devices_inv (workcell_picked p src ds w)).
  { intros p src ds w0 _ _ _ H. unfold devices_inv; cbn.
    apply map_Forall_insert_2; [apply Hun|exact H]. }
  assert (Hplace : forall dst dd w,
             Workcell.devices w !! dst = Some dd ->
             RobotArm.has_plate (Workcell.robot w) = true ->
             WorkcellDevice.has_plate dd = false ->
             devices_inv w -> devices_inv (workcell_placed dst dd w)).
  { intros dst dd w0 _ _ _ H. unfold devices_inv; cbn.
    apply map_Forall_insert_2; [apply Hlo|exact H]. }
  assert (Hprocess : forall key d w,
             Workcell.devices w !! key = Some d ->
             WorkcellDevice.has_plate d = true ->
             devices_inv w ->
             devices_inv (Workcell.set_devices
                            (<[key := WorkcellDevice.set_status complete
                                        (WorkcellDevice.set_status processing d)]>
                               (Workcell.devices w)) w)).
  { intros key d w0 _ Hp H. unfold devices_inv; cbn.
    apply map_Forall_insert_2; [|exact H]. unfold device_inv; cbn. tauto. }
  assert (Hinterrupt : forall key d w,
             Workcell.devices w !! key = Some d ->
             WorkcellDevice.has_plate d = true ->
             devices_inv w ->
             devices_inv (Workcell.set_devices
                            (<[key := WorkcellDevice.set_status processing d]>
                               (Workcell.devices w)) w)).
  { intros key d w0 _ Hp H. unfold devices_inv; cbn.
    apply map_Forall_insert_2; [|exact H]. unfold device_inv; cbn. tauto. }
  split; [|split].
  - intros now p src dst.
    apply (kept_by_transfer (fun a b => devices_inv a -> devices_inv b)); auto.
  - intros l. apply (kept_by_steps (fun a b => devices_inv a -> devices_inv b)); auto.
  - intros clock.
    apply (kept_by_protocol (fun a b => devices_inv a -> devices_inv b)); auto.
Qed.

Lemma devices_inv_kept_witness :
  devices_inv occupied_workcell /\
  Workcell.devices
    (snd (Workcell.transfer_plate (example_clock 1) "P1" "Storage" "LiquidHandler"
            occupied_workcell)) <> Workcell.devices occupied_workcell /\
  devices_inv
    (snd (Workcell.transfer_plate (example_clock 1) "P1" "Storage" "LiquidHandler"
            occupied_workcell)).
Proof.
  assert (H : devices_inv occupied_workcell).
  { unfold devices_inv. apply map_Forall_lookup. intros k d Hk.
    assert (Hd : WorkcellDevice.has_plate d = true /\ WorkcellDevice.status d = loaded).
    { revert Hk. unfold occupied_workcell; cbn.
      rewrite !lookup_insert. repeat case_decide; intros [= <-]; now split. }
    destruct Hd as [Hp Hst]. unfold device_inv. rewrite Hp, Hst.
    split; [intros _; now left|reflexivity]. }
  split; [exact H|]. split.
  - intros Heq. apply (f_equal (fun m => m !! "Storage")) in Heq.
    vm_compute in Heq. discriminate Heq.
  - exact (proj1 (devices_inv_kept occupied_workcell H)
             (example_clock 1) "P1" "Storage" "LiquidHandler").
Defined.

(** X6: when the has-plate flag and the plate id agree in the robot and in
    every device (a plate is flagged exactly where an id is stored), they
    still agree after a transfer, after any list of protocol steps and after
    a run of the protocol. *)
Theorem consistent_kept (w : Workcell.t) :
  consistent w ->
  (forall now p src dst, consistent (snd (Workcell.transfer_plate now p src dst w))) /\
  (forall l, consistent (snd (run_steps l w))) /\
  (forall clock, consistent (snd (Workcell.run_cell_screening_protocol clock w))).
Proof.
  intros Hw.
  assert (Hpick : forall p src ds w,
             Workcell.devices w !! src = Some ds ->
             RobotArm.has_plate (Workcell.robot w) = false ->
             WorkcellDevice.has_plate ds = true ->
             consistent w -> consistent (workcell_picked p src ds w)).
  { intros p src ds w0 _ _ _ [Hr Hd]. split; cbn.
    - unfold robot_consistent; cbn. split; eauto.
    - apply map_Forall_insert_2; [|exact Hd].
      unfold device_consistent; cbn. split; [discriminate|]. intros [x Hx]; discriminate. }
  assert (Hplace : forall dst dd w,
             Workcell.devices w !! dst = Some dd ->
             RobotArm.has_plate (Workcell.robot w) = true ->
             WorkcellDevice.has_plate dd = false ->
             consistent w -> consistent (workcell_placed dst dd w)).
  { intros dst dd w0 _ Hh _ [Hr Hd]. split; cbn.
    - unfold robot_consistent; cbn. split; [discriminate|]. intros [x Hx]; discriminate.
    - apply map_Forall_insert_2; [|exact Hd].
      unfold device_consistent; cbn. split; [intros _; now apply Hr|reflexivity]. }
  assert (Hprocess : forall key d w,
             Workcell.devices w !! key = Some d ->
             WorkcellDevice.has_plate d = true ->
             consistent w ->
             consistent (Workcell.set_devices
                           (<[key := WorkcellDevice.set_status complete
                                       (WorkcellDevice.set_status processing d)]>
                              (Workcell.devices w)) w)).
  { intros key d w0 Hk _ [Hr Hd]. split; cbn; [exact Hr|].
    apply map_Forall_insert_2; [|exact Hd]. exact (Hd key d Hk). }
  assert (Hinterrupt : forall key d w,
             Workcell.devices w !! key = Some d ->
             WorkcellDevice.has_plate d = true ->
             consistent w ->
             consistent (Workcell.set_devices
                           (<[key := WorkcellDevice.set_status processing d]>
                              (Workcell.devices w)) w)).
  { intros key d w0 Hk _ [Hr Hd]. split; cbn; [exact Hr|].
    apply map_Forall_insert_2; [|exact Hd]. exact (Hd key d Hk). }
  assert (Hhome : forall w,
             consistent w ->
             consistent (Workcell.set_robot (robot_moved RobotArm.home (Workcell.robot w)) w)).
  { intros w0 [Hr Hd]. split; [exact Hr|exact Hd]. }
  split; [|split].
  - intros now p src dst.
    apply (kept_by_transfer (fun a b => consistent a -> consistent b)); auto.
  - intros l. apply (kept_by_steps (fun a b => consistent a -> consistent b)); auto.
  - intros clock.
    apply (kept_by_protocol (fun a b => consistent a -> consistent b)); auto.
Qed.

Lemma consistent_kept_witness :
  consistent main_workcell /\
  consistent (snd (Workcell.run_cell_screening_protocol example_clock main_workcell)).
Proof.
  assert (H : consistent main_workcell).
  { split.
    - unfold robot_consistent; cbn. split; [discriminate|]. intros [x Hx]; discriminate.
    - apply map_Forall_lookup. intros k d. unfold main_workcell; cbn.
      rewrite !lookup_insert. repeat case_decide; intros [= <-];
        unfold device_consistent; cbn;
        (split; [try discriminate; eauto | try reflexivity; intros [x Hx]; discriminate]). }
  split; [exact H|].
  exact (proj2 (proj2 (consistent_kept main_workcell H)) example_clock).
Defined.

(** ** Plates in custody *)

Lemma placed_held_ids (dst : string) (dd : WorkcellDevice.t) (w : Workcell.t) :
  Workcell.devices w !! dst = Some dd ->
  RobotArm.has_plate (Workcell.robot w) = true ->
  WorkcellDevice.has_plate dd = false ->
  held_ids (workcell_placed dst dd w) ≡ₚ held_ids w.
Proof.
  intros Hd Hr Hq. unfold held_ids; cbn. unfold robot_held; cbn. rewrite Hr; cbn.
  pose proof (held_in_devices_insert (Workcell.devices w) dst
                (device_loaded (RobotArm.plate_id (Workcell.robot w)) dd) dd Hd) as H.
  assert (E : held_plates dd = []) by (unfold held_plates; now rewrite Hq).
  rewrite E, app_nil_r in H. exact H.
Qed.

(** A pick takes the id of the source out of the devices and puts the id
    of the caller in the gripper. *)
Lemma picked_held_ids (p : PlateId) (src : string) (ds : WorkcellDevice.t)
    (w : Workcell.t) :
  Workcell.devices w !! src = Some ds ->
  RobotArm.has_plate (Workcell.robot w) = false ->
  WorkcellDevice.has_plate ds = true ->
  (held_ids (workcell_picked p src ds w) ++ [WorkcellDevice.plate_id ds] ≡ₚ
   Some p :: held_ids w)%list.
Proof.
  intros Hs Hr Hp. unfold held_ids; cbn. unfold robot_held; cbn. rewrite Hr; cbn.
  pose proof (held_in_devices_insert (Workcell.devices w) src
                (device_unloaded ds) ds Hs) as H.
  assert (E : held_plates ds = [WorkcellDevice.plate_id ds])
    by (unfold held_plates; now rewrite Hp).
  rewrite E in H. now rewrite H.
Qed.

(** X7: a transfer, any list of protocol steps and a run of the protocol
    leave the number of plates in custody (in the gripper and in the
    devices) as it is: no plate is created or dropped, whatever the outcome
    and whatever id the caller passes. *)
Theorem plate_count_kept (w : Workcell.t) :
  (forall now p src dst,
     length (held_ids (snd (Workcell.transfer_plate now p src dst w))) =
     length (held_ids w)) /\
  (forall l, length (held_ids (snd (run_steps l w))) = length (held_ids w)) /\
  (forall clock,
     length (held_ids (snd (Workcell.run_cell_screening_protocol clock w))) =
     length (held_ids w)).
Proof.
  assert (Hpick : forall p src ds w,
             Workcell.devices w !! src = Some ds ->
             RobotArm.has_plate (Workcell.robot w) = false ->
             WorkcellDevice.has_plate ds = true ->
             length (held_ids (workcell_picked p src ds w)) = length (held_ids w)).
  { intros p src ds w0 Hs Hr Hp.
    pose proof (Permutation_length (picked_held_ids p src ds w0 Hs Hr Hp)) as H.
    rewrite length_app in H. cbn [length] in H. lia. }
  assert (Hplace : forall dst dd w,
             Workcell.devices w !! dst = Some dd ->
             RobotArm.has_plate (Workcell.robot w) = true ->
             WorkcellDevice.has_plate dd = false ->
             length (held_ids (workcell_placed dst dd w)) = length (held_ids w)).
  { intros dst dd w0 Hd Hr Hq. now rewrite (placed_held_ids dst dd w0 Hd Hr Hq). }
  assert (Hprocess : forall key d w,
             Workcell.devices w !! key = Some d ->
             WorkcellDevice.has_plate d = true ->
             length (held_ids (Workcell.set_devices
                                 (<[key := WorkcellDevice.set_status complete
                                             (WorkcellDevice.set_status processing d)]>
                                    (Workcell.devices w)) w)) = length (held_ids w)).
  { intros key d w0 Hd Hp. unfold held_ids; cbn. rewrite !length_app. f_equal.
    pose proof (Permutation_length
                  (held_in_devices_insert (Workcell.devices w0) key
                     (WorkcellDevice.set_status complete
                        (WorkcellDevice.set_status processing d)) d Hd)) as H.
    rewrite !length_app in H.
    change (held_plates (WorkcellDevice.set_status complete
                           (WorkcellDevice.set_status processing d)))
      with (held_plates d) in H. lia. }
  assert (Hinterrupt : forall key d w,
             Workcell.devices w !! key = Some d ->
             WorkcellDevice.has_plate d = true ->
             length (held_ids (Workcell.set_devices
                                 (<[key := WorkcellDevice.set_status processing d]>
                                    (Workcell.devices w)) w)) = length (held_ids w)).
  { intros key d w0 Hd Hp. unfold held_ids; cbn. rewrite !length_app. f_equal.
    pose proof (Permutation_length
                  (held_in_devices_insert (Workcell.devices w0) key
                     (WorkcellDevice.set_status processing d) d Hd)) as H.
    rewrite !length_app in H.
    change (held_plates (WorkcellDevice.set_status processing d))
      with (held_plates d) in H. lia. }
  assert (Htrans : forall a b c : Workcell.t,
             length (held_ids b) = length (held_ids a) ->
             length (held_ids c) = length (held_ids b) ->
             length (held_ids c) = length (held_ids a)) by congruence.
  split; [|split].
  - intros now p src dst.
    apply (kept_by_transfer (fun a b => length (held_ids b) = length (held_ids a))); auto.
  - intros l.
    apply (kept_by_steps (fun a b => length (held_ids b) = length (held_ids a))); auto.
  - intros clock.
    apply (kept_by_protocol (fun a b => length (held_ids b) = length (held_ids a))); auto.
Qed.

(** X8: when the caller passes the id that the source device holds, the
    plate ids in custody after [transfer_plate] are those before, also when
    the call fails or raises: after a failed place the plate is in the
    gripper, not lost. *)
Theorem transfer_plate_conserves_ids (now : datetime) (p : PlateId) (src dst : string)
    (w : Workcell.t) :
  (forall ds, Workcell.devices w !! src = Some ds ->
              WorkcellDevice.has_plate ds = true ->
              WorkcellDevice.plate_id ds = Some p) ->
  held_ids (snd (Workcell.transfer_plate now p src dst w)) ≡ₚ held_ids w.
Proof.
  intros Hid.
  destruct (transfer_plate_case_sound now p src dst w)
    as [Hs|ds Hs Hd|ds dd Hs Hd Hr|ds dd Hs Hd Hr Hp|ds dd e Hs Hd Hr Hp Hm1
        |ds dd Hs Hd Hr Hp Hm1 Hne Hq|ds dd e Hs Hd Hr Hp Hm1 Hq Hm2
        |ds dd Hs Hd Hr Hp Hm1 Hq Hm2]; try reflexivity.
  - change (held_ids (workcell_picked p src ds w) ≡ₚ held_ids w).
    pose proof (picked_held_ids p src ds w Hs Hr Hp) as H.
    rewrite (Hid ds Hs Hp) in H.
    rewrite <- Permutation_cons_append in H. now apply Permutation_cons_inv in H.
  - change (held_ids (workcell_picked p src ds w) ≡ₚ held_ids w).
    pose proof (picked_held_ids p src ds w Hs Hr Hp) as H.
    rewrite (Hid ds Hs Hp) in H.
    rewrite <- Permutation_cons_append in H. now apply Permutation_cons_inv in H.
  - change (held_ids (workcell_placed dst
                        (if decide (src = dst) then device_unloaded ds else dd)
                        (workcell_picked p src ds w)) ≡ₚ held_ids w).
    rewrite placed_held_ids.
    + pose proof (picked_held_ids p src ds w Hs Hr Hp) as H.
      rewrite (Hid ds Hs Hp) in H.
      rewrite <- Permutation_cons_append in H. now apply Permutation_cons_inv in H.
    + now apply lookup_after_pick.
    + reflexivity.
    + destruct (decide (src = dst)); [reflexivity|]. destruct Hq; [contradiction|assumption].
Qed.

Lemma transfer_plate_conserves_ids_witness :
  held_ids (snd (Workcell.transfer_plate (example_clock 1) "P1" "Storage" "LiquidHandler"
                   occupied_workcell)) ≡ₚ held_ids occupied_workcell.
Proof.
  apply (transfer_plate_conserves_ids (example_clock 1) "P1" "Storage" "LiquidHandler"
           occupied_workcell).
  intros ds Hs _. vm_compute in Hs. injection Hs as <-. reflexivity.
Defined.

(** ** Moves of the robot *)

(** X9: a transfer that returns [True] makes exactly two moves and leaves
    the robot at the destination device; one that returns [False] makes no
    move, or one move to the source device when it is the place that failed,
    and then the robot holds the plate; one that raises changes nothing. *)
Theorem transfer_plate_moves (now : datetime) (p : PlateId) (src dst : string)
    (w w' : Workcell.t) (r : result bool) :
  Workcell.transfer_plate now p src dst w = (r, w') ->
  match r with
  | Return true =>
      RobotArm.moves_count (Workcell.robot w') =
        (RobotArm.moves_count (Workcell.robot w) + 2)%Z /\
      exists dd, Workcell.devices w !! dst = Some dd /\
                 RobotArm.current_position (Workcell.robot w') = WorkcellDevice.position dd
  | Return false =>
      Workcell.robot w' = Workcell.robot w \/
      (RobotArm.moves_count (Workcell.robot w') =
         (RobotArm.moves_count (Workcell.robot w) + 1)%Z /\
       RobotArm.has_plate (Workcell.robot w') = true /\
       exists ds, Workcell.devices w !! src = Some ds /\
                  RobotArm.current_position (Workcell.robot w') = WorkcellDevice.position ds)
  | Raise _ => w' = w
  end.
Proof.
  intros H.
  pose proof (transfer_plate_case_sound now p src dst w) as Hc. rewrite H in Hc.
  cbn [fst snd] in Hc. clear H.
  destruct Hc as [Hs|ds Hs Hd|ds dd Hs Hd Hr|ds dd Hs Hd Hr Hp|ds dd e Hs Hd Hr Hp Hm1
                  |ds dd Hs Hd Hr Hp Hm1 Hne Hq|ds dd e Hs Hd Hr Hp Hm1 Hq Hm2
                  |ds dd Hs Hd Hr Hp Hm1 Hq Hm2]; try reflexivity; try (now left).
  - right. cbn. split; [reflexivity|]. split; [reflexivity|]. now exists ds.
  - right. cbn. split; [reflexivity|]. split; [reflexivity|]. now exists ds.
  - cbn. split; [lia|]. exists dd. split; [exact Hd|].
    destruct (decide (src = dst)) as [->|_]; [|reflexivity].
    rewrite Hs in Hd. now injection Hd as ->.
Qed.

Lemma transfer_plate_moves_witness :
  RobotArm.moves_count
    (Workcell.robot
       (snd (Workcell.transfer_plate (example_clock 1) "P1" "Storage" "LiquidHandler"
               occupied_workcell))) = 1%Z.
Proof.
  assert (E : Workcell.transfer_plate (example_clock 1) "P1" "Storage" "LiquidHandler"
                occupied_workcell =
              (Return false,
               snd (Workcell.transfer_plate (example_clock 1) "P1" "Storage" "LiquidHandler"
                      occupied_workcell))) by (vm_compute; reflexivity).
  pose proof (transfer_plate_moves (example_clock 1) "P1" "Storage" "LiquidHandler"
                occupied_workcell _ (Return false) E) as H.
  cbv beta iota in H. destruct H as [H|[H _]].
  - apply (f_equal RobotArm.has_plate) in H. vm_compute in H. discriminate H.
  - rewrite H. vm_compute. reflexivity.
Defined.

(** ** A gripper that stays occupied *)

Lemma logged_logged (l1 l2 : list LogEntry.t) (w : Workcell.t) :
  Workcell.set_protocol_log l2 (Workcell.set_protocol_log l1 w) =
  Workcell.set_protocol_log l2 w.
Proof. reflexivity. Qed.

(** X10: while the robot holds a plate, every transfer between registered
    devices returns [False] with the gripper-occupied error, and robot and
    devices stay as they are: only the log grows, by one failed entry per
    call.  Nothing in [transfer_plate] can empty the gripper again. *)
Theorem occupied_gripper_blocks_transfers (calls : list TransferCall) (w : Workcell.t) :
  RobotArm.has_plate (Workcell.robot w) = true ->
  Forall (fun c => is_Some (Workcell.devices w !! call_from c) /\
                   is_Some (Workcell.devices w !! call_to c)) calls ->
  transfer_all calls w =
  (Return (replicate (length calls) false),
   Workcell.set_protocol_log
     (Workcell.protocol_log w ++
      map (fun c => entry_of (call_now c) (call_plate c) (call_from c) (call_to c)
                      (Raise (AlreadyHolding (RobotArm.name (Workcell.robot w))
                                (RobotArm.plate_id (Workcell.robot w))))) calls) w).
Proof.
  intros Hr. revert w Hr. induction calls as [|c calls IH]; intros w Hr Hreg.
  - cbn. rewrite app_nil_r. destruct w; reflexivity.
  - apply Forall_cons in Hreg as [[[ds Hs] [dd Hd]] Hreg].
    cbn [transfer_all]. unfold bind at 1.
    rewrite (transfer_plate_case_complete _ _ _ _ _ _ _
               (transfer_gripper_occupied (call_now c) (call_plate c) (call_from c)
                  (call_to c) w ds dd Hs Hd Hr)).
    unfold bind. rewrite IH; [|exact Hr|exact Hreg].
    cbn [length replicate map]. unfold logged. cbn.
    now rewrite <- app_assoc.
Qed.

Lemma occupied_gripper_blocks_transfers_witness :
  fst (transfer_all
         [ {| call_now := example_clock 2; call_plate := "P0";
              call_from := "LiquidHandler"; call_to := "Storage" |} ]
         (snd (Workcell.transfer_plate (example_clock 1) "P1" "Storage" "LiquidHandler"
                 occupied_workcell))) = Return [false].
Proof.
  rewrite occupied_gripper_blocks_transfers; [reflexivity|vm_compute; reflexivity|].
  repeat constructor; vm_compute; eauto.
Defined.

(** ** The log and the moves of a run *)

Lemma run_steps_one (s : step) (w : Workcell.t) : run_steps [s] w = run_step s w.
Proof. cbn [run_steps]. unfold bind, ret. now destruct (run_step s w) as [[[]|e] w']. Qed.

Lemma step_account_one (s : step) (w : Workcell.t) :
  exists entries, step_account [s] w entries.
Proof.
  unfold step_account. rewrite run_steps_one.
  destruct s as [now p src dst|key duration|]; cbn [run_step mbind list_bind step_calls
    max_moves foldr step_moves app map].
  - pose proof (transfer_plate_case_sound now p src dst w) as Hc. unfold bind.
    destruct (Workcell.transfer_plate now p src dst w) as [r0 w0]. cbn [fst snd] in Hc.
    destruct Hc as [Hs|ds Hs Hd|ds dd Hs Hd Hr|ds dd Hs Hd Hr Hp|ds dd e Hs Hd Hr Hp Hm1
                    |ds dd Hs Hd Hr Hp Hm1 Hne Hq|ds dd e Hs Hd Hr Hp Hm1 Hq Hm2
                    |ds dd Hs Hd Hr Hp Hm1 Hq Hm2]; cbn.
    1-2: exists []; rewrite app_nil_r; repeat split;
      [apply prefix_nil | discriminate | lia | lia].
    all: eexists [_]; repeat split; try reflexivity; lia.
  - unfold bind. rewrite process_step_eq.
    exists []. rewrite app_nil_r.
    destruct (Workcell.devices w !! key) as [d|];
      [destruct (WorkcellDevice.has_plate d); [destruct (sleep_error duration)|]|];
      cbn; repeat split; try reflexivity; lia.
  - unfold bind. rewrite return_home_eq.
    exists []. rewrite app_nil_r.
    destruct (move_error RobotArm.home (Workcell.robot w));
      cbn; repeat split; try reflexivity; lia.
Qed.

Lemma max_moves_nonneg (l : list step) : (0 <= max_moves l)%Z.
Proof. unfold max_moves. induction l as [|[] l IH]; cbn [foldr step_moves]; lia. Qed.

Lemma step_account_all (l : list step) :
  forall w, exists entries, step_account l w entries.
Proof.
  induction l as [|s l IH]; intros w.
  - exists []. unfold step_account; cbn. rewrite app_nil_r.
    repeat split; try reflexivity; lia.
  - destruct (step_account_one s w) as (e1 & Hlog1 & Hpre1 & Hall1 & Hmv1 & Hst1).
    rewrite run_steps_one in Hlog1, Hall1, Hmv1, Hst1.
    cbn [mbind list_bind step_calls app] in Hpre1, Hall1. rewrite app_nil_r in Hpre1, Hall1.
    pose proof (max_moves_nonneg l) as Hnn.
    unfold step_account. cbn [run_steps]. unfold bind.
    destruct (run_step s w) as [[[]|e] w1]; cbn [fst snd] in *.
    + destruct (IH w1) as (e2 & Hlog2 & Hpre2 & Hall2 & Hmv2 & Hst2).
      exists (e1 ++ e2)%list. rewrite Hlog2, Hlog1, <- app_assoc.
      change ((s :: l) ≫= step_calls) with (step_calls s ++ (l ≫= step_calls))%list.
      rewrite !map_app, (Hall1 tt eq_refl).
      split; [reflexivity|]. split; [now apply prefix_app|].
      split; [intros u Hu; now rewrite (Hall2 u Hu)|].
      split; [unfold max_moves in *; cbn [foldr step_moves] in *; destruct s; cbn [step_moves] in *; lia|congruence].
    + exists e1. split; [exact Hlog1|].
      change ((s :: l) ≫= step_calls) with (step_calls s ++ (l ≫= step_calls))%list.
      rewrite map_app.
      split; [etransitivity; [exact Hpre1|apply prefix_app_r; reflexivity]|].
      split; [discriminate|].
      split; [unfold max_moves in *; cbn [foldr step_moves] in *; destruct s; cbn [step_moves] in *; lia|exact Hst1].
Qed.

(** X11: a run of the protocol never raises; the log it shows is the log it
    leaves, which is the old log followed by the entries of its five
    transfers in their fixed order, all five when the protocol completes and
    a prefix of them when it aborts; the robot makes at most eleven moves;
    and the start time is the first reading of the clock. *)
Theorem protocol_accounting (clock : nat -> datetime) (w : Workcell.t) :
  exists o entries,
    Workcell.run_cell_screening_protocol clock w =
      (Return o, snd (Workcell.run_cell_screening_protocol clock w)) /\
    shown_log o = Workcell.protocol_log (snd (Workcell.run_cell_screening_protocol clock w)) /\
    Workcell.protocol_log (snd (Workcell.run_cell_screening_protocol clock w)) =
      (Workcell.protocol_log w ++ entries)%list /\
    map entry_key entries `prefix_of`
      [ (strftime_HMS (clock 1%nat), Workcell.plate_id, "Storage", "LiquidHandler");
        (strftime_HMS (clock 2%nat), Workcell.plate_id, "LiquidHandler", "Centrifuge");
        (strftime_HMS (clock 3%nat), Workcell.plate_id, "Centrifuge", "ThermalCycler");
        (strftime_HMS (clock 4%nat), Workcell.plate_id, "ThermalCycler", "PlateReader");
        (strftime_HMS (clock 5%nat), Workcell.plate_id, "PlateReader", "Storage") ] /\
    (is_complete o = true -> length entries = 5) /\
    (RobotArm.moves_count (Workcell.robot w) <=
     RobotArm.moves_count
       (Workcell.robot (snd (Workcell.run_cell_screening_protocol clock w))) <=
     RobotArm.moves_count (Workcell.robot w) + 11)%Z /\
    Workcell.start_time (snd (Workcell.run_cell_screening_protocol clock w)) =
      Some (clock 0%nat).
Proof.
  destruct (protocol_outcome clock w) as (o & Hrun & Ho).
  destruct (step_account_all (cell_screening_steps clock)
              (Workcell.set_start_time (Some (clock 0%nat)) w))
    as (entries & Hlog & Hpre & Hall & Hmv & Hst).
  rewrite Hrun. cbn [snd]. exists o, entries.
  split; [reflexivity|].
  split.
  { destruct (fst (run_steps _ _)); [destruct Ho as (r & _ & ->)|subst o]; reflexivity. }
  split; [exact Hlog|]. split; [exact Hpre|].
  split.
  { intros Hc. destruct (fst (run_steps _ _)) as [u|e] eqn:E.
    - specialize (Hall u eq_refl). apply (f_equal (@length _)) in Hall.
      now rewrite !length_map in Hall.
    - subst o. discriminate Hc. }
  split; [exact Hmv|exact Hst].
Qed.

(** ** How a run of the protocol can end *)

Lemma unregistered_insert (m : gmap string WorkcellDevice.t) (key k : string)
    (d d' : WorkcellDevice.t) :
  m !! key = Some d -> (<[key := d']> m !! k = None <-> m !! k = None).
Proof.
  intros Hd. rewrite lookup_insert_None. split; [tauto|].
  intros Hk. split; [exact Hk|]. intros ->. congruence.
Qed.

Lemma unregistered_kept_steps (l : list step) (w : Workcell.t) (k : string) :
  Workcell.devices (snd (run_steps l w)) !! k = None <-> Workcell.devices w !! k = None.
Proof.
  revert k.
  apply (kept_by_steps
           (fun a b => forall k, Workcell.devices b !! k = None <->
                                 Workcell.devices a !! k = None));
    try (intros; reflexivity).
  - intros a b c Hab Hbc k. now rewrite Hbc.
  - intros p src ds w0 Hs _ _ k. cbn. now apply unregistered_insert with ds.
  - intros dst dd w0 Hd _ _ k. cbn. now apply unregistered_insert with dd.
  - intros key d w0 Hd _ k. cbn. now apply unregistered_insert with d.
  - intros key d w0 Hd _ k. cbn. now apply unregistered_insert with d.
Qed.

(** A step raises for an unregistered name, for a processing device that
    has no plate, for a dwell time that [time.sleep] refuses, or when the
    move home raises; only the interrupted processing leaves a trace. *)
Lemma run_step_raise (s : step) (w w' : Workcell.t) (e : exn) :
  run_step s w = (Raise e, w') ->
  (w' = w /\
   ((exists k, e = KeyError k /\ k ∈ step_names s /\ Workcell.devices w !! k = None) \/
    (exists key duration d,
       s = Process key duration /\ Workcell.devices w !! key = Some d /\
       WorkcellDevice.has_plate d = false /\
       e = NoPlateTo to_process (WorkcellDevice.name d)) \/
    (s = ReturnHome /\ move_error RobotArm.home (Workcell.robot w) = Some e))) \/
  (exists key duration d,
     s = Process key duration /\ Workcell.devices w !! key = Some d /\
     WorkcellDevice.has_plate d = true /\ sleep_error duration = Some e /\
     w' = Workcell.set_devices
            (<[key := WorkcellDevice.set_status processing d]> (Workcell.devices w)) w).
Proof.
  destruct s as [now p src dst|key duration|]; cbn [run_step step_names].
  - unfold bind. pose proof (transfer_plate_case_sound now p src dst w) as Hc.
    destruct (Workcell.transfer_plate now p src dst w) as [r0 w0]. cbn [fst snd] in Hc.
    destruct Hc as [Hs|ds Hs Hd| | | | | | ]; intros [= <- <-]; left.
    + split; [reflexivity|]. left. exists src. repeat split; [repeat constructor|exact Hs].
    + split; [reflexivity|]. left. exists dst. repeat split; [repeat constructor|exact Hd].
  - unfold bind. rewrite process_step_eq.
    destruct (Workcell.devices w !! key) as [d|] eqn:Hd.
    + destruct (WorkcellDevice.has_plate d) eqn:Hp;
        [destruct (sleep_error duration) as [e'|] eqn:Hsl|]; intros [= <- <-].
      * right. exists key, duration, d. now repeat split.
      * left. split; [reflexivity|]. right; left. exists key, duration, d.
        now repeat split.
    + intros [= <- <-]. left. split; [reflexivity|]. left. exists key.
      repeat split; [repeat constructor|exact Hd].
  - unfold bind. rewrite return_home_eq.
    destruct (move_error RobotArm.home (Workcell.robot w)) as [e'|] eqn:Hm;
      intros [= <- <-].
    left. split; [reflexivity|]. right; right. now split.
Qed.

Lemma run_step_return (s : step) (w w' : Workcell.t) :
  run_step s w = (Return tt, w') ->
  Forall (fun k => is_Some (Workcell.devices w !! k)) (step_names s).
Proof.
  destruct s as [now p src dst|key duration|]; cbn [run_step step_names].
  - unfold bind. pose proof (transfer_plate_case_sound now p src dst w) as Hc.
    destruct (Workcell.transfer_plate now p src dst w) as [r0 w0]. cbn [fst snd] in Hc.
    destruct Hc; try discriminate; intros _; repeat constructor; eauto.
  - unfold bind. rewrite process_step_eq.
    destruct (Workcell.devices w !! key) as [d|] eqn:Hd; [|discriminate].
    intros _. repeat constructor. eauto.
  - intros _. constructor.
Qed.

Lemma run_steps_end (l : list step) :
  forall (w w' : Workcell.t) (r : result unit),
    run_steps l w = (r, w') ->
    match r with
    | Return _ => Forall (fun k => is_Some (Workcell.devices w !! k)) (l ≫= step_names)
    | Raise e =>
        (exists k, e = KeyError k /\ k ∈ l ≫= step_names /\
                   Workcell.devices w !! k = None) \/
        (exists key duration d,
           Process key duration ∈ l /\ Workcell.devices w' !! key = Some d /\
           WorkcellDevice.has_plate d = false /\
           e = NoPlateTo to_process (WorkcellDevice.name d)) \/
        (ReturnHome ∈ l /\ move_error RobotArm.home (Workcell.robot w') = Some e) \/
        (exists key duration,
           Process key duration ∈ l /\ sleep_error duration = Some e)
    end.
Proof.
  induction l as [|s l IH]; intros w w' r.
  - intros [= <- <-]. constructor.
  - cbn [run_steps]. unfold bind.
    change ((s :: l) ≫= step_names) with (step_names s ++ (l ≫= step_names))%list.
    destruct (run_step s w) as [[[]|e] w1] eqn:Hs.
    + intros Hl. specialize (IH w1 w' r Hl).
      pose proof (unregistered_kept_steps [s] w) as Hk. rewrite run_steps_one, Hs in Hk.
      cbn [snd] in Hk.
      destruct r as [u|e].
      * apply Forall_app. split; [now apply run_step_return with w1|].
        eapply Forall_impl; [exact IH|]. intros k Hsome. cbn beta in *.
        rewrite <- not_eq_None_Some in *. now rewrite <- Hk.
      * destruct IH as [(k & -> & Hin & Hnone)|[(key & duration & d & Hin & H)
                        |[[Hin H]|(key & duration & Hin & H)]]].
        -- left. exists k. repeat split; [apply elem_of_app; now right|now apply Hk].
        -- right; left. exists key, duration, d.
           split; [apply elem_of_cons; now right|exact H].
        -- right; right; left. split; [apply elem_of_cons; now right|exact H].
        -- right; right; right. exists key, duration.
           split; [apply elem_of_cons; now right|exact H].
    + intros [= <- <-].
      destruct (run_step_raise s w w1 e Hs)
        as [[-> [(k & -> & Hin & Hnone)|[(key & duration & d & -> & H)|[-> H]]]]
            |(key & duration & d & -> & _ & _ & H & _)].
      * left. exists k. repeat split; [apply elem_of_app; now left|exact Hnone].
      * right; left. exists key, duration, d. split; [apply elem_of_cons; now left|exact H].
      * right; right; left. split; [apply elem_of_cons; now left|exact H].
      * right; right; right. exists key, duration.
        split; [apply elem_of_cons; now left|exact H].
Qed.

(** X12: a run of the protocol ends in one of four ways.  It completes,
    and then the five device names are registered; or it aborts with the
    [KeyError] of one of the five names, which is not registered; or it
    aborts with the no-plate error of one of the four processing devices,
    which holds no plate in the workcell that is left; or it aborts with
    the error of the interpreter that the last move, to the home position,
    has raised.  A failed transfer alone never aborts the run, and the four
    dwell times of the protocol are accepted by [time.sleep]. *)
Theorem protocol_ends (clock : nat -> datetime) (w w' : Workcell.t)
    (o : Workcell.outcome) :
  Workcell.run_cell_screening_protocol clock w = (Return o, w') ->
  match o with
  | Workcell.ProtocolComplete _ _ =>
      Forall (fun k => is_Some (Workcell.devices w !! k))
        ["Storage"; "LiquidHandler"; "Centrifuge"; "ThermalCycler"; "PlateReader"]
  | Workcell.ProtocolFailed e _ =>
      (exists k, e = KeyError k /\
                 k ∈ ["Storage"; "LiquidHandler"; "Centrifuge"; "ThermalCycler";
                      "PlateReader"] /\
                 Workcell.devices w !! k = None) \/
      (exists key d,
         key ∈ ["LiquidHandler"; "Centrifuge"; "ThermalCycler"; "PlateReader"] /\
         Workcell.devices w' !! key = Some d /\
         WorkcellDevice.has_plate d = false /\
         e = NoPlateTo to_process (WorkcellDevice.name d)) \/
      (move_error RobotArm.home (Workcell.robot w') = Some e /\ is_move_error e)
  end.
Proof.
  destruct (protocol_outcome clock w) as (o' & Hrun & Ho).
  destruct (run_steps (cell_screening_steps clock) _) as [r w1] eqn:Hsteps.
  pose proof (run_steps_end _ _ _ _ Hsteps) as Hend. cbn [fst snd] in *.
  rewrite Hrun. intros [= <- <-].
  destruct r as [u|e].
  - destruct Ho as (rep & _ & ->).
    rewrite Forall_forall in Hend |- *. intros k Hk.
    apply (Hend k). cbn.
    repeat (apply elem_of_cons in Hk as [Hk|Hk]); [..|now apply elem_of_nil in Hk];
      subst k; repeat constructor.
  - subst o'.
    destruct Hend as [(k & -> & Hin & Hnone)|[(key & duration & d & Hin & H)
                      |[[_ H]|(key & duration & Hin & H)]]].
    + left. exists k. repeat split; [|exact Hnone]. cbn in Hin.
      repeat (apply elem_of_cons in Hin as [Hin|Hin]); [..|now apply elem_of_nil in Hin];
        subst k; repeat constructor.
    + right; left. exists key, d. split; [|exact H].
      unfold cell_screening_steps in Hin.
      repeat (apply elem_of_cons in Hin as [Hin|Hin]); [..|now apply elem_of_nil in Hin];
        try discriminate Hin; injection Hin as -> _; repeat constructor.
    + right; right. split; [exact H|]. now apply move_error_is_move_error in H.
    + exfalso. unfold cell_screening_steps in Hin.
      repeat (apply elem_of_cons in Hin as [Hin|Hin]); [..|now apply elem_of_nil in Hin];
        try discriminate Hin; injection Hin as _ ->; discriminate H.
Qed.

Lemma protocol_ends_witness :
  exists key d,
    key ∈ ["LiquidHandler"; "Centrifuge"; "ThermalCycler"; "PlateReader"] /\
    Workcell.devices
      (snd (Workcell.run_cell_screening_protocol example_clock empty_workcell)) !! key =
      Some d /\
    WorkcellDevice.has_plate d = false.
Proof.
  assert (E : Workcell.run_cell_screening_protocol example_clock empty_workcell =
              (Return (Workcell.ProtocolFailed (NoPlateTo to_process "LiquidHandler")
                         (Workcell.protocol_log
                            (snd (Workcell.run_cell_screening_protocol example_clock
                                    empty_workcell)))),
               snd (Workcell.run_cell_screening_protocol example_clock empty_workcell)))
    by (vm_compute; reflexivity).
  pose proof (protocol_ends example_clock empty_workcell _ _ E) as H.
  cbv beta iota in H.
  destruct H as [(k & Hk & _)|[(key & d & H1 & H2 & H3 & _)|[_ [H|[H|[H|[H|H]]]]]]];
    try discriminate.
  exists key, d. auto.
Defined.

(** ** The protocol when nothing is in the way *)

Lemma transfer_done_eq (now : datetime) (p : PlateId) (src dst : string) (w : Workcell.t)
    (ds dd : WorkcellDevice.t) :
  Workcell.devices w !! src = Some ds ->
  Workcell.devices w !! dst = Some dd ->
  RobotArm.has_plate (Workcell.robot w) = false ->
  WorkcellDevice.has_plate ds = true ->
  src <> dst ->
  WorkcellDevice.has_plate dd = false ->
  move_error (WorkcellDevice.position ds) (Workcell.robot w) = None ->
  move_error (WorkcellDevice.position dd) (robot_picked p ds (Workcell.robot w)) = None ->
  run_step (Transfer now p src dst) w =
  (Return tt,
   logged now p src dst (Return true)
     (workcell_placed dst dd (workcell_picked p src ds w))).
Proof.
  intros Hs Hd Hr Hp Hne Hq Hm1 Hm2. cbn [run_step]. unfold bind.
  rewrite (transfer_plate_case_complete _ _ _ _ _ _ _
             (transfer_done now p src dst w ds dd Hs Hd Hr Hp Hm1 (or_intror Hq) Hm2)).
  now destruct (decide (src = dst)).
Qed.

Lemma route_clear_ext (targets : list Position.t) :
  forall r r',
    RobotArm.speed r' = RobotArm.speed r ->
    RobotArm.current_position r' = RobotArm.current_position r ->
    route_clear r' targets = route_clear r targets.
Proof.
  induction targets as [|t targets IH]; intros r r' Hs Hp; [reflexivity|].
  cbn [route_clear]. rewrite (move_error_ext t r' r Hs Hp).
  destruct (move_error t r); [reflexivity|]. now apply IH.
Qed.

(** The first leg of a clear route raises nothing, for any robot of the
    same speed at the same position, and the rest of the route is clear
    from its target. *)
Lemma route_clear_cons (r : RobotArm.t) (t : Position.t) (targets : list Position.t) :
  route_clear r (t :: targets) = true ->
  (forall r', RobotArm.speed r' = RobotArm.speed r ->
              RobotArm.current_position r' = RobotArm.current_position r ->
              move_error t r' = None) /\
  route_clear (RobotArm.set_current_position t r) targets = true.
Proof.
  cbn [route_clear]. destruct (move_error t r) eqn:Hm; [discriminate|].
  intros H. split; [|exact H].
  intros r' Hs Hp. now rewrite (move_error_ext t r' r Hs Hp).
Qed.

Lemma process_done_eq (key : string) (duration : Z) (w : Workcell.t)
    (d : WorkcellDevice.t) :
  Workcell.devices w !! key = Some d ->
  WorkcellDevice.has_plate d = true ->
  sleep_error duration = None ->
  run_step (Process key duration) w =
  (Return tt,
   Workcell.set_devices
     (<[key := WorkcellDevice.set_status complete
                 (WorkcellDevice.set_status processing d)]> (Workcell.devices w)) w).
Proof.
  intros Hd Hp Hsl. cbn [run_step]. unfold bind.
  now rewrite process_step_eq, Hd, Hp, Hsl.
Qed.

Lemma report_fields (w w' : Workcell.t) (r : Workcell.Report) :
  Workcell.report w = (Return r, w') ->
  Workcell.total_transfers r = Z.of_nat (length (Workcell.protocol_log w)) /\
  Workcell.successful_transfers r =
    Z.of_nat (length (List.filter LogEntry.is_success (Workcell.protocol_log w))) /\
  Workcell.robot_movements r = RobotArm.moves_count (Workcell.robot w) /\
  Workcell.est_distance r = (RobotArm.moves_count (Workcell.robot w) * 400)%Z.
Proof.
  unfold Workcell.report, bind at 1, get.
  destruct (0 <? Z.of_nat (length (Workcell.protocol_log w)))%Z.
  - unfold bind, truediv.
    destruct (Z.of_nat (length (Workcell.protocol_log w)) =? 0)%Z; [discriminate|].
    cbn. intros [= <- _]. now repeat split.
  - unfold bind. cbn. intros [= <- _]. now repeat split.
Qed.

Ltac lookup_device :=
  cbn [Workcell.devices Workcell.robot logged workcell_placed workcell_picked
       Workcell.set_devices Workcell.set_robot Workcell.set_protocol_log
       Workcell.set_start_time];
  repeat (rewrite lookup_insert_eq || rewrite lookup_insert_ne by congruence);
  try eassumption; try reflexivity.

(** The ten steps of the protocol, run from a workcell with the plate in
    Storage, nothing in their way and a route on which no move raises. *)
Lemma protocol_steps_clear (clock : nat -> datetime) (w : Workcell.t)
    (dS dL dC dT dP : WorkcellDevice.t) :
  Workcell.devices w !! "Storage" = Some dS ->
  Workcell.devices w !! "LiquidHandler" = Some dL ->
  Workcell.devices w !! "Centrifuge" = Some dC ->
  Workcell.devices w !! "ThermalCycler" = Some dT ->
  Workcell.devices w !! "PlateReader" = Some dP ->
  WorkcellDevice.has_plate dS = true ->
  WorkcellDevice.has_plate dL = false ->
  WorkcellDevice.has_plate dC = false ->
  WorkcellDevice.has_plate dT = false ->
  WorkcellDevice.has_plate dP = false ->
  RobotArm.has_plate (Workcell.robot w) = false ->
  route_clear (Workcell.robot w) (protocol_route dS dL dC dT dP) = true ->
  exists w',
    run_steps (cell_screening_steps clock)
      (Workcell.set_start_time (Some (clock 0%nat)) w) = (Return tt, w') /\
    Workcell.protocol_log w' =
      (Workcell.protocol_log w ++
       [ entry_of (clock 1%nat) Workcell.plate_id "Storage" "LiquidHandler" (Return true);
         entry_of (clock 2%nat) Workcell.plate_id "LiquidHandler" "Centrifuge" (Return true);
         entry_of (clock 3%nat) Workcell.plate_id "Centrifuge" "ThermalCycler" (Return true);
         entry_of (clock 4%nat) Workcell.plate_id "ThermalCycler" "PlateReader" (Return true);
         entry_of (clock 5%nat) Workcell.plate_id "PlateReader" "Storage" (Return true) ])%list /\
    Workcell.devices w' !! "Storage" =
      Some (device_loaded (Some Workcell.plate_id) (device_unloaded dS)) /\
    Workcell.devices w' !! "LiquidHandler" =
      Some (device_unloaded (device_processed (device_loaded (Some Workcell.plate_id) dL))) /\
    Workcell.devices w' !! "Centrifuge" =
      Some (device_unloaded (device_processed (device_loaded (Some Workcell.plate_id) dC))) /\
    Workcell.devices w' !! "ThermalCycler" =
      Some (device_unloaded (device_processed (device_loaded (Some Workcell.plate_id) dT))) /\
    Workcell.devices w' !! "PlateReader" =
      Some (device_unloaded (device_processed (device_loaded (Some Workcell.plate_id) dP))) /\
    (forall k, k ∉ ["Storage"; "LiquidHandler"; "Centrifuge"; "ThermalCycler"; "PlateReader"] ->
               Workcell.devices w' !! k = Workcell.devices w !! k) /\
    RobotArm.has_plate (Workcell.robot w') = false /\
    RobotArm.plate_id (Workcell.robot w') = None /\
    RobotArm.current_position (Workcell.robot w') = RobotArm.home /\
    RobotArm.moves_count (Workcell.robot w') =
      (RobotArm.moves_count (Workcell.robot w) + 11)%Z.
Proof.
  intros HS HL HC HT HP pS pL pC pT pP Hr Hroute.
  unfold protocol_route in Hroute.
  apply route_clear_cons in Hroute as [M1 Hroute].
  apply route_clear_cons in Hroute as [M2 Hroute].
  apply route_clear_cons in Hroute as [M3 Hroute].
  apply route_clear_cons in Hroute as [M4 Hroute].
  apply route_clear_cons in Hroute as [M5 Hroute].
  apply route_clear_cons in Hroute as [M6 Hroute].
  apply route_clear_cons in Hroute as [M7 Hroute].
  apply route_clear_cons in Hroute as [M8 Hroute].
  apply route_clear_cons in Hroute as [M9 Hroute].
  apply route_clear_cons in Hroute as [M10 Hroute].
  apply route_clear_cons in Hroute as [M11 _].
  eassert (Hsteps : run_steps (cell_screening_steps clock)
                      (Workcell.set_start_time (Some (clock 0%nat)) w) = (Return tt, _)).
  { unfold cell_screening_steps. cbn [run_steps].
    unfold bind at 1.
    erewrite transfer_done_eq;
      [|lookup_device..|discriminate|lookup_device
       |apply M1; reflexivity|apply M2; reflexivity].
    unfold bind at 1. erewrite process_done_eq; [|lookup_device..].
    unfold bind at 1.
    erewrite transfer_done_eq;
      [|lookup_device..|discriminate|lookup_device
       |apply M3; reflexivity|apply M4; reflexivity].
    unfold bind at 1. erewrite process_done_eq; [|lookup_device..].
    unfold bind at 1.
    erewrite transfer_done_eq;
      [|lookup_device..|discriminate|lookup_device
       |apply M5; reflexivity|apply M6; reflexivity].
    unfold bind at 1. erewrite process_done_eq; [|lookup_device..].
    unfold bind at 1.
    erewrite transfer_done_eq;
      [|lookup_device..|discriminate|lookup_device
       |apply M7; reflexivity|apply M8; reflexivity].
    unfold bind at 1. erewrite process_done_eq; [|lookup_device..].
    unfold bind at 1.
    erewrite transfer_done_eq;
      [|lookup_device..|discriminate|lookup_device
       |apply M9; reflexivity|apply M10; reflexivity].
    unfold bind at 1. cbn [run_step]. rewrite return_home_eq.
    rewrite M11 by reflexivity. reflexivity. }
  eexists. split; [exact Hsteps|].
  split; [cbn; now rewrite <- !app_assoc|].
  do 5 (split; [lookup_device|]).
  split.
  { intros k Hk.
    assert (Hne : k <> "Storage" /\ k <> "LiquidHandler" /\ k <> "Centrifuge" /\
                  k <> "ThermalCycler" /\ k <> "PlateReader").
    { repeat split; intros ->; apply Hk; repeat constructor. }
    destruct Hne as (? & ? & ? & ? & ?). lookup_device. }
  split; [reflexivity|]. split; [reflexivity|]. split; [reflexivity|].
  cbn. lia.
Qed.

(** X13: in a workcell where the five devices are registered, Storage has a
    plate, the four other devices have none, the gripper is free and none
    of the eleven moves of the route raises, the protocol completes: five
    success entries are appended, the plate is back in Storage under the
    protocol's plate id (whatever id Storage held before), the four other
    devices are empty and idle again, the robot is at home with a free
    gripper after eleven moves, and no other device is touched. *)
Theorem protocol_completes (clock : nat -> datetime) (w : Workcell.t)
    (dS dL dC dT dP : WorkcellDevice.t) :
  Workcell.devices w !! "Storage" = Some dS ->
  Workcell.devices w !! "LiquidHandler" = Some dL ->
  Workcell.devices w !! "Centrifuge" = Some dC ->
  Workcell.devices w !! "ThermalCycler" = Some dT ->
  Workcell.devices w !! "PlateReader" = Some dP ->
  WorkcellDevice.has_plate dS = true ->
  WorkcellDevice.has_plate dL = false ->
  WorkcellDevice.has_plate dC = false ->
  WorkcellDevice.has_plate dT = false ->
  WorkcellDevice.has_plate dP = false ->
  RobotArm.has_plate (Workcell.robot w) = false ->
  route_clear (Workcell.robot w) (protocol_route dS dL dC dT dP) = true ->
  exists r w',
    Workcell.run_cell_screening_protocol clock w =
      (Return (Workcell.ProtocolComplete r (Workcell.protocol_log w')), w') /\
    Workcell.protocol_log w' =
      (Workcell.protocol_log w ++
       [ entry_of (clock 1%nat) Workcell.plate_id "Storage" "LiquidHandler" (Return true);
         entry_of (clock 2%nat) Workcell.plate_id "LiquidHandler" "Centrifuge" (Return true);
         entry_of (clock 3%nat) Workcell.plate_id "Centrifuge" "ThermalCycler" (Return true);
         entry_of (clock 4%nat) Workcell.plate_id "ThermalCycler" "PlateReader" (Return true);
         entry_of (clock 5%nat) Workcell.plate_id "PlateReader" "Storage" (Return true) ])%list /\
    Workcell.total_transfers r = (Z.of_nat (length (Workcell.protocol_log w)) + 5)%Z /\
    Workcell.devices w' !! "Storage" =
      Some (device_loaded (Some Workcell.plate_id) (device_unloaded dS)) /\
    Workcell.devices w' !! "LiquidHandler" =
      Some (device_unloaded (device_processed (device_loaded (Some Workcell.plate_id) dL))) /\
    Workcell.devices w' !! "Centrifuge" =
      Some (device_unloaded (device_processed (device_loaded (Some Workcell.plate_id) dC))) /\
    Workcell.devices w' !! "ThermalCycler" =
      Some (device_unloaded (device_processed (device_loaded (Some Workcell.plate_id) dT))) /\
    Workcell.devices w' !! "PlateReader" =
      Some (device_unloaded (device_processed (device_loaded (Some Workcell.plate_id) dP))) /\
    (forall k, k ∉ ["Storage"; "LiquidHandler"; "Centrifuge"; "ThermalCycler"; "PlateReader"] ->
               Workcell.devices w' !! k = Workcell.devices w !! k) /\
    RobotArm.has_plate (Workcell.robot w') = false /\
    RobotArm.plate_id (Workcell.robot w') = None /\
    RobotArm.current_position (Workcell.robot w') = RobotArm.home /\
    RobotArm.moves_count (Workcell.robot w') =
      (RobotArm.moves_count (Workcell.robot w) + 11)%Z.
Proof.
  intros HS HL HC HT HP pS pL pC pT pP Hr Hroute.
  destruct (protocol_steps_clear clock w dS dL dC dT dP HS HL HC HT HP pS pL pC pT pP Hr
              Hroute)
    as (w' & Hsteps & Hlog & Hstate).
  destruct (protocol_outcome clock w) as (o & Hrun & Ho).
  rewrite Hsteps in Hrun, Ho. cbn [fst snd] in Hrun, Ho.
  destruct Ho as (r & Hrep & ->).
  apply report_fields in Hrep as (Htotal & _).
  exists r, w'. split; [exact Hrun|]. split; [exact Hlog|].
  split; [|exact Hstate].
  rewrite Htotal, Hlog, length_app. cbn [length]. lia.
Qed.

Lemma protocol_completes_witness :
  exists r w',
    Workcell.run_cell_screening_protocol example_clock main_workcell =
      (Return (Workcell.ProtocolComplete r (Workcell.protocol_log w')), w') /\
    Workcell.total_transfers r = 5%Z /\
    RobotArm.moves_count (Workcell.robot w') = 11%Z.
Proof.
  destruct (protocol_completes example_clock main_workcell
              storage liquid_handler centrifuge thermal_cycler plate_reader)
    as (r & w' & Hrun & _ & Htotal & H); [vm_compute; reflexivity..|].
  exists r, w'. split; [exact Hrun|]. split; [exact Htotal|].
  destruct H as (_ & _ & _ & _ & _ & _ & _ & _ & _ & Hmoves). exact Hmoves.
Defined.

(** ** Registering devices *)


(** ** The life cycle of a device *)



(** ** Preconditions of the robot *)

(** X16: [pick_plate] with an occupied gripper raises the gripper-occupied
    error whatever the device holds, and with a free gripper and an empty
    device the empty-device error; [place_plate] with a free gripper raises
    the not-holding error whatever the device holds, and with a plate and an
    occupied device the already-loaded error.  In all four cases robot and
    device are left as they were: the robot has not moved. *)
Theorem robot_precondition_errors (r : RobotArm.t) (d : WorkcellDevice.t) :
  (RobotArm.has_plate r = true ->
   (forall p, RobotArm.pick_plate p (r, d) =
              (Raise (AlreadyHolding (RobotArm.name r) (RobotArm.plate_id r)), (r, d))) /\
   (WorkcellDevice.has_plate d = true ->
    RobotArm.place_plate (r, d) =
      (Raise (AlreadyHasPlate (WorkcellDevice.name d) (WorkcellDevice.plate_id d)), (r, d)))) /\
  (RobotArm.has_plate r = false ->
   (WorkcellDevice.has_plate d = false ->
    forall p, RobotArm.pick_plate p (r, d) =
              (Raise (NoPlateTo to_pick (WorkcellDevice.name d)), (r, d))) /\
   RobotArm.place_plate (r, d) = (Raise (NotHolding (RobotArm.name r)), (r, d))).
Proof.
  split; intros Hr; (split; [|try intros Hd]).
  - intros p. now rewrite pick_plate_eq, Hr.
  - now rewrite place_plate_eq, Hr, Hd.
  - intros Hd p. now rewrite pick_plate_eq, Hr, Hd.
  - now rewrite place_plate_eq, Hr.
Qed.

Lemma robot_precondition_errors_witness :
  RobotArm.place_plate (RobotArm.init "RobotArm", storage) =
    (Raise (NotHolding "RobotArm"), (RobotArm.init "RobotArm", storage)).
Proof.
  exact (proj2 (proj2 (robot_precondition_errors (RobotArm.init "RobotArm") storage)
                  eq_refl)).
Defined.

(** ** Distances and moves *)

(** X17: the distance between two positions is the same in both directions
    and does not depend on their labels, and the distance from a position to
    a position with the same coordinates is zero. *)
Theorem distance_to_symmetric {S} (a b : Position.t) (s : S) :
  distance_to a b s = distance_to b a s /\
  (forall na nb,
     distance_to (mk_position (Position.x a) (Position.y a) (Position.z a) na)
                 (mk_position (Position.x b) (Position.y b) (Position.z b) nb) s =
     distance_to a b s) /\
  (Position.x a = Position.x b -> Position.y a = Position.y b ->
   Position.z a = Position.z b -> distance_to a b s = (Return 0%float, s)).
Proof.
  split; [|split].
  - unfold distance_to.
    replace ((Position.x a - Position.x b) ^ 2 + (Position.y a - Position.y b) ^ 2 +
             (Position.z a - Position.z b) ^ 2)%Z
      with ((Position.x b - Position.x a) ^ 2 + (Position.y b - Position.y a) ^ 2 +
            (Position.z b - Position.z a) ^ 2)%Z by ring.
    reflexivity.
  - reflexivity.
  - intros Hx Hy Hz. unfold distance_to. rewrite Hx, Hy, Hz, !Z.sub_diag.
    vm_compute. reflexivity.
Qed.

Lemma distance_to_symmetric_witness :
  distance_to RobotArm.home (mk_position 0 0 0 "Storage") tt = (Return 0%float, tt).
Proof.
  exact (proj2 (proj2 (distance_to_symmetric RobotArm.home (mk_position 0 0 0 "Storage") tt))
           eq_refl eq_refl eq_refl).
Defined.

Lemma speed_kept_steps (l : list step) (w : Workcell.t) :
  RobotArm.speed (Workcell.robot (snd (run_steps l w))) = RobotArm.speed (Workcell.robot w).
Proof.
  apply (kept_by_steps
           (fun a b => RobotArm.speed (Workcell.robot b) = RobotArm.speed (Workcell.robot a)));
    try (intros; reflexivity).
  intros a b c Hab Hbc. congruence.
Qed.

(** X18: [move_to] computes before it assigns.  It either returns [True]
    with the robot at the target and one more move counted, or raises an
    error of the interpreter and leaves the robot as it was.  A robot of
    speed zero never moves: the call raises the division error, or the
    overflow error when the distance is out of range.  A new robot has
    speed 100 and no step of the protocol changes the speed. *)
Theorem move_to_outcome (target : Position.t) (w : Workcell.t) :
  (forall r,
     (move_error target r = None /\
      RobotArm.move_to target r = (Return true, robot_moved target r) /\
      RobotArm.current_position (robot_moved target r) = target /\
      RobotArm.moves_count (robot_moved target r) = (RobotArm.moves_count r + 1)%Z) \/
     (exists e, move_error target r = Some e /\ is_move_error e /\
                error_kind e = None /\
                RobotArm.move_to target r = (Raise e, r))) /\
  (forall r, RobotArm.speed r = 0%Z ->
     exists e, RobotArm.move_to target r = (Raise e, r) /\
               (e = FloatZeroDivisionError \/ e = OverflowError int_too_large)) /\
  (forall name, RobotArm.speed (Workcell.robot (Workcell.init name)) = 100%Z) /\
  (forall l,
     RobotArm.speed (Workcell.robot (snd (run_steps l w))) =
     RobotArm.speed (Workcell.robot w)) /\
  (forall clock,
     RobotArm.speed (Workcell.robot (snd (Workcell.run_cell_screening_protocol clock w))) =
     RobotArm.speed (Workcell.robot w)).
Proof.
  split; [|split; [|split; [reflexivity|split]]].
  - intros r. rewrite move_to_eq.
    destruct (move_error target r) as [e|] eqn:Hm.
    + right. exists e. pose proof (move_error_is_move_error _ _ _ Hm) as He.
      split; [reflexivity|]. split; [exact He|].
      split; [now apply is_move_error_kind|reflexivity].
    + left. now repeat split.
  - intros r Hr. rewrite move_to_eq.
    assert (Hm : move_error target r = Some FloatZeroDivisionError \/
                 move_error target r = Some (OverflowError int_too_large)).
    { unfold move_error, RobotArm.move_to, distance_to, bind, get. rewrite Hr.
      unfold to_float.
      destruct (PrimFloat.is_infinity (float_of_Z (_ + _ + _)));
        [right; reflexivity|left; reflexivity]. }
    destruct Hm as [-> | ->]; eexists; (split; [reflexivity|]); [now left|now right].
  - intros l. apply speed_kept_steps.
  - intros clock. destruct (protocol_outcome clock w) as (o & -> & _). cbn [snd].
    now rewrite speed_kept_steps.
Qed.

Lemma move_to_outcome_witness :
  (exists e,
     RobotArm.move_to (WorkcellDevice.position storage) stalled_robot =
       (Raise e, stalled_robot) /\
     (e = FloatZeroDivisionError \/ e = OverflowError int_too_large)) /\
  RobotArm.move_to far_position (RobotArm.init "RobotArm") =
    (Raise (OverflowError int_too_large), RobotArm.init "RobotArm") /\
  RobotArm.move_to (WorkcellDevice.position storage) (RobotArm.init "RobotArm") =
    (Return true, robot_moved (WorkcellDevice.position storage) (RobotArm.init "RobotArm")).
Proof.
  split; [|split].
  - exact (proj1 (proj2 (move_to_outcome (WorkcellDevice.position storage) main_workcell))
             stalled_robot eq_refl).
  - destruct (proj1 (move_to_outcome far_position main_workcell) (RobotArm.init "RobotArm"))
      as [[Hm _]|(e & Hm & _ & _ & ->)]; vm_compute in Hm; [discriminate Hm|].
    now injection Hm as <-.
  - destruct (proj1 (move_to_outcome (WorkcellDevice.position storage) main_workcell)
                (RobotArm.init "RobotArm"))
      as [(_ & -> & _)|(e & Hm & _)]; [reflexivity|].
    vm_compute in Hm. discriminate Hm.
Defined.

(** ** Edge cases of transfers and runs *)

(** X19: a transfer from a device to itself is not rejected: with a plate in
    the device, a free gripper and two moves that do not raise (the first
    to the device, the second from the device to itself) it returns
    [True], the robot makes its two moves and ends at the device with a
    free gripper, and the device ends loaded with the id the caller passed,
    its status reset to 'loaded'; every other device is as before. *)
Theorem transfer_plate_same_device (now : datetime) (p : PlateId) (key : string)
    (w : Workcell.t) (d : WorkcellDevice.t) :
  Workcell.devices w !! key = Some d ->
  WorkcellDevice.has_plate d = true ->
  RobotArm.has_plate (Workcell.robot w) = false ->
  move_error (WorkcellDevice.position d) (Workcell.robot w) = None ->
  move_error (WorkcellDevice.position d) (robot_picked p d (Workcell.robot w)) = None ->
  exists w',
    Workcell.transfer_plate now p key key w = (Return true, w') /\
    Workcell.devices w' = <[key := device_loaded (Some p) (device_unloaded d)]>
                            (Workcell.devices w) /\
    Workcell.robot w' =
      robot_placed d (robot_picked p d (Workcell.robot w)) /\
    RobotArm.has_plate (Workcell.robot w') = false /\
    RobotArm.moves_count (Workcell.robot w') =
      (RobotArm.moves_count (Workcell.robot w) + 2)%Z /\
    Workcell.protocol_log w' =
      (Workcell.protocol_log w ++ [entry_of now p key key (Return true)])%list.
Proof.
  intros Hd Hp Hr Hm1 Hm2.
  rewrite (transfer_plate_case_complete _ _ _ _ _ _ _
             (transfer_done now p key key w d d Hd Hd Hr Hp Hm1 (or_introl eq_refl) Hm2)).
  destruct (decide (key = key)) as [_|Hne]; [|contradiction].
  eexists. split; [reflexivity|].
  split; [cbn; now rewrite insert_insert_eq|].
  split; [reflexivity|]. split; [reflexivity|]. split; [cbn; lia|reflexivity].
Qed.

Lemma transfer_plate_same_device_witness :
  fst (Workcell.transfer_plate (example_clock 1) "P9" "Storage" "Storage" main_workcell) =
    Return true.
Proof.
  assert (Hd : Workcell.devices main_workcell !! "Storage" = Some storage)
    by (vm_compute; reflexivity).
  destruct (transfer_plate_same_device (example_clock 1) "P9" "Storage" main_workcell storage
              Hd eq_refl eq_refl) as (w' & H & _); [vm_compute; reflexivity..|].
  now rewrite H.
Defined.

(** The distance is symmetric, so the error of a move is that of the move
    in the opposite direction at the same speed. *)
Lemma move_error_sym (a b : Position.t) (r r' : RobotArm.t) :
  RobotArm.speed r' = RobotArm.speed r ->
  RobotArm.current_position r = a ->
  RobotArm.current_position r' = b ->
  move_error b r = move_error a r'.
Proof.
  intros Hs <- <-.
  unfold move_error, RobotArm.move_to, distance_to, to_float, bind, get.
  rewrite Hs.
  replace ((Position.x (RobotArm.current_position r') -
            Position.x (RobotArm.current_position r)) ^ 2 +
           (Position.y (RobotArm.current_position r') -
            Position.y (RobotArm.current_position r)) ^ 2 +
           (Position.z (RobotArm.current_position r') -
            Position.z (RobotArm.current_position r)) ^ 2)%Z
    with ((Position.x (RobotArm.current_position r) -
           Position.x (RobotArm.current_position r')) ^ 2 +
          (Position.y (RobotArm.current_position r) -
           Position.y (RobotArm.current_position r')) ^ 2 +
          (Position.z (RobotArm.current_position r) -
           Position.z (RobotArm.current_position r')) ^ 2)%Z by ring.
  unfold time_sleep, min_1, modify, raise, ret.
  repeat match goal with
         | |- context [if ?b then _ else _] => destruct b
         end; reflexivity.
Qed.

Lemma route_clear_intro (r : RobotArm.t) (t : Position.t) (targets : list Position.t) :
  move_error t r = None ->
  route_clear (RobotArm.set_current_position t r) targets = true ->
  route_clear r (t :: targets) = true.
Proof. intros Hm H. cbn [route_clear]. now rewrite Hm. Qed.

(** A clear route of the protocol is clear again from the home position:
    its first leg is then the last leg in the opposite direction. *)
Lemma protocol_route_again (r r' : RobotArm.t) (dS dL dC dT dP : WorkcellDevice.t) :
  route_clear r (protocol_route dS dL dC dT dP) = true ->
  RobotArm.speed r' = RobotArm.speed r ->
  RobotArm.current_position r' = RobotArm.home ->
  route_clear r' (protocol_route dS dL dC dT dP) = true.
Proof.
  intros Hroute Hs Hp. unfold protocol_route in *.
  pose proof Hroute as H.
  apply route_clear_cons in H as [_ Hrest]. pose proof Hrest as H.
  do 9 (apply route_clear_cons in H as [_ H]).
  apply route_clear_cons in H as [Hhome _].
  assert (Hfirst : move_error (WorkcellDevice.position dS) r' = None).
  { rewrite (move_error_sym RobotArm.home (WorkcellDevice.position dS) r'
               (RobotArm.set_current_position (WorkcellDevice.position dS) r')
               eq_refl Hp eq_refl).
    apply Hhome; [exact Hs|reflexivity]. }
  apply route_clear_intro; [exact Hfirst|].
  rewrite <- Hrest. now apply route_clear_ext.
Qed.

(** X20: the protocol can be run again.  After a run from a workcell with
    the plate in Storage, nothing in its way and a route on which no move
    raises, a second run completes as well, and it leaves every device
    exactly as the first run left it; the two runs append ten entries and
    make twenty-two moves. *)
Theorem protocol_repeatable (clock clock' : nat -> datetime) (w : Workcell.t)
    (dS dL dC dT dP : WorkcellDevice.t) :
  Workcell.devices w !! "Storage" = Some dS ->
  Workcell.devices w !! "LiquidHandler" = Some dL ->
  Workcell.devices w !! "Centrifuge" = Some dC ->
  Workcell.devices w !! "ThermalCycler" = Some dT ->
  Workcell.devices w !! "PlateReader" = Some dP ->
  WorkcellDevice.has_plate dS = true ->
  WorkcellDevice.has_plate dL = false ->
  WorkcellDevice.has_plate dC = false ->
  WorkcellDevice.has_plate dT = false ->
  WorkcellDevice.has_plate dP = false ->
  RobotArm.has_plate (Workcell.robot w) = false ->
  route_clear (Workcell.robot w) (protocol_route dS dL dC dT dP) = true ->
  exists r1 w1 r2 w2,
    Workcell.run_cell_screening_protocol clock w =
      (Return (Workcell.ProtocolComplete r1 (Workcell.protocol_log w1)), w1) /\
    Workcell.run_cell_screening_protocol clock' w1 =
      (Return (Workcell.ProtocolComplete r2 (Workcell.protocol_log w2)), w2) /\
    Workcell.devices w2 = Workcell.devices w1 /\
    length (Workcell.protocol_log w2) = length (Workcell.protocol_log w) + 10 /\
    RobotArm.moves_count (Workcell.robot w2) =
      (RobotArm.moves_count (Workcell.robot w) + 22)%Z /\
    RobotArm.current_position (Workcell.robot w2) = RobotArm.home.
Proof.
  intros HS HL HC HT HP pS pL pC pT pP Hr Hroute.
  destruct (protocol_steps_clear clock w dS dL dC dT dP HS HL HC HT HP pS pL pC pT pP Hr
              Hroute)
    as (w1 & Hsteps1 & Hlog1 & HS1 & HL1 & HC1 & HT1 & HP1 & Hother1 & Hr1 & _ & Hpos1 & Hm1).
  assert (Hspeed : RobotArm.speed (Workcell.robot w1) = RobotArm.speed (Workcell.robot w)).
  { pose proof (speed_kept_steps (cell_screening_steps clock)
                  (Workcell.set_start_time (Some (clock 0%nat)) w)) as H.
    now rewrite Hsteps1 in H. }
  pose proof (protocol_route_again _ _ dS dL dC dT dP Hroute Hspeed Hpos1) as Hroute1.
  destruct (protocol_steps_clear clock' w1 _ _ _ _ _ HS1 HL1 HC1 HT1 HP1
              eq_refl eq_refl eq_refl eq_refl eq_refl Hr1 Hroute1)
    as (w2 & Hsteps2 & Hlog2 & HS2 & HL2 & HC2 & HT2 & HP2 & Hother2 & _ & _ & Hpos2 & Hm2).
  destruct (protocol_outcome clock w) as (o1 & Hrun1 & Ho1).
  rewrite Hsteps1 in Hrun1, Ho1. cbn [fst snd] in Hrun1, Ho1.
  destruct Ho1 as (r1 & _ & ->).
  destruct (protocol_outcome clock' w1) as (o2 & Hrun2 & Ho2).
  rewrite Hsteps2 in Hrun2, Ho2. cbn [fst snd] in Hrun2, Ho2.
  destruct Ho2 as (r2 & _ & ->).
  exists r1, w1, r2, w2. split; [exact Hrun1|]. split; [exact Hrun2|].
  split.
  { apply map_eq. intros k.
    destruct (decide (k = "Storage")) as [->|?]; [now rewrite HS2, HS1|].
    destruct (decide (k = "LiquidHandler")) as [->|?]; [now rewrite HL2, HL1|].
    destruct (decide (k = "Centrifuge")) as [->|?]; [now rewrite HC2, HC1|].
    destruct (decide (k = "ThermalCycler")) as [->|?]; [now rewrite HT2, HT1|].
    destruct (decide (k = "PlateReader")) as [->|?]; [now rewrite HP2, HP1|].
    apply Hother2. intros Hin.
    repeat (apply elem_of_cons in Hin as [Hin|Hin]); try contradiction.
    now apply elem_of_nil in Hin. }
  split; [rewrite Hlog2, Hlog1, !length_app; cbn [length]; lia|].
  split; [lia|exact Hpos2].
Qed.

Lemma protocol_repeatable_witness :
  exists r1 w1 r2 w2,
    Workcell.run_cell_screening_protocol example_clock main_workcell =
      (Return (Workcell.ProtocolComplete r1 (Workcell.protocol_log w1)), w1) /\
    Workcell.run_cell_screening_protocol example_clock w1 =
      (Return (Workcell.ProtocolComplete r2 (Workcell.protocol_log w2)), w2) /\
    Workcell.devices w2 = Workcell.devices w1.
Proof.
  destruct (protocol_repeatable example_clock example_clock main_workcell
              storage liquid_handler centrifuge thermal_cycler plate_reader)
    as (r1 & w1 & r2 & w2 & H1 & H2 & H3 & _);
    [vm_compute; reflexivity..|].
  exists r1, w1, r2, w2. auto.
Defined.

(** X21: when Storage and LiquidHandler are registered and empty and the
    gripper is free, the protocol aborts at its first processing step: the
    first transfer is logged as failed with the no-plate-to-pick message,
    LiquidHandler has nothing to process, and the workcell is left as it was
    but for that one entry and the start time; the robot has not moved. *)
Theorem protocol_without_plate (clock : nat -> datetime) (w : Workcell.t)
    (dS dL : WorkcellDevice.t) :
  Workcell.devices w !! "Storage" = Some dS ->
  Workcell.devices w !! "LiquidHandler" = Some dL ->
  WorkcellDevice.has_plate dS = false ->
  WorkcellDevice.has_plate dL = false ->
  RobotArm.has_plate (Workcell.robot w) = false ->
  Workcell.run_cell_screening_protocol clock w =
  (Return
     (Workcell.ProtocolFailed (NoPlateTo to_process (WorkcellDevice.name dL))
        (Workcell.protocol_log w ++
         [entry_of (clock 1%nat) Workcell.plate_id "Storage" "LiquidHandler"
            (Raise (NoPlateTo to_pick (WorkcellDevice.name dS)))])),
   Workcell.set_protocol_log
     (Workcell.protocol_log w ++
      [entry_of (clock 1%nat) Workcell.plate_id "Storage" "LiquidHandler"
         (Raise (NoPlateTo to_pick (WorkcellDevice.name dS)))])
     (Workcell.set_start_time (Some (clock 0%nat)) w)).
Proof.
  intros HS HL pS pL Hr.
  set (w0 := Workcell.set_start_time (Some (clock 0%nat)) w).
  set (w1 := logged (clock 1%nat) Workcell.plate_id "Storage" "LiquidHandler"
               (Raise (NoPlateTo to_pick (WorkcellDevice.name dS))) w0).
  assert (Hsteps : run_steps (cell_screening_steps clock) w0 =
                   (Raise (NoPlateTo to_process (WorkcellDevice.name dL)), w1)).
  { apply (run_steps_raise
             [Transfer (clock 1%nat) Workcell.plate_id "Storage" "LiquidHandler"]
             (skipn 2 (cell_screening_steps clock)) (Process "LiquidHandler" 3) w0 w1 w1).
    - rewrite run_steps_one. cbn [run_step]. unfold bind.
      now rewrite (transfer_plate_case_complete _ _ _ _ _ _ _
                     (transfer_source_empty (clock 1%nat) Workcell.plate_id "Storage"
                        "LiquidHandler" w0 dS dL HS HL Hr pS)).
    - cbn [run_step]. unfold bind. rewrite process_step_eq.
      change (Workcell.devices w1) with (Workcell.devices w).
      now rewrite HL, pL. }
  rewrite run_protocol_as_steps. fold w0. unfold try_except, bind at 1.
  rewrite Hsteps. reflexivity.
Qed.

Lemma protocol_without_plate_witness :
  fst (Workcell.run_cell_screening_protocol example_clock empty_workcell) =
  Return
    (Workcell.ProtocolFailed (NoPlateTo to_process "LiquidHandler")
       [entry_of (example_clock 1) Workcell.plate_id "Storage" "LiquidHandler"
          (Raise (NoPlateTo to_pick "Storage"))]).
Proof.
  rewrite (protocol_without_plate example_clock empty_workcell
             (WorkcellDevice.init "Storage" (mk_position 100 200 50 "Storage"))
             liquid_handler); [reflexivity|vm_compute; reflexivity..].
Defined.
